(** * Sticky Note MCP server: a shallow embedding and its verified properties

  The development follows the layout of the Python package [server]:

  - [Py]           the fragment of Python the package relies on: values
                   decoded from JSON, truthiness, [dict.get], [str],
                   exceptions, [str.replace], [str.strip], slicing;
  - [Base]         [frameworks/base.py]: [HistoryEntry], [SessionContext];
  - [Codex]        [frameworks/codex.py]: the line-format provider;
  - [Copilot]      [frameworks/copilot.py]: the JSON-document provider;
  - [Storage]      [storage.py]: [StickyNote] and its (de)serialisation;
  - [SessionState] [session_state.py]: [SessionNoteTracker];
  - [Main]         [main.py]: the matching engine and the two tools.

  What Python's standard library provides ([re], [json.dumps],
  [datetime.isoformat], [datetime.fromisoformat], the system time zone)
  is the class [Runtime]; the embedding is parametric in it.  A concrete
  instance, [Reference.runtime], is used to run the model on the inputs of
  the repository's tests. *)

From Stdlib Require Import ZArith String Ascii List Bool Lia DecimalString Sorted.
From stdpp Require Import base option list gmap strings.

Import ListNotations.
Set Warnings "-register-all".
Local Open Scope string_scope.
Local Open Scope list_scope.
Local Open Scope Z_scope.

(* ===================================================================== *)
(** * The Python fragment                                                 *)
(* ===================================================================== *)

Module Py.

(** ** Values

    Every value the providers handle is the result of [json.loads]: the
    decoded objects are [None], [bool], [int], [str], [list] and [dict].
    JSON numbers are modelled by Python [int]s.  A [dict] keeps its items
    in insertion order; a decoded dict has pairwise distinct keys. *)
Inductive json : Type :=
| JNull
| JBool (b : bool)
| JNum (n : Z)
| JStr (s : string)
| JArr (items : list json)
| JObj (fields : list (string * json)).

(** ** Exceptions *)
Inductive exn : Type :=
| AttributeError | TypeError | ValueError | KeyError
| OverflowError | FileNotFoundError | RuntimeError | RecursionError.

Inductive result (A : Type) : Type :=
| Ok (a : A)
| Raise (e : exn).
Arguments Ok {A} a.
Arguments Raise {A} e.

Definition bind {A B} (m : result A) (k : A -> result B) : result B :=
  match m with
  | Ok a => k a
  | Raise e => Raise e
  end.


(** A loop that extends a list with what [f] gives for each item; the
    first exception ends it. *)
Fixpoint flat_mapM {A B} (f : A -> result (list B)) (l : list A)
  : result (list B) :=
  match l with
  | [] => Ok []
  | x :: rest =>
      bind (f x) (fun ys =>
      bind (flat_mapM f rest) (fun zs =>
      Ok (ys ++ zs)))
  end.

(** ** Truthiness: [bool(v)] *)
Definition truthy (v : json) : bool :=
  match v with
  | JNull => false
  | JBool b => b
  | JNum n => negb (n =? 0)
  | JStr s => negb (String.eqb s "")
  | JArr l => match l with [] => false | _ => true end
  | JObj kv => match kv with [] => false | _ => true end
  end.

(** [a or b] *)
Definition por (a b : json) : json := if truthy a then a else b.

(** [v == s] for a [str] literal [s]: only a [str] is equal to a [str]. *)
Definition eq_str (v : json) (s : string) : bool :=
  match v with
  | JStr t => String.eqb t s
  | _ => false
  end.

Definition is_dict (v : json) : bool :=
  match v with JObj _ => true | _ => false end.

Definition is_list (v : json) : bool :=
  match v with JArr _ => true | _ => false end.

(** ** Dictionaries *)
Fixpoint lookup (k : string) (kv : list (string * json)) : option json :=
  match kv with
  | [] => None
  | (k', v) :: rest => if String.eqb k k' then Some v else lookup k rest
  end.

(** [v.get(k)]: only a dict has the method; a missing key gives [None]. *)
Definition get (v : json) (k : string) : result json :=
  match v with
  | JObj kv => Ok (default JNull (lookup k kv))
  | _ => Raise AttributeError
  end.

(** [v.get(k, d)] *)
Definition get_default (v : json) (k : string) (d : json) : result json :=
  match v with
  | JObj kv => Ok (default d (lookup k kv))
  | _ => Raise AttributeError
  end.

(** [v[k]] on a dict *)
Definition getitem (v : json) (k : string) : result json :=
  match v with
  | JObj kv =>
      match lookup k kv with
      | Some x => Ok x
      | None => Raise KeyError
      end
  | _ => Raise TypeError
  end.

(** [k in v] on a dict *)
Definition has_key (kv : list (string * json)) (k : string) : bool :=
  match lookup k kv with Some _ => true | None => false end.

(** [for x in v]: a list gives its items, a dict its keys, a [str] its
    characters; the other values are not iterable. *)
Fixpoint chars (s : string) : list json :=
  match s with
  | EmptyString => []
  | String c s' => JStr (String c EmptyString) :: chars s'
  end.

Definition iter (v : json) : result (list json) :=
  match v with
  | JArr l => Ok l
  | JObj kv => Ok (map (fun p => JStr (fst p)) kv)
  | JStr s => Ok (chars s)
  | _ => Raise TypeError
  end.

(** [v in {s1, s2, ...}] for a set of [str] literals: the value is hashed
    first, and a list or a dict is unhashable. *)
Definition in_str_set (v : json) (set : list string) : result bool :=
  match v with
  | JArr _ | JObj _ => Raise TypeError
  | _ => Ok (existsb (eq_str v) set)
  end.

(** ** Strings *)

(** The one-character string written "\n" in Python. *)
Definition newline : string := String (ascii_of_nat 10) EmptyString.

Definition str_len (s : string) : Z := Z.of_nat (String.length s).

Fixpoint is_prefix (p s : string) : bool :=
  match p, s with
  | EmptyString, _ => true
  | String a p', String b s' => Ascii.eqb a b && is_prefix p' s'
  | String _ _, EmptyString => false
  end.

(** [p in s] for strings *)
Fixpoint contains (p s : string) : bool :=
  is_prefix p s ||
  match s with
  | EmptyString => false
  | String _ s' => contains p s'
  end.

(** [s.replace(old, new)] for a non-empty [old]: every occurrence, left to
    right, without overlap.  [skip] counts the characters of an occurrence
    that is being replaced and are still to be dropped. *)
Fixpoint replace_from (old new : string) (skip : nat) (s : string) : string :=
  match s with
  | EmptyString => EmptyString
  | String c s' =>
      match skip with
      | S k => replace_from old new k s'
      | O =>
          if is_prefix old s
          then new +:+ replace_from old new (String.length old - 1) s'
          else String c (replace_from old new 0 s')
      end
  end.

(** With an empty [old], Python inserts [new] before every character and
    at the end. *)
Fixpoint intersperse (new s : string) : string :=
  match s with
  | EmptyString => new
  | String c s' => new +:+ String c (intersperse new s')
  end.

Definition replace (old new s : string) : string :=
  match old with
  | EmptyString => intersperse new s
  | _ => replace_from old new 0 s
  end.

(** [str.isspace] on the characters below U+0100 *)
Definition is_space (c : ascii) : bool :=
  let n := nat_of_ascii c in
  ((9 <=? n) && (n <=? 13) || (28 <=? n) && (n <=? 32)
   || (n =? 133) || (n =? 160))%nat.

Fixpoint lstrip (s : string) : string :=
  match s with
  | EmptyString => EmptyString
  | String c s' => if is_space c then lstrip s' else s
  end.

(** [rstrip]: a character is kept when it is not a space or when
    something remains after it. *)
Fixpoint rstrip (s : string) : string :=
  match s with
  | EmptyString => EmptyString
  | String c s' =>
      match rstrip s' with
      | EmptyString => if is_space c then EmptyString else String c EmptyString
      | r => String c r
      end
  end.

Definition strip (s : string) : string := rstrip (lstrip s).

(** [bool(s)] for a [str] *)
Definition nonempty_str (s : string) : bool := negb (String.eqb s "").

(** [sep.join(parts)] *)
Fixpoint join (sep : string) (parts : list string) : string :=
  match parts with
  | [] => EmptyString
  | [p] => p
  | p :: rest => p +:+ sep +:+ join sep rest
  end.

(** [s[a:b]] with Python's rules: a negative index counts from the end,
    and both bounds are clipped to the string. *)
Definition clip_index (len i : Z) : Z :=
  let j := if i <? 0 then i + len else i in
  Z.max 0 (Z.min len j).

Definition slice (s : string) (a b : Z) : string :=
  let len := str_len s in
  let a' := clip_index len a in
  let b' := clip_index len b in
  String.substring (Z.to_nat a') (Z.to_nat (b' - a')) s.

(** [sorted(l, key=key, reverse=True)]: descending and stable, that is,
    items with equal keys keep their order. *)
Fixpoint insert_desc {A} (key : A -> Z) (x : A) (l : list A) : list A :=
  match l with
  | [] => [x]
  | y :: l' =>
      if key y <=? key x then x :: l else y :: insert_desc key x l'
  end.

Fixpoint sorted_desc {A} (key : A -> Z) (l : list A) : list A :=
  match l with
  | [] => []
  | x :: l' => insert_desc key x (sorted_desc key l')
  end.

(** [str(n)] for an [int] *)
Definition str_int (n : Z) : string := NilZero.string_of_int (Z.to_int n).

End Py.

Import Py.

Declare Scope py_scope.
Delimit Scope py_scope with py.
Notation "'let!' x ':=' m 'in' k" := (Py.bind m (fun x => k))
  (at level 10, x name, m at level 100, k at level 200, only parsing)
  : py_scope.
Local Open Scope py_scope.

(* ===================================================================== *)
(** * [datetime] and the rest of the standard library                     *)
(* ===================================================================== *)

Module Datetime.

(** A [datetime] object: [wall] is its wall-clock reading, counted in
    microseconds from 1970-01-01T00:00:00 on the same clock, and
    [utcoffset] is its [tzinfo]: [None] for a naive object, otherwise the
    offset from UTC in microseconds. *)
Record datetime : Type := {
  wall : Z;
  utcoffset : option Z;
}.

Definition is_aware (d : datetime) : bool :=
  match utcoffset d with Some _ => true | None => false end.

Definition is_utc (d : datetime) : Prop := utcoffset d = Some 0.

(** [d.replace(tzinfo=timezone.utc)] *)
Definition replace_tz_utc (d : datetime) : datetime :=
  {| wall := wall d; utcoffset := Some 0 |}.

(** First and last wall-clock microsecond of the years 1 to 9999. *)
Definition min_wall : Z := -62135596800 * 1000000.
Definition max_wall : Z := 253402300800 * 1000000 - 1.

End Datetime.

Import Datetime.

(** The functions of Python's standard library that the package calls and
    that are not modelled here. *)
(** The outcomes of [re.compile]. *)
Inductive compiled (pattern : Type) : Type :=
| Compiled (p : pattern)
| ReError
| CompileRaises (e : exn).

Arguments Compiled {pattern} p.
Arguments ReError {pattern}.
Arguments CompileRaises {pattern} e.

Class Runtime : Type := {
  (** a compiled [re.Pattern] *)
  pattern : Type;
  (** [re.compile(p, re.MULTILINE)]: a pattern, [re.error], or another
      exception ([OverflowError] for a repetition count that is too large,
      [RecursionError] for a pattern that is nested too deeply) *)
  re_compile : string -> compiled pattern;
  (** the spans of [pattern.finditer(text)], in order *)
  re_finditer : pattern -> string -> list (Z * Z);
  (** [json.dumps(v, ensure_ascii=False)] *)
  json_dumps : json -> string;
  (** [str(v)] for a list or a dict *)
  repr_container : json -> string;
  (** [d.isoformat()] *)
  isoformat : datetime -> string;
  (** [datetime.fromisoformat(s)]; [None] stands for [ValueError] *)
  fromisoformat : string -> option datetime;
  (** the system time zone: the UTC offset (microseconds) in force at a
      local wall-clock reading, and at a UTC instant *)
  local_offset_at_wall : Z -> Z;
  local_offset_at_utc : Z -> Z;
}.

Section PyRuntime.
Context `{RT : Runtime}.

(** [str(v)] *)
Definition py_str (v : json) : string :=
  match v with
  | JNull => "None"
  | JBool true => "True"
  | JBool false => "False"
  | JNum n => str_int n
  | JStr s => s
  | JArr _ | JObj _ => repr_container v
  end.

(** [d.astimezone(timezone.utc)]: a naive object is taken to be in the
    system time zone. *)
Definition astimezone_utc (d : datetime) : datetime :=
  match utcoffset d with
  | Some off => {| wall := wall d - off; utcoffset := Some 0 |}
  | None => {| wall := wall d - local_offset_at_wall (wall d); utcoffset := Some 0 |}
  end.

(** [datetime.fromtimestamp(ms / 1000.0)]: no [tz] argument is given, so
    the result is the local time as a naive object.  A reading outside the
    years 1 to 9999 raises.  (For the magnitudes of epoch milliseconds the
    float quotient rounds back to the exact microsecond.) *)
Definition fromtimestamp_ms (ms : Z) : result datetime :=
  let utc := ms * 1000 in
  let w := utc + local_offset_at_utc utc in
  if (min_wall <=? w) && (w <=? max_wall)
  then Ok {| wall := w; utcoffset := None |}
  else Raise OverflowError.

End PyRuntime.

(* ===================================================================== *)
(** * frameworks/base.py                                                  *)
(* ===================================================================== *)

Module Base.

(** The dataclass fields are not type-checked at run time: [text] and
    [role] hold whatever object the provider stored ([None] is [JNull]). *)
Record HistoryEntry : Type := {
  timestamp : option datetime;
  kind : string;
  text : json;
  role : json;
  metadata : json;
}.

Record SessionContext : Type := {
  session_id : string;
  entries : list HistoryEntry;
}.

End Base.

Import Base.

(** The records written by [logger.warning]: the fallback of the
    line-format provider, with the session id and the path of the file used
    instead, and a parse failure of the JSON-document provider, with the
    path of the file and the exception. *)
Inductive log_record : Type :=
| FallbackWarning (sid : string) (source : string)
| ParseFailureWarning (source : string) (e : exn).

(* ===================================================================== *)
(** * frameworks/codex.py                                                 *)
(* ===================================================================== *)

Module Codex.

(** A line of a rollout file, as [_iter_jsonl] meets it: a line that is
    skipped (it is blank, or [json.loads] rejects it with
    [json.JSONDecodeError]), a line that is decoded, or a line at which
    the generator raises: [json.loads] raises something else (a plain
    [ValueError] for an integer of more than 4300 digits, [RecursionError]
    for a value nested too deeply) or the line cannot be read, and
    [_iter_jsonl] does not catch that. *)
Inductive line : Type :=
| Skipped
| Decoded (item : json)
| Fails (e : exn).

(** A rollout file. *)
Record file : Type := {
  path : string;
  name : string;
  mtime : Z;
  lines : list line;
}.

(** What [history_root] is on disk; [RootDir] carries the regular files
    that [root.rglob("*.jsonl")] enumerates, in that order. *)
Inductive history_root : Type :=
| RootFile (f : file)
| RootMissing
| RootDir (jsonl_files : list file).

(** [_iter_jsonl], a generator: the items it yields and, when it does not
    reach the end of the file, the exception it raises after them. *)
Fixpoint yielded (ls : list line) : list json * option exn :=
  match ls with
  | [] => ([], None)
  | Skipped :: rest => yielded rest
  | Decoded item :: rest =>
      let '(items, failure) := yielded rest in (item :: items, failure)
  | Fails e :: _ => ([], Some e)
  end.

Definition iter_jsonl (f : file) : list json * option exn := yielded (lines f).

(** The loop variables of one file in [load_context]. *)
Record file_state : Type := {
  fs_entries : list HistoryEntry;
  fs_discovered : json;
  fs_mismatch : bool;
}.

Definition fs_init : file_state :=
  {| fs_entries := []; fs_discovered := JNull; fs_mismatch := false |}.

(** [if entry: entries.append(entry)]; a [HistoryEntry] is always truthy. *)
Definition push (e : option HistoryEntry) (st : file_state) : file_state :=
  match e with
  | Some x =>
      {| fs_entries := fs_entries st ++ [x];
         fs_discovered := fs_discovered st;
         fs_mismatch := fs_mismatch st |}
  | None => st
  end.

Definition noise : list string := ["token_count"; "agent_message"; "user_message"].

Definition call_variants : list string :=
  ["function_call"; "custom_tool_call"; "local_shell_call"].

(** [_candidate_paths] *)
Definition candidate_paths (root : history_root) (sid : string)
  : result (list file) :=
  match root with
  | RootFile f => Ok [f]
  | RootMissing => Raise FileNotFoundError
  | RootDir candidates =>
      match candidates with
      | [] => Raise FileNotFoundError
      | _ =>
          let matched :=
            sorted_desc mtime (filter (fun p => contains sid (name p)) candidates) in
          let unmatched :=
            sorted_desc mtime (filter (fun p => negb (contains sid (name p))) candidates) in
          Ok (matched ++ unmatched)
      end
  end.

Section WithRuntime.
Context `{RT : Runtime}.

(** [_parse_timestamp] *)
Definition parse_timestamp (raw : json) : option datetime :=
  match raw with
  | JStr s => fromisoformat (replace "Z" "+00:00" s)
  | _ => None
  end.

(** [item.get("payload") or {}] *)
Definition payload_of (item : json) : result json :=
  let! p := get item "payload" in
  Ok (por p (JObj [])).

(** [inner if isinstance(inner, dict) and inner else payload] *)
Definition view_of (payload inner : json) : json :=
  if is_dict inner && truthy inner then inner else payload.

(** [_entry_from_session_meta] *)
Definition entry_from_session_meta (item : json) : result (option HistoryEntry) :=
  let! payload := payload_of item in
  let! instructions := get payload "instructions" in
  if negb (truthy instructions) then Ok None
  else
    let! ts := get item "timestamp" in
    Ok (Some {| timestamp := parse_timestamp ts;
                kind := "session_meta";
                text := JStr (py_str instructions);
                role := JStr "system";
                metadata := payload |}).

(** The loop over [content] in the [message] branch. *)
Definition text_parts (content : list json) : list string :=
  flat_map
    (fun element =>
       match element with
       | JObj kv =>
           match lookup "text" kv with
           | Some v => [py_str v]
           | None => []
           end
       | _ => []
       end)
    content.

(** [_format_call_text] *)
Definition format_call_text (name arguments : json) : string :=
  let parts :=
    (if truthy name then ["call:" +:+ py_str name] else [])
    ++ (if truthy arguments then [json_dumps arguments] else []) in
  strip (join " " parts).

(** [_entry_from_response_item] *)
Definition entry_from_response_item (item : json) : result (option HistoryEntry) :=
  let! payload := payload_of item in
  let! variant := get payload "type" in
  let! inner := get payload "payload" in
  let view := view_of payload inner in
  let! ts := get item "timestamp" in
  let timestamp := parse_timestamp ts in
  if eq_str variant "message" then
    let! c := get view "content" in
    let! content := iter (por c (JArr [])) in
    let text := join newline (filter nonempty_str (text_parts content)) in
    if nonempty_str text then
      let! r := get view "role" in
      Ok (Some {| timestamp := timestamp; kind := "message";
                  text := JStr text; role := r; metadata := payload |})
    else Ok None
  else if eq_str variant "reasoning" then
    let! t := get view "text" in
    let text := strip (py_str (por t (JStr ""))) in
    if nonempty_str text then
      let! r := get view "role" in
      Ok (Some {| timestamp := timestamp; kind := "reasoning";
                  text := JStr text; role := r; metadata := payload |})
    else Ok None
  else
    let! is_call := in_str_set variant call_variants in
    if is_call then
      let! n1 := get view "name" in
      let! n2 := get view "tool_name" in
      let! n3 := get view "command" in
      let name := por (por n1 n2) n3 in
      let! a1 := get view "arguments" in
      let! a2 := get view "input" in
      let arguments := por a1 a2 in
      let text := format_call_text name arguments in
      if nonempty_str text then
        let! r := get view "role" in
        Ok (Some {| timestamp := timestamp;
                    (* [variant] is one of the three [str] literals here *)
                    kind := match variant with JStr s => s | _ => "" end;
                    text := JStr text;
                    role := por r (JStr "assistant");
                    metadata := payload |})
      else Ok None
    else Ok None.

(** [_entry_from_event_msg] *)
Definition entry_from_event_msg (item : json) : result (option HistoryEntry) :=
  let! payload := payload_of item in
  let! variant := get payload "type" in
  let! inner := get payload "payload" in
  let view := view_of payload inner in
  let! m := get view "message" in
  let! t := get view "text" in
  let message := por m t in
  match message with
  | JNull => Ok None
  | _ =>
      let! ts := get item "timestamp" in
      let! r := get view "role" in
      Ok (Some {| timestamp := parse_timestamp ts;
                  kind := "event:" +:+ py_str variant;
                  text := JStr (py_str message);
                  role := r;
                  metadata := payload |})
  end.

(** [_entry_from_compacted] *)
Definition entry_from_compacted (item : json) : result (option HistoryEntry) :=
  let! payload := payload_of item in
  let! message := get payload "message" in
  if negb (truthy message) then Ok None
  else
    let! ts := get item "timestamp" in
    Ok (Some {| timestamp := parse_timestamp ts;
                kind := "compacted";
                text := JStr (py_str message);
                role := JStr "assistant";
                metadata := payload |}).

(** The kinds of the entries that the record-to-entry mapping can build:
    the literals of the builders, the three call variants, and
    [event:<v>] for a discriminant [v] that is not in the noise set. *)
Definition produced_kind (k : string) : Prop :=
  In k ["session_meta"; "message"; "reasoning"; "compacted"]
  \/ In k call_variants
  \/ exists v, in_str_set v noise = Ok false /\ k = "event:" +:+ py_str v.

(** One iteration of the inner loop of [load_context]. *)
Definition step (sid : string) (st : file_state) (item : json) : result file_state :=
  let! item_type := get item "type" in
  if eq_str item_type "turn_context" then Ok st
  else if eq_str item_type "session_meta" then
    let! payload := payload_of item in
    let! meta_id := get payload "id" in
    let st1 :=
      {| fs_entries := fs_entries st;
         fs_discovered :=
           if truthy meta_id then por (fs_discovered st) meta_id
           else fs_discovered st;
         fs_mismatch :=
           if truthy meta_id && negb (eq_str meta_id sid) then true
           else fs_mismatch st |} in
    let! entry := entry_from_session_meta item in
    Ok (push entry st1)
  else if eq_str item_type "response_item" then
    let! entry := entry_from_response_item item in
    Ok (push entry st)
  else if eq_str item_type "event_msg" then
    let! payload := payload_of item in
    let! variant := get payload "type" in
    let! noisy := in_str_set variant noise in
    if noisy then Ok st
    else
      let! entry := entry_from_event_msg item in
      Ok (push entry st)
  else if eq_str item_type "compacted" then
    let! entry := entry_from_compacted item in
    Ok (push entry st)
  else Ok st.

(** The inner loop of [load_context] over the items of one file. *)
Fixpoint run_items (sid : string) (st : file_state) (items : list json)
  : result file_state :=
  match items with
  | [] => Ok st
  | item :: rest =>
      let! st' := step sid st item in
      run_items sid st' rest
  end.

(** The inner loop over [_iter_jsonl(path)]: the items are processed as
    they are yielded, so an item that makes the loop raise does so before
    a later line makes the generator raise. *)
Definition parse_file (sid : string) (f : file) : result file_state :=
  let '(items, failure) := iter_jsonl f in
  let! st := run_items sid fs_init items in
  match failure with
  | None => Ok st
  | Some e => Raise e
  end.

Definition fallback_warning (sid : string) (source : file) : log_record :=
  FallbackWarning sid (path source).

(** A candidate that the outer loop passes over: it parses, and either it
    has no entries or its discovered id is not the requested one. *)
Definition passed_over (sid : string) (f : file) : Prop :=
  exists st,
    parse_file sid f = Ok st
    /\ (fs_entries st = [] \/ eq_str (fs_discovered st) sid = false).

(** A candidate that parses and has no entries. *)
Definition without_entries (sid : string) (f : file) : Prop :=
  exists st, parse_file sid f = Ok st /\ fs_entries st = [].

(** The outer loop of [load_context] and what follows it.  [fallback] is
    the pair [fallback_context], [fallback_source]. *)
Fixpoint scan (sid : string) (candidates : list file)
  (fallback : option (SessionContext * file))
  : result (SessionContext * list log_record) :=
  match candidates with
  | [] =>
      match fallback with
      | Some (ctx, source) => Ok (ctx, [fallback_warning sid source])
      | None => Raise FileNotFoundError
      end
  | f :: rest =>
      let! st := parse_file sid f in
      match fs_entries st with
      | [] => scan sid rest fallback
      | es =>
          if eq_str (fs_discovered st) sid
          then Ok ({| session_id := sid; entries := es |}, [])
          else
            scan sid rest
              (match fallback with
               | None => Some ({| session_id := sid; entries := es |}, f)
               | Some _ => fallback
               end)
      end
  end.

(** [load_context], once [_candidate_paths] has answered. *)
Definition load_from (sid : string) (candidates : list file)
  : result (SessionContext * list log_record) :=
  scan sid candidates None.

(** [CodexHistoryProvider.load_context] *)
Definition load_context (root : history_root) (sid : string)
  : result (SessionContext * list log_record) :=
  if String.eqb sid "" then Raise ValueError
  else
    let! candidates := candidate_paths root sid in
    load_from sid candidates.

End WithRuntime.

End Codex.

(* ===================================================================== *)
(** * frameworks/copilot.py                                               *)
(* ===================================================================== *)

Module Copilot.

(** A chat-session file: [content] is what [json.load] returns, or [None]
    when the file cannot be opened or decoded. *)
Record file : Type := {
  path : string;
  name : string;
  mtime : Z;
  content : option json;
}.

(** What [_find_session_files] sees: the configured root is a file, or the
    deduplicated paths found under the root and in the VS Code workspace
    storage (in the order [list(set(...))] happens to give). *)
Inductive storage : Type :=
| RootIsFile (f : file)
| Discovered (unique_candidates : list file).

(** [_find_session_files] *)
Definition find_session_files (s : storage) : list file :=
  match s with
  | RootIsFile f => [f]
  | Discovered l => l
  end.

(** [name.rfind(".")] *)
Fixpoint rfind_dot (s : string) : option nat :=
  match s with
  | EmptyString => None
  | String a s' =>
      match rfind_dot s' with
      | Some i => Some (S i)
      | None => if Ascii.eqb a "."%char then Some O else None
      end
  end.

(** [Path.stem]: the name without its last suffix. *)
Definition stem (nm : string) : string :=
  match rfind_dot nm with
  | Some i =>
      if ((0 <? i) && (i <? String.length nm - 1))%nat
      then String.substring 0 i nm
      else nm
  | None => nm
  end.

Section WithRuntime.
Context `{RT : Runtime}.

(** [datetime.fromtimestamp(timestamp_ms / 1000.0) if timestamp_ms else None];
    dividing anything but a number raises, and [True] counts as 1. *)
Definition request_timestamp (timestamp_ms : json) : result (option datetime) :=
  if truthy timestamp_ms then
    match timestamp_ms with
    | JNum n => let! d := fromtimestamp_ms n in Ok (Some d)
    | JBool _ => let! d := fromtimestamp_ms 1 in Ok (Some d)
    | _ => Raise TypeError
    end
  else Ok None.

Definition request_metadata (req_id : json) : json :=
  JObj [("requestId", req_id)].

(** The entry appended for the user text of a request. *)
Definition user_entry (timestamp : option datetime) (req_id user_text : json)
  : HistoryEntry :=
  {| timestamp := timestamp; kind := "message"; text := user_text;
     role := JStr "user"; metadata := request_metadata req_id |}.

(** The entry appended for a response fragment with a display value. *)
Definition assistant_entry (timestamp : option datetime)
  (req_id resp_value : json) : HistoryEntry :=
  {| timestamp := timestamp; kind := "message"; text := resp_value;
     role := JStr "assistant"; metadata := request_metadata req_id |}.

(** The entry appended for a serialized tool invocation. *)
Definition tool_call_entry (timestamp : option datetime)
  (req_id tool_id tool_call_id input_args output : json) : HistoryEntry :=
  let text_repr :=
    "Tool Call: " +:+ py_str tool_id +:+ newline +:+ "Arguments: "
    +:+ py_str input_args in
  {| timestamp := timestamp; kind := "tool_call";
     text := JStr text_repr; role := JStr "assistant";
     metadata := JObj [("requestId", req_id);
                       ("toolCallId", tool_call_id);
                       ("toolId", tool_id);
                       ("input", input_args);
                       ("output", output)] |}.

(** The body of the loop over [response]. *)
Definition fragment_entries (timestamp : option datetime) (req_id : json)
  (resp_item : json) : result (list HistoryEntry) :=
  let! resp_value := get_default resp_item "value" (JStr "") in
  if truthy resp_value then Ok [assistant_entry timestamp req_id resp_value]
  else
    let! k := get resp_item "kind" in
    if eq_str k "toolInvocationSerialized" then
      let! tool_id := get resp_item "toolId" in
      let! tool_call_id := get resp_item "toolCallId" in
      let! result_details := get_default resp_item "resultDetails" (JObj []) in
      let! input_args := get result_details "input" in
      let! output := get result_details "output" in
      Ok [tool_call_entry timestamp req_id tool_id tool_call_id input_args
            output]
    else Ok [].

(** [if user_text: entries.append(...)] *)
Definition user_entries (timestamp : option datetime) (req_id user_text : json)
  : list HistoryEntry :=
  if truthy user_text then [user_entry timestamp req_id user_text] else [].

(** The body of the loop over [requests]. *)
Definition request_entries (req : json) : result (list HistoryEntry) :=
  let! timestamp_ms := get req "timestamp" in
  let! timestamp := request_timestamp timestamp_ms in
  let! message := get_default req "message" (JObj []) in
  let! user_text := get_default message "text" (JStr "") in
  let! req_id := get req "id" in
  let! response := get_default req "response" (JArr []) in
  let! fragments := iter response in
  let! answers := flat_mapM (fragment_entries timestamp req_id) fragments in
  Ok (user_entries timestamp req_id user_text ++ answers).

(** [_parse_history_file] *)
Definition parse_history_file (f : file) : result (list HistoryEntry) :=
  match content f with
  | None => Raise ValueError
  | Some data =>
      let! requests := get_default data "requests" (JArr []) in
      let! reqs := iter requests in
      flat_mapM request_entries reqs
  end.

(** [_load_file] *)
Definition load_file (f : file) (sid : string) : result SessionContext :=
  let! es := parse_history_file f in
  match es with
  | [] => Raise ValueError
  | _ => Ok {| session_id := sid; entries := es |}
  end.

(** The fallback loop of [load_context]: the first candidate that loads. *)
Fixpoint try_each (candidates : list file)
  : list log_record * result SessionContext :=
  match candidates with
  | [] => ([], Raise FileNotFoundError)
  | p :: rest =>
      match load_file p (stem (name p)) with
      | Ok ctx => ([], Ok ctx)
      | Raise e =>
          let '(logs, r) := try_each rest in
          (ParseFailureWarning (path p) e :: logs, r)
      end
  end.

(** [load_context], once [_find_session_files] has answered. *)
Definition load_from (sid : string) (candidates : list file)
  : list log_record * result SessionContext :=
  match candidates with
  | [] => ([], Raise FileNotFoundError)
  | _ =>
      let exact_matches :=
        if nonempty_str sid
        then filter (fun p => String.eqb (name p) (sid +:+ ".json")) candidates
        else [] in
      match exact_matches with
      | p :: _ => ([], load_file p sid)
      | [] => try_each (sorted_desc mtime candidates)
      end
  end.

(** [CopilotHistoryProvider.load_context] *)
Definition load_context (s : storage) (sid : string)
  : list log_record * result SessionContext :=
  load_from sid (find_session_files s).

End WithRuntime.

End Copilot.

(* ===================================================================== *)
(** * storage.py                                                          *)
(* ===================================================================== *)

Module Storage.

Record StickyNote : Type := {
  id : string;
  message : string;
  context_regex : string;
  created_at : datetime;
  creator : option string;
  trigger_snippets : option (list string);
}.

(** The notes file: for every line, the object [json.loads] decodes from
    it, or [None] when the line is blank or is rejected.  A line written by
    [append] decodes to the dict that was dumped. *)
Definition store : Type := list (option json).

Section WithRuntime.
Context `{RT : Runtime}.

(** [_dt_to_iso] *)
Definition dt_to_iso (value : datetime) : string :=
  let value :=
    match utcoffset value with
    | None => replace_tz_utc value
    | Some _ => astimezone_utc value
    end in
  replace "+00:00" "Z" (isoformat value).

(** [_iso_to_dt] *)
Definition iso_to_dt (value : string) : result datetime :=
  match fromisoformat (replace "Z" "+00:00" value) with
  | Some dt => Ok (astimezone_utc dt)
  | None => Raise ValueError
  end.

(** [StickyNote.to_dict] *)
Definition to_dict (self : StickyNote) : json :=
  JObj
    ([("id", JStr (id self));
      ("message", JStr (message self));
      ("context_regex", JStr (context_regex self));
      ("created_at", JStr (dt_to_iso (created_at self)))]
     ++ match creator self with
        | Some c => if nonempty_str c then [("creator", JStr c)] else []
        | None => []
        end
     ++ match trigger_snippets self with
        | Some ((_ :: _) as l) => [("trigger_snippets", JArr (map JStr l))]
        | _ => []
        end).

(** [StickyNote.from_dict] *)
Definition from_dict (payload : json) : result StickyNote :=
  let! raw_snippets := get payload "trigger_snippets" in
  let snippets :=
    match raw_snippets with
    | JArr l => Some (map py_str l)
    | _ => None
    end in
  let! i := getitem payload "id" in
  let! m := getitem payload "message" in
  let! r := getitem payload "context_regex" in
  let! c := getitem payload "created_at" in
  let! created := iso_to_dt (py_str c) in
  let! cr := get payload "creator" in
  let! who :=
    (if truthy cr
     then let! v := getitem payload "creator" in Ok (Some (py_str v))
     else Ok None) in
  Ok {| id := py_str i;
        message := py_str m;
        context_regex := py_str r;
        created_at := created;
        creator := who;
        trigger_snippets := snippets |}.

(** [StickyNoteStore.append] *)
Definition append (s : store) (note : StickyNote) : store :=
  s ++ [Some (to_dict note)].

(** [StickyNoteStore.all_notes]: a line whose [from_dict] raises
    [KeyError], [ValueError] or [TypeError] is skipped; any other exception
    leaves the generator. *)
Fixpoint all_notes (s : store) : result (list StickyNote) :=
  match s with
  | [] => Ok []
  | None :: rest => all_notes rest
  | Some payload :: rest =>
      match from_dict payload with
      | Ok note => let! notes := all_notes rest in Ok (note :: notes)
      | Raise KeyError | Raise ValueError | Raise TypeError => all_notes rest
      | Raise e => Raise e
      end
  end.

End WithRuntime.

End Storage.

(* ===================================================================== *)
(** * session_state.py                                                    *)
(* ===================================================================== *)

Module SessionState.

(** [SessionNoteTracker._shown]: session id to the set of note ids. *)
Abbreviation tracker := (gmap string (gset string)).

(** [self._shown.get(session_id, set())] *)
Definition shown_in (t : tracker) (session_id : string) : gset string :=
  default ∅ (t !! session_id).

(** [mark_shown]: the [defaultdict] creates the set on first use. *)
Definition mark_shown (t : tracker) (session_id note_id : string) : tracker :=
  <[session_id := shown_in t session_id ∪ {[note_id]}]> t.

Definition has_shown (t : tracker) (session_id note_id : string) : bool :=
  bool_decide (note_id ∈ shown_in t session_id).

Definition unseen (t : tracker) (session_id : string) (note_ids : list string)
  : list string :=
  filter (fun note_id => note_id ∉ shown_in t session_id) note_ids.

Definition reset (t : tracker) (session_id : string) : tracker :=
  delete session_id t.

End SessionState.

(* ===================================================================== *)
(** * main.py                                                             *)
(* ===================================================================== *)

Module Main.

Import Storage SessionState.

(** The dict built by [_entry_metadata]. *)
Record SnippetMetadata : Type := {
  meta_timestamp : option string;
  meta_kind : string;
  meta_role : json;
}.

(** An item of the list built by [_collect_snippets]. *)
Record Snippet : Type := {
  snippet_text : string;
  snippet_metadata : SnippetMetadata;
}.

(** An item of the list returned by [read_relevant_sticky_notes]. *)
Record NotePayload : Type := {
  payload_message : string;
  payload_trigger_snippets : list string;
}.

(** The dict returned by [create_sticky_note]. *)
Record Created : Type := {
  created_id : string;
  created_trigger_snippets : list string;
}.

(** The default of the [padding] argument of [_extract_window]. *)
Definition default_padding : Z := 80.

(** The marker U+2026, written by the bytes of its UTF-8 encoding. *)
Definition ellipsis : string := "…".

(** [_extract_window] *)
Definition extract_window (text : string) (span : Z * Z) (padding : Z) : string :=
  let '(start, stop) := span in
  let window_start := Z.max 0 (start - padding) in
  let window_end := Z.min (str_len text) (stop + padding) in
  let prefix := if window_start >? 0 then ellipsis else "" in
  let suffix := if window_end <? str_len text then ellipsis else "" in
  prefix +:+ slice text window_start window_end +:+ suffix.

Section WithRuntime.
Context `{RT : Runtime}.

(** [_compile_regex]: [re.error] is turned into [ValueError]; any other
    exception of [re.compile] passes through. *)
Definition compile_regex (p : string) : result pattern :=
  match re_compile p with
  | Compiled pat => Ok pat
  | ReError => Raise ValueError
  | CompileRaises e => Raise e
  end.

(** [_entry_metadata] *)
Definition entry_metadata (entry : HistoryEntry) : SnippetMetadata :=
  {| meta_timestamp :=
       match timestamp entry with
       | Some d => Some (replace "+00:00" "Z" (isoformat d))
       | None => None
       end;
     meta_kind := kind entry;
     meta_role := role entry |}.

(** The body of the loop of [_collect_snippets] over the entries:
    [finditer] accepts a [str] only. *)
Definition entry_snippets (pat : pattern) (entry : HistoryEntry)
  : result (list Snippet) :=
  if negb (truthy (text entry)) then Ok []
  else
    match text entry with
    | JStr s =>
        Ok (map (fun span =>
                   {| snippet_text := extract_window s span default_padding;
                      snippet_metadata := entry_metadata entry |})
                (re_finditer pat s))
    | _ => Raise TypeError
    end.

(** [_collect_snippets] *)
Definition collect_snippets (pat : pattern) (context : SessionContext)
  : result (list Snippet) :=
  flat_mapM (entry_snippets pat) (entries context).

(** The note built by [create_sticky_note]: [clock] is the reading of
    [datetime.now(timezone.utc)] and [fresh] is [uuid4().hex]. *)
Definition new_note (note_id : option string) (fresh : string)
  (message context_regex : string) (clock : Z) (snippet_texts : list string)
  : StickyNote :=
  {| id :=
       match note_id with
       | Some i => if nonempty_str i then i else fresh
       | None => fresh
       end;
     Storage.message := message;
     Storage.context_regex := context_regex;
     created_at := {| wall := clock; utcoffset := Some 0 |};
     creator := None;
     trigger_snippets :=
       match snippet_texts with
       | [] => None
       | _ => Some snippet_texts
       end |}.

(** The tool [create_sticky_note].  [loaded] is the outcome of
    [history_provider.load_context(session_id)]. *)
Definition create_sticky_note (loaded : result SessionContext) (notes : store)
  (clock : Z) (fresh : string)
  (session_id message context_regex : string) (note_id : option string)
  : store * result Created :=
  if negb (nonempty_str session_id) then (notes, Raise RuntimeError)
  else if negb (nonempty_str message) then (notes, Raise ValueError)
  else
    match compile_regex context_regex with
    | Raise e => (notes, Raise e)
    | Ok pat =>
        match loaded with
        | Raise FileNotFoundError => (notes, Raise RuntimeError)
        | Raise e => (notes, Raise e)
        | Ok context =>
            match collect_snippets pat context with
            | Raise e => (notes, Raise e)
            | Ok snippets =>
                let snippet_texts := map snippet_text snippets in
                let note :=
                  new_note note_id fresh message context_regex clock
                    snippet_texts in
                (append notes note,
                 Ok {| created_id := id note;
                       created_trigger_snippets := snippet_texts |})
            end
        end
    end.

(** The loop of [read_relevant_sticky_notes] over the stored notes.  It
    returns the tracker as the loop leaves it and, for every note whose
    payload is appended to [results], the note with its snippets.  The
    loop catches the [ValueError] of [_compile_regex] (the warning it logs
    then is not modelled); any other exception of [re.compile] ends the
    call, after the notes before may have been marked. *)
Fixpoint deliver (context : SessionContext) (session_id : string)
  (notes : list StickyNote) (t : tracker)
  : tracker * result (list (StickyNote * list Snippet)) :=
  match notes with
  | [] => (t, Ok [])
  | note :: rest =>
      if has_shown t session_id (id note)
      then deliver context session_id rest t
      else
        match compile_regex (context_regex note) with
        | Raise ValueError => deliver context session_id rest t
        | Raise e => (t, Raise e)
        | Ok pat =>
            match collect_snippets pat context with
            | Raise e => (t, Raise e)
            | Ok [] => deliver context session_id rest t
            | Ok snippets =>
                let '(t', r) :=
                  deliver context session_id rest
                    (mark_shown t session_id (id note)) in
                (t', let! ds := r in Ok ((note, snippets) :: ds))
            end
        end
  end.



(** The payload appended to [results] for a delivered note. *)
Definition payload_of (d : StickyNote * list Snippet) : NotePayload :=
  {| payload_message := message (fst d);
     payload_trigger_snippets := map snippet_text (snd d) |}.

(** The tool [read_relevant_sticky_notes].  [loaded] is the outcome of
    [history_provider.load_context(session_id)]. *)
Definition read_relevant_sticky_notes (loaded : result SessionContext)
  (notes : store) (t : tracker) (session_id : string)
  : tracker * result (list NotePayload) :=
  if negb (nonempty_str session_id) then (t, Raise RuntimeError)
  else
    match loaded with
    | Raise FileNotFoundError => (t, Raise RuntimeError)
    | Raise e => (t, Raise e)
    | Ok context =>
        match all_notes notes with
        | Raise e => (t, Raise e)
        | Ok stored =>
            let '(t', r) := deliver context session_id stored t in
            (t', let! ds := r in Ok (map payload_of ds))
        end
    end.

End WithRuntime.

End Main.

(* ===================================================================== *)
(** * A reference runtime                                                 *)
(* ===================================================================== *)

(** An executable instance of [Runtime], used to run the model on concrete
    inputs.  It implements the part of the standard library those inputs
    exercise: regular expressions made of ordinary characters only, JSON
    and [repr] output of values whose strings need no escape, ISO-8601
    timestamps in the layouts [isoformat] emits, and UTC as the system time
    zone. *)
Module Reference.

(** ** Regular expressions without metacharacters *)

Definition is_meta (c : ascii) : bool :=
  existsb (Ascii.eqb c)
    ["\"; "^"; "$"; "."; "|"; "?"; "*"; "+"; "("; ")"; "["; "]"; "{"; "}"]%char.

Fixpoint has_meta (p : string) : bool :=
  match p with
  | EmptyString => false
  | String c p' => is_meta c || has_meta p'
  end.

(** A repetition count of [2**32 - 1] or more makes [re.compile] raise
    [OverflowError] ("the repetition number is too large"). *)
Definition too_many_repetitions : string := "a{4294967295}".

(** The other patterns with a metacharacter are outside the fragment and
    are all answered like the malformed ones among them. *)
Definition literal_compile (p : string) : compiled string :=
  if String.eqb p too_many_repetitions then CompileRaises OverflowError
  else if has_meta p then ReError
  else Compiled p.

(** The spans of the occurrences of [p], left to right, without overlap;
    [skip] counts the characters of the last match still to be passed. *)
Fixpoint literal_spans (p : string) (skip : nat) (pos : Z) (s : string)
  : list (Z * Z) :=
  match s with
  | EmptyString =>
      match p, skip with
      | EmptyString, O => [(pos, pos)]
      | _, _ => []
      end
  | String _ s' =>
      match skip with
      | S k => literal_spans p k (pos + 1) s'
      | O =>
          if is_prefix p s
          then (pos, pos + str_len p)
               :: literal_spans p (String.length p - 1) (pos + 1) s'
          else literal_spans p 0 (pos + 1) s'
      end
  end.

Definition literal_finditer (p s : string) : list (Z * Z) :=
  literal_spans p 0 0 s.

(** ** [json.dumps] and [repr] *)

Definition quoted (q : string) (s : string) : string := q +:+ s +:+ q.

Definition dquote : string := String (ascii_of_nat 34) EmptyString.

Fixpoint dumps (v : json) : string :=
  match v with
  | JNull => "null"
  | JBool true => "true"
  | JBool false => "false"
  | JNum n => str_int n
  | JStr s => quoted dquote s
  | JArr l => "[" +:+ join ", " (map dumps l) +:+ "]"
  | JObj kv =>
      "{" +:+
      join ", "
        (map (fun p =>
                match p with
                | (k, x) => quoted dquote k +:+ ": " +:+ dumps x
                end) kv)
      +:+ "}"
  end.

Fixpoint repr (v : json) : string :=
  match v with
  | JNull => "None"
  | JBool true => "True"
  | JBool false => "False"
  | JNum n => str_int n
  | JStr s => quoted "'" s
  | JArr l => "[" +:+ join ", " (map repr l) +:+ "]"
  | JObj kv =>
      "{" +:+
      join ", "
        (map (fun p =>
                match p with
                | (k, x) => quoted "'" k +:+ ": " +:+ repr x
                end) kv)
      +:+ "}"
  end.

(** ** ISO-8601 *)

Definition us_per_second : Z := 1000000.
Definition us_per_day : Z := 86400 * us_per_second.

(** Days since 1970-01-01 of a date of the proleptic Gregorian calendar,
    and back. *)
Definition days_from_civil (y m d : Z) : Z :=
  let y := if m <=? 2 then y - 1 else y in
  let era := y / 400 in
  let yoe := y - era * 400 in
  let doy := (153 * (if m >? 2 then m - 3 else m + 9) + 2) / 5 + d - 1 in
  let doe := yoe * 365 + yoe / 4 - yoe / 100 + doy in
  era * 146097 + doe - 719468.

Definition civil_from_days (z : Z) : Z * Z * Z :=
  let z := z + 719468 in
  let era := z / 146097 in
  let doe := z - era * 146097 in
  let yoe := (doe - doe / 1460 + doe / 36524 - doe / 146096) / 365 in
  let y := yoe + era * 400 in
  let doy := doe - (365 * yoe + yoe / 4 - yoe / 100) in
  let mp := (5 * doy + 2) / 153 in
  let d := doy - (153 * mp + 2) / 5 + 1 in
  let m := if mp <? 10 then mp + 3 else mp - 9 in
  (if m <=? 2 then y + 1 else y, m, d).

Definition digit (n : Z) : string :=
  String (ascii_of_nat (48 + Z.to_nat (n mod 10))) EmptyString.

Definition pad2 (n : Z) : string := digit (n / 10) +:+ digit n.
Definition pad4 (n : Z) : string := pad2 (n / 100) +:+ pad2 n.
Definition pad6 (n : Z) : string := pad2 (n / 10000) +:+ pad4 n.

Definition format_offset (off : Z) : string :=
  let sign := if off <? 0 then "-" else "+" in
  let minutes := Z.abs off / (60 * us_per_second) in
  sign +:+ pad2 (minutes / 60) +:+ ":" +:+ pad2 (minutes mod 60).

Definition reference_isoformat (d : datetime) : string :=
  let days := wall d / us_per_day in
  let rest := wall d mod us_per_day in
  let '(y, m, dd) := civil_from_days days in
  let secs := rest / us_per_second in
  let us := rest mod us_per_second in
  pad4 y +:+ "-" +:+ pad2 m +:+ "-" +:+ pad2 dd +:+ "T"
  +:+ pad2 (secs / 3600) +:+ ":" +:+ pad2 (secs / 60 mod 60) +:+ ":"
  +:+ pad2 (secs mod 60)
  +:+ (if us =? 0 then "" else "." +:+ pad6 us)
  +:+ match utcoffset d with
      | Some off => format_offset off
      | None => ""
      end.

Definition digit_value (c : ascii) : option Z :=
  let n := Z.of_nat (nat_of_ascii c) in
  if (48 <=? n) && (n <=? 57) then Some (n - 48) else None.

(** Read exactly [k] digits. *)
Fixpoint read_digits (k : nat) (acc : Z) (s : string) : option (Z * string) :=
  match k with
  | O => Some (acc, s)
  | S k' =>
      match s with
      | String c s' =>
          match digit_value c with
          | Some v => read_digits k' (acc * 10 + v) s'
          | None => None
          end
      | EmptyString => None
      end
  end.

Definition expect (c : ascii) (s : string) : option string :=
  match s with
  | String a s' => if Ascii.eqb a c then Some s' else None
  | EmptyString => None
  end.

(** The offset suffix: nothing (a naive object) or [+HH:MM] / [-HH:MM]. *)
Definition read_offset (s : string) : option (option Z) :=
  match s with
  | EmptyString => Some None
  | String sign s1 =>
      if Ascii.eqb sign "+"%char || Ascii.eqb sign "-"%char then
        '(h, s2) ← read_digits 2 0 s1;
        s3 ← expect ":"%char s2;
        '(mi, s4) ← read_digits 2 0 s3;
        match s4 with
        | EmptyString =>
            let off := (h * 60 + mi) * 60 * us_per_second in
            Some (Some (if Ascii.eqb sign "-"%char then - off else off))
        | _ => None
        end
      else None
  end.

(** The fraction: nothing, or a point and six digits. *)
Definition read_fraction (s : string) : option (Z * string) :=
  match s with
  | String "."%char s' => read_digits 6 0 s'
  | _ => Some (0, s)
  end.

Definition reference_fromisoformat (s : string) : option datetime :=
  '(y, s) ← read_digits 4 0 s;
  s ← expect "-"%char s;
  '(m, s) ← read_digits 2 0 s;
  s ← expect "-"%char s;
  '(d, s) ← read_digits 2 0 s;
  s ← expect "T"%char s;
  '(h, s) ← read_digits 2 0 s;
  s ← expect ":"%char s;
  '(mi, s) ← read_digits 2 0 s;
  s ← expect ":"%char s;
  '(sec, s) ← read_digits 2 0 s;
  '(us, s) ← read_fraction s;
  off ← read_offset s;
  if (1 <=? y) && (1 <=? m) && (m <=? 12) && (1 <=? d) && (d <=? 31)
     && (h <? 24) && (mi <? 60) && (sec <? 60)
  then
    Some {| wall := days_from_civil y m d * us_per_day
                    + ((h * 60 + mi) * 60 + sec) * us_per_second + us;
            utcoffset := off |}
  else None.

Definition runtime : Runtime := {|
  pattern := string;
  re_compile := literal_compile;
  re_finditer := literal_finditer;
  json_dumps := dumps;
  repr_container := repr;
  isoformat := reference_isoformat;
  fromisoformat := reference_fromisoformat;
  local_offset_at_wall := fun _ => 0;
  local_offset_at_utc := fun _ => 0;
|}.

End Reference.

(* ===================================================================== *)
(** * Predicates of the statements                                        *)
(* ===================================================================== *)

(** The exceptions of [dict.get] on something that is no [dict], of
    iterating and of hashing. *)
Definition lookup_error (e : exn) : Prop := e = AttributeError \/ e = TypeError.

(** What holds of the text of an entry of the line-format provider: it is
    a [str], and not an empty one for an entry built from a
    [response_item] record. *)
Definition text_invariant (e : HistoryEntry) : Prop :=
  exists s,
    text e = JStr s
    /\ (In (kind e) ("message" :: "reasoning" :: Codex.call_variants) ->
        s <> "").

(** What holds of an entry of the JSON-document provider: its text is
    truthy, and it is a message of the user or of the assistant, or a tool
    call of the assistant with a [str] as its text. *)
Definition chat_entry (e : HistoryEntry) : Prop :=
  truthy (text e) = true
  /\ ((kind e = "message"
       /\ (role e = JStr "user" \/ role e = JStr "assistant"))
      \/ (kind e = "tool_call" /\ role e = JStr "assistant"
          /\ exists t, text e = JStr t)).

(* ===================================================================== *)
(** * The tools and their provider                                        *)
(* ===================================================================== *)

Section Providers.
Context `{RT : Runtime}.

(** The outcome of [history_provider.load_context(session_id)] as the tools
    of [build_app] see it when the provider is the line-format one: the
    records logged are no part of it. *)
Definition codex_provider (root : Codex.history_root) (session_id : string)
  : result SessionContext :=
  let! r := Codex.load_context root session_id in
  Ok (fst r).

End Providers.

(* ===================================================================== *)
(** * Stored regular expressions                                          *)
(* ===================================================================== *)

Section StoredRegex.
Context `{RT : Runtime}.

(** A regex that the loop of [read_relevant_sticky_notes] skips: it is
    rejected by [_compile_regex] with [ValueError]. *)
Definition invalid_regex (regex : string) : bool :=
  match Main.compile_regex regex with
  | Raise ValueError => true
  | _ => false
  end.

(** A regex that the loop can handle: it compiles, or it is skipped.  The
    other regexes make [re.compile] raise something that the loop does not
    catch. *)
Definition compiles_or_invalid (regex : string) : Prop :=
  forall e, Main.compile_regex regex = Raise e -> e = ValueError.

End StoredRegex.


(* ===================================================================== *)
(** * Sample inputs                                                       *)
(* ===================================================================== *)

(** The inputs of the repository's tests and of the examples of its
    specification, as values of the model. *)
Module Samples.

Fixpoint repeat_char (c : ascii) (n : nat) : string :=
  match n with
  | O => EmptyString
  | S k => String c (repeat_char c k)
  end.

(** A text of length 200 with the word "match" at offsets 150 to 155. *)
Definition text200 : string :=
  repeat_char "a"%char 150 +:+ "match" +:+ repeat_char "b"%char 45.

(** 2025-01-01T00:00:00 UTC, the [created_at] of [test_storage.py]. *)
Definition new_year_2025 : datetime :=
  {| wall := 1735689600 * 1000000; utcoffset := Some 0 |}.

(** The note of [test_sticky_note_store_roundtrip]. *)
Definition note_1 : Storage.StickyNote :=
  {| Storage.id := "note-1";
     Storage.message := "Remember to update docs";
     Storage.context_regex := "docs";
     Storage.created_at := new_year_2025;
     Storage.creator := None;
     Storage.trigger_snippets := Some ["Docs mention"] |}.

(** A note whose optional fields are present and empty. *)
Definition note_with_empty_optionals : Storage.StickyNote :=
  {| Storage.id := "note-2";
     Storage.message := "Remember to update docs";
     Storage.context_regex := "docs";
     Storage.created_at := new_year_2025;
     Storage.creator := Some "";
     Storage.trigger_snippets := Some [] |}.

(** The document of [test_load_context_workspace_discovery]. *)
Definition find_me_request : json :=
  JObj [("id", JStr "req2");
        ("timestamp", JNum 1678886400000);
        ("message", JObj [("text", JStr "Find me")]);
        ("response", JArr [])].

Definition find_me_file : Copilot.file :=
  {| Copilot.path := "workspaceStorage/fake-hash/chatSessions/discovered-session.json";
     Copilot.name := "discovered-session.json";
     Copilot.mtime := 0;
     Copilot.content := Some (JObj [("requests", JArr [find_me_request])]) |}.

(** A request without a timestamp, and one whose timestamp is 0. *)
Definition request_without_timestamp : json :=
  JObj [("id", JStr "req3");
        ("message", JObj [("text", JStr "Hello Copilot")]);
        ("response", JArr [JObj [("value", JStr "Hello User")]])].

Definition request_with_zero_timestamp : json :=
  JObj [("id", JStr "req4");
        ("timestamp", JNum 0);
        ("message", JObj [("text", JStr "Hello Copilot")]);
        ("response", JArr [JObj [("value", JStr "Hello User")]])].

(** The request of [test_load_context_direct_file], with a tool invocation
    added to its response. *)
Definition request_with_tool_call : json :=
  JObj [("id", JStr "req1");
        ("timestamp", JNum 1678886400000);
        ("message", JObj [("text", JStr "Hello Copilot")]);
        ("response",
         JArr [JObj [("value", JStr "Hello User")];
               JObj [("kind", JStr "toolInvocationSerialized");
                     ("toolId", JStr "read_file");
                     ("toolCallId", JStr "call-1");
                     ("resultDetails",
                      JObj [("input", JStr "README.md");
                            ("output", JStr "contents")])];
               JObj [("kind", JStr "progressMessage")]])].

(** The records of [test_codex.py]. *)
Definition meta_record (ts : string) (fields : list (string * json)) : json :=
  JObj [("timestamp", JStr ts); ("type", JStr "session_meta");
        ("payload", JObj fields)].

Definition user_message_record (ts text : string) : json :=
  JObj [("timestamp", JStr ts); ("type", JStr "response_item");
        ("payload",
         JObj [("type", JStr "message");
               ("payload",
                JObj [("role", JStr "user");
                      ("content",
                       JArr [JObj [("type", JStr "input_text");
                                   ("text", JStr text)]])])])].

Definition event_record (ts : string) (fields : list (string * json)) : json :=
  JObj [("timestamp", JStr ts); ("type", JStr "event_msg");
        ("payload", JObj fields)].

(** [test_codex_history_provider_parses_session] *)
Definition session_file : Codex.file :=
  {| Codex.path := "history/session.jsonl";
     Codex.name := "session.jsonl";
     Codex.mtime := 100;
     Codex.lines :=
       [Codex.Decoded (meta_record "2025-05-07T17:24:21.123000Z"
                [("id", JStr "conversation-id");
                 ("instructions", JStr "Stay focused")]);
        Codex.Decoded (user_message_record "2025-05-07T17:25:00Z" "Hello agent");
        Codex.Decoded (event_record "2025-05-07T17:26:00Z"
                [("type", JStr "user_message");
                 ("payload", JObj [("message", JStr "User event text")])])] |}.

(** [test_codex_history_provider_raises_when_history_empty] *)
Definition empty_history_file : Codex.file :=
  {| Codex.path := "history/other.jsonl";
     Codex.name := "other.jsonl";
     Codex.mtime := 200;
     Codex.lines :=
       [Codex.Decoded (meta_record "2025-05-07T17:24:21Z"
                [("id", JStr "different-session-id");
                 ("instructions", JNull)])] |}.

(** [test_codex_history_provider_filters_noise] *)
Definition hidden_thoughts_record : json :=
  JObj [("type", JStr "event_msg");
        ("payload", JObj [("type", JStr "agent_reasoning");
                          ("text", JStr "**Hidden thoughts**")])].

Definition noise_file : Codex.file :=
  {| Codex.path := "history/noise.jsonl";
     Codex.name := "noise.jsonl";
     Codex.mtime := 50;
     Codex.lines :=
       [Codex.Decoded (meta_record "2025-05-07T17:24:21Z" [("id", JStr "session-id")]);
        Codex.Decoded (event_record "2025-05-07T17:25:00Z"
                [("type", JStr "token_count");
                 ("info",
                  JObj [("total_token_usage",
                         JObj [("input_tokens", JNum 1)])])]);
        Codex.Decoded (event_record "2025-05-07T17:25:01Z"
                [("type", JStr "agent_reasoning");
                 ("text", JStr "**Hidden thoughts**")]);
        Codex.Decoded (event_record "2025-05-07T17:25:01.500000Z"
                [("type", JStr "agent_reasoning")]);
        Codex.Decoded (event_record "2025-05-07T17:25:02Z"
                [("type", JStr "agent_message");
                 ("message", JStr "Duplicate assistant message")]);
        Codex.Decoded (event_record "2025-05-07T17:25:03Z"
                [("type", JStr "user_message");
                 ("message", JStr "Duplicate user message")]);
        Codex.Decoded (JObj [("timestamp", JStr "2025-05-07T17:25:30Z");
                    ("type", JStr "turn_context");
                    ("payload", JObj [("cwd", JStr "/repo")])]);
        Codex.Skipped;
        Codex.Decoded (user_message_record "2025-05-07T17:26:00Z" "Useful user text");
        Codex.Decoded (JObj [("timestamp", JStr "2025-05-07T17:26:10Z");
                    ("type", JStr "response_item");
                    ("payload",
                     JObj [("type", JStr "reasoning");
                           ("summary",
                            JArr [JObj [("type", JStr "summary_text");
                                        ("text", JStr "**Visible reasoning**")]]);
                           ("payload",
                            JObj [("role", JStr "assistant");
                                  ("text", JStr "Visible reasoning")])])])] |}.

(** An [event_msg] record whose [message] is the empty string and that has
    no [text], and one whose [text] is the empty string and that has no
    [message]. *)
Definition event_with_empty_message : json :=
  JObj [("type", JStr "event_msg");
        ("payload", JObj [("type", JStr "agent_reasoning");
                          ("message", JStr "")])].

Definition event_with_empty_text : json :=
  JObj [("type", JStr "event_msg");
        ("payload", JObj [("type", JStr "agent_reasoning");
                          ("text", JStr "")])].

(** Two stored notes that carry the same id, as [create_sticky_note] stores
    them when it is called twice with the same [note_id]. *)
Definition note_docs : Storage.StickyNote :=
  {| Storage.id := "note-a";
     Storage.message := "Remember to update docs";
     Storage.context_regex := "docs";
     Storage.created_at := new_year_2025;
     Storage.creator := None;
     Storage.trigger_snippets := None |}.

Definition note_tests : Storage.StickyNote :=
  {| Storage.id := "note-a";
     Storage.message := "Run the tests first";
     Storage.context_regex := "tests";
     Storage.created_at := new_year_2025;
     Storage.creator := None;
     Storage.trigger_snippets := None |}.

Definition user_says (session text : string) : SessionContext :=
  {| session_id := session;
     entries := [ {| timestamp := None; kind := "message";
                     text := JStr text; role := JStr "user";
                     metadata := JNull |} ] |}.

(** The context of a session at two successive calls. *)
Definition docs_context : SessionContext :=
  user_says "session-123" "please update the docs".


End Samples.

(** Further sample inputs. *)
Module MoreSamples.

(** A context as the JSON-document provider builds it for a request whose
    message text is the number 5: the text is stored as it is. *)
Definition number_text_context : SessionContext :=
  {| session_id := "session-123";
     entries := [ {| timestamp := None; kind := "message";
                     text := JNum 5; role := JStr "user";
                     metadata := JNull |} ] |}.

(** A store holding the two notes of the tests. *)
Definition two_notes : Storage.store :=
  Storage.append (RT := Reference.runtime)
    (Storage.append (RT := Reference.runtime) [] Samples.note_docs)
    Samples.note_1.

(** A note whose regex has a repetition count that [re.compile] refuses
    with [OverflowError], and a store that holds it after a note that
    matches the word "docs". *)
Definition note_overflow : Storage.StickyNote :=
  {| Storage.id := "note-overflow";
     Storage.message := "Never shown";
     Storage.context_regex := Reference.too_many_repetitions;
     Storage.created_at := Samples.new_year_2025;
     Storage.creator := None;
     Storage.trigger_snippets := None |}.

Definition docs_then_overflow : Storage.store :=
  Storage.append (RT := Reference.runtime)
    (Storage.append (RT := Reference.runtime) [] Samples.note_docs)
    note_overflow.

(** A rollout file whose second line is valid JSON but holds an array. *)
Definition array_line_file : Codex.file :=
  {| Codex.path := "history/array.jsonl";
     Codex.name := "array.jsonl";
     Codex.mtime := 150;
     Codex.lines :=
       [Codex.Decoded (Samples.meta_record "2025-05-07T17:24:21Z"
                [("id", JStr "conversation-id");
                 ("instructions", JStr "Stay focused")]);
        Codex.Decoded (JArr [JNum 1])] |}.

(** A rollout file whose second line holds an integer of more than 4300
    digits: [json.loads] raises a plain [ValueError] on it. *)
Definition overlong_integer_file : Codex.file :=
  {| Codex.path := "history/overlong.jsonl";
     Codex.name := "overlong.jsonl";
     Codex.mtime := 160;
     Codex.lines :=
       [Codex.Decoded (Samples.meta_record "2025-05-07T17:24:21Z"
                         [("id", JStr "conversation-id");
                          ("instructions", JStr "Stay focused")]);
        Codex.Fails ValueError] |}.

(** A request whose response holds a serialized tool invocation with a
    list as its [resultDetails]. *)
Definition request_with_list_details : json :=
  JObj [("id", JStr "req5");
        ("timestamp", JNum 1678886400000);
        ("message", JObj [("text", JStr "Hello Copilot")]);
        ("response",
         JArr [JObj [("value", JStr "Hello User")];
               JObj [("kind", JStr "toolInvocationSerialized");
                     ("toolId", JStr "read_file");
                     ("toolCallId", JStr "call-1");
                     ("resultDetails", JArr [])]])].

Definition list_details_file : Copilot.file :=
  {| Copilot.path := "chatSessions/list-details.json";
     Copilot.name := "list-details.json";
     Copilot.mtime := 400;
     Copilot.content :=
       Some (JObj [("requests",
                    JArr [Samples.find_me_request;
                          request_with_list_details])]) |}.

(** [Samples.session_file] after two more lines were appended to it: a
    second [session_meta] record, with another id, and a user message. *)
Definition session_file_grown : Codex.file :=
  {| Codex.path := "history/session.jsonl";
     Codex.name := "session.jsonl";
     Codex.mtime := 110;
     Codex.lines :=
       Codex.lines Samples.session_file
       ++ [Codex.Decoded (Samples.meta_record "2025-05-07T17:30:00Z"
                   [("id", JStr "another-id")]);
           Codex.Decoded (Samples.user_message_record "2025-05-07T17:31:00Z"
                   "One more thing")] |}.

(** Chat-session files of the JSON-document provider: one that cannot be
    decoded, one without requests, and the session of the tests under
    another name and age. *)
Definition broken_chat_file : Copilot.file :=
  {| Copilot.path := "chatSessions/broken.json";
     Copilot.name := "broken.json";
     Copilot.mtime := 300;
     Copilot.content := None |}.

Definition empty_chat_file : Copilot.file :=
  {| Copilot.path := "chatSessions/empty.json";
     Copilot.name := "empty.json";
     Copilot.mtime := 200;
     Copilot.content := Some (JObj [("requests", JArr [])]) |}.

Definition older_chat_file : Copilot.file :=
  {| Copilot.path := "chatSessions/older.session.json";
     Copilot.name := "older.session.json";
     Copilot.mtime := 100;
     Copilot.content :=
       Some (JObj [("requests", JArr [Samples.find_me_request])]) |}.

End MoreSamples.

(* ===================================================================== *)
(** * Properties                                                          *)
(* ===================================================================== *)

(** ** The exception monad *)

Lemma bind_Ok {A B} (m : result A) (k : A -> result B) (b : B) :
  Py.bind m k = Ok b -> exists a, m = Ok a /\ k a = Ok b.
Proof. destruct m as [a|e]; simpl; [eauto | discriminate]. Qed.

Ltac inv_bind H :=
  let a := fresh "v" in
  let E := fresh "E" in
  apply bind_Ok in H as (a & E & H).

Ltac inv_ok H :=
  repeat
    match type of H with
    | Py.bind _ _ = Ok _ => inv_bind H
    | (if ?c then _ else _) = Ok _ => destruct c eqn:?
    | Ok _ = Ok _ => injection H as H
    | Raise _ = Ok _ => discriminate H
    | match ?x with _ => _ end = Ok _ => destruct x eqn:?
    end.

(** ** Strings *)

Lemma append_empty_r (s : string) : s +:+ "" = s.
Proof.
  induction s as [|c s IH]; [reflexivity|].
  change (String c (s +:+ "") = String c s). congruence.
Qed.

Lemma slice_in_range (s : string) (a b : Z) :
  0 <= a -> a <= str_len s -> 0 <= b -> b <= str_len s ->
  slice s a b = String.substring (Z.to_nat a) (Z.to_nat (b - a)) s.
Proof.
  intros Ha Ha' Hb Hb'. unfold slice, clip_index.
  destruct (Z.ltb_spec a 0); [lia|].
  destruct (Z.ltb_spec b 0); [lia|].
  rewrite (Z.min_r _ a), (Z.min_r _ b) by lia.
  rewrite !Z.max_r by lia. reflexivity.
Qed.

(** ** The matching engine *)

Section Matching.
Context `{RT : Runtime}.

Import Main.

(** C3.  For a text [t] and the span [(s, e)] of a match in it
    ([0 <= s <= e <= len t]), the window extracted by [_extract_window] with
    the default padding is the substring of [t] from [max 0 (s - 80)] to
    [min (len t) (e + 80)], with the ellipsis marker in front exactly when
    the first bound is positive and behind exactly when the second is below
    [len t]; every snippet that [_collect_snippets] builds for an entry
    carries such a window, one per span of [finditer]; and for a text of
    length 200 and the span (150, 155) the window is the marker followed by
    the text from offset 70 to its end, with no marker behind. *)
Theorem extract_window_spec (t : string) (s e : Z) :
  0 <= s -> s <= e -> e <= str_len t ->
  let ws := Z.max 0 (s - 80) in
  let we := Z.min (str_len t) (e + 80) in
  extract_window t (s, e) default_padding
  = (if 0 <? ws then ellipsis else "")
    +:+ String.substring (Z.to_nat ws) (Z.to_nat (we - ws)) t
    +:+ (if we <? str_len t then ellipsis else "")
  /\ (forall (pat : pattern) (entry : HistoryEntry),
        text entry = JStr t -> t <> "" ->
        exists snippets,
          entry_snippets pat entry = Ok snippets
          /\ map snippet_text snippets
             = map (fun span => extract_window t span default_padding)
                   (re_finditer pat t))
  /\ (str_len t = 200 -> s = 150 -> e = 155 ->
      extract_window t (s, e) default_padding
      = ellipsis +:+ String.substring 70 130 t).
Proof.
  intros Hs Hse He ws we.
  assert (Hwin : extract_window t (s, e) default_padding
    = (if 0 <? ws then ellipsis else "")
      +:+ String.substring (Z.to_nat ws) (Z.to_nat (we - ws)) t
      +:+ (if we <? str_len t then ellipsis else "")).
  { unfold extract_window, default_padding. fold ws we.
    rewrite slice_in_range by (subst ws we; lia).
    rewrite Z.gtb_ltb. reflexivity. }
  split; [exact Hwin|]. split.
  - intros pat entry Ht Hne. unfold entry_snippets. rewrite Ht. simpl.
    destruct (String.eqb_spec t ""); [contradiction|]. simpl.
    eexists. split; [reflexivity|].
    rewrite map_map. reflexivity.
  - intros Hlen -> ->. rewrite Hwin. subst ws we. rewrite Hlen.
    change (Z.max 0 (150 - 80)) with 70.
    change (Z.min 200 (155 + 80)) with 200.
    simpl. rewrite append_empty_r. reflexivity.
Qed.

End Matching.

Lemma extract_window_spec_witness :
  Main.extract_window Samples.text200 (150, 155) Main.default_padding
  = Main.ellipsis +:+ String.substring 70 130 Samples.text200.
Proof.
  apply (extract_window_spec (RT := Reference.runtime)
           Samples.text200 150 155); vm_compute; congruence.
Defined.

(** ** The note store *)

Section StorageProps.
Context `{RT : Runtime}.

Import Storage.

Lemma map_py_str_JStr (l : list string) : map py_str (map JStr l) = l.
Proof. induction l as [|x l IH]; simpl; [reflexivity | now rewrite IH]. Qed.

Lemma astimezone_utc_is_utc (d : datetime) : is_utc (astimezone_utc d).
Proof. unfold is_utc, astimezone_utc. destruct (utcoffset d); reflexivity. Qed.

(** What [from_dict] rebuilds from [to_dict], provided [fromisoformat]
    accepts the timestamp that [_dt_to_iso] wrote. *)
Lemma from_dict_to_dict (note : StickyNote) (d : datetime) :
  fromisoformat (replace "Z" "+00:00" (dt_to_iso (created_at note))) = Some d ->
  from_dict (to_dict note)
  = Ok {| id := id note;
          message := message note;
          context_regex := context_regex note;
          created_at := astimezone_utc d;
          creator :=
            match creator note with
            | Some c => if nonempty_str c then Some c else None
            | None => None
            end;
          trigger_snippets :=
            match trigger_snippets note with
            | Some (x :: l) => Some (x :: l)
            | _ => None
            end |}.
Proof.
  destruct note as [i m r c cr ts].
  cbn [created_at id message context_regex creator trigger_snippets].
  intros H. unfold from_dict, to_dict.
  cbn [created_at id message context_regex creator trigger_snippets].
  destruct cr as [w|]; [destruct (nonempty_str w) eqn:Hw|];
    destruct ts as [[|x l]|]; cbn -[replace dt_to_iso];
    unfold iso_to_dt; rewrite H; cbn;
    rewrite ?map_py_str_JStr;
    try (unfold nonempty_str in Hw; rewrite Hw; cbn);
    reflexivity.
Qed.

(** C8.  A note built by [create_sticky_note], serialised by [to_dict] and
    read back by [from_dict] (directly, or through a store holding that one
    line), comes back with the same id, message, context_regex and
    trigger-snippet list, and with a [created_at] that carries the UTC time
    zone; [fromisoformat] is assumed to accept the timestamp written by
    [_dt_to_iso]. *)
Theorem created_note_roundtrip (note_id : option string) (fresh : string)
  (msg regex : string) (clock : Z) (snippet_texts : list string)
  (d : datetime) :
  let note := Main.new_note note_id fresh msg regex clock snippet_texts in
  fromisoformat (replace "Z" "+00:00" (dt_to_iso (created_at note))) = Some d ->
  exists restored,
    from_dict (to_dict note) = Ok restored
    /\ all_notes (append [] note) = Ok [restored]
    /\ id restored = id note
    /\ message restored = message note
    /\ context_regex restored = context_regex note
    /\ trigger_snippets restored = trigger_snippets note
    /\ is_utc (created_at restored).
Proof.
  intros note H. pose proof (from_dict_to_dict note d H) as E.
  eexists. split; [exact E|]. split.
  - unfold append. simpl. rewrite E. reflexivity.
  - simpl. repeat split; try reflexivity.
    + destruct snippet_texts; reflexivity.
    + apply astimezone_utc_is_utc.
Qed.

(** C9.  [to_dict] leaves out the key [creator] when the field is [None] or
    the empty string, and the key [trigger_snippets] when the field is
    [None] or the empty list; so [from_dict (to_dict note)] has
    [trigger_snippets = None] for a note with the empty list and
    [creator = None] for a note with the empty string, and differs from the
    note. *)
Theorem to_dict_omits_falsy_optionals (note : StickyNote) (d : datetime) :
  fromisoformat (replace "Z" "+00:00" (dt_to_iso (created_at note))) = Some d ->
  (exists kv,
     to_dict note = JObj kv
     /\ (creator note = None \/ creator note = Some "" ->
         has_key kv "creator" = false)
     /\ (trigger_snippets note = None \/ trigger_snippets note = Some [] ->
         has_key kv "trigger_snippets" = false))
  /\ exists restored,
       from_dict (to_dict note) = Ok restored
       /\ (trigger_snippets note = Some [] ->
           trigger_snippets restored = None /\ restored <> note)
       /\ (creator note = Some "" ->
           creator restored = None /\ restored <> note).
Proof.
  intros H. split.
  - eexists. split; [reflexivity|]. split.
    + intros [Hc|Hc]; rewrite Hc; unfold has_key; simpl;
        destruct (trigger_snippets note) as [[|x l]|]; reflexivity.
    + intros [Hs|Hs]; rewrite Hs; unfold has_key; simpl;
        destruct (creator note) as [c|]; [destruct (nonempty_str c)| |
        destruct (nonempty_str c)|]; reflexivity.
  - eexists. split; [exact (from_dict_to_dict note d H)|]. split.
    + intros Hs. simpl. rewrite Hs. split; [reflexivity|].
      intros E. apply (f_equal trigger_snippets) in E. simpl in E.
      rewrite Hs in E. discriminate.
    + intros Hc. simpl. rewrite Hc. split; [reflexivity|].
      intros E. apply (f_equal creator) in E. simpl in E.
      rewrite Hc in E. discriminate.
Qed.

End StorageProps.

Lemma created_note_roundtrip_witness :
  exists restored,
    Storage.from_dict (RT := Reference.runtime)
      (Storage.to_dict (RT := Reference.runtime) Samples.note_1) = Ok restored
    /\ Storage.all_notes (RT := Reference.runtime)
         (Storage.append (RT := Reference.runtime) [] Samples.note_1)
       = Ok [restored]
    /\ Storage.id restored = "note-1"
    /\ Storage.message restored = "Remember to update docs"
    /\ Storage.context_regex restored = "docs"
    /\ Storage.trigger_snippets restored = Some ["Docs mention"]
    /\ is_utc (Storage.created_at restored).
Proof.
  apply (created_note_roundtrip (RT := Reference.runtime)
           (Some "note-1") "0123456789abcdef0123456789abcdef"
           "Remember to update docs" "docs" (1735689600 * 1000000)
           ["Docs mention"] Samples.new_year_2025).
  vm_compute. reflexivity.
Defined.

Lemma to_dict_omits_falsy_optionals_witness :
  exists restored,
    Storage.from_dict (RT := Reference.runtime)
      (Storage.to_dict (RT := Reference.runtime)
         Samples.note_with_empty_optionals) = Ok restored
    /\ Storage.trigger_snippets restored = None
    /\ Storage.creator restored = None.
Proof.
  destruct (to_dict_omits_falsy_optionals (RT := Reference.runtime)
              Samples.note_with_empty_optionals Samples.new_year_2025)
    as [_ (restored & E & Hs & Hc)].
  - vm_compute. reflexivity.
  - exists restored. split; [exact E|]. split.
    + apply Hs. reflexivity.
    + apply Hc. reflexivity.
Defined.

(** ** The JSON-document provider *)

Lemma flat_mapM_Ok {A B} (f : A -> result (list B)) (l : list A) (ys : list B) :
  flat_mapM f l = Ok ys
  <-> exists yss, Forall2 (fun x y => f x = Ok y) l yss /\ ys = concat yss.
Proof.
  revert ys. induction l as [|x l IH]; intros ys; simpl.
  - split.
    + intros [= <-]. exists []. split; [constructor | reflexivity].
    + intros (yss & HF & ->). inversion HF. reflexivity.
  - split.
    + intros H. inv_bind H. inv_bind H. injection H as <-.
      apply IH in E0 as (yss & HF & ->).
      exists (v :: yss). split; [constructor; assumption | reflexivity].
    + intros (yss & HF & ->). inversion HF as [|? y ? yss' Hx HF']; subst.
      rewrite Hx. simpl.
      assert (E : flat_mapM f l = Ok (concat yss')) by (apply IH; eauto).
      rewrite E. reflexivity.
Qed.

Section CopilotProps.
Context `{RT : Runtime}.

Import Copilot.

(** What the loop over [response] appends for one fragment: the assistant
    entry for a truthy display value, else the tool-call entry for a
    serialized tool invocation, else nothing. *)
Lemma flat_mapM_Raise {A B} (f : A -> result (list B)) (pre post : list A)
  (x : A) (ys : list B) (e : exn) :
  flat_mapM f pre = Ok ys -> f x = Raise e ->
  flat_mapM f (pre ++ x :: post) = Raise e.
Proof.
  revert ys. induction pre as [|a pre IH]; intros ys; simpl.
  - intros _ ->. reflexivity.
  - intros H Hx. inv_bind H. inv_bind H. rewrite E. simpl.
    now rewrite (IH _ E0 Hx).
Qed.

Lemma fragment_entries_Ok (ts : option datetime) (req_id frag : json)
  (ans : list HistoryEntry) :
  fragment_entries ts req_id frag = Ok ans
  <-> exists fkv,
        frag = JObj fkv
        /\ let value := default (JStr "") (lookup "value" fkv) in
           if truthy value then ans = [assistant_entry ts req_id value]
           else if eq_str (default JNull (lookup "kind" fkv))
                     "toolInvocationSerialized"
           then exists dkv,
                  default (JObj []) (lookup "resultDetails" fkv) = JObj dkv
                  /\ ans = [tool_call_entry ts req_id
                              (default JNull (lookup "toolId" fkv))
                              (default JNull (lookup "toolCallId" fkv))
                              (default JNull (lookup "input" dkv))
                              (default JNull (lookup "output" dkv))]
           else ans = [].
Proof.
  unfold fragment_entries. split.
  - intros H. destruct frag as [| | | | |fkv]; try discriminate.
    exists fkv. split; [reflexivity|]. simpl in *.
    destruct (truthy (default (JStr "") (lookup "value" fkv))).
    + now injection H as <-.
    + destruct (eq_str (default JNull (lookup "kind" fkv)) _).
      * destruct (default (JObj []) (lookup "resultDetails" fkv))
          as [| | | | |dkv]; try discriminate.
        exists dkv. split; [reflexivity|]. simpl in H. now injection H as <-.
      * now injection H as <-.
  - intros (fkv & -> & H). simpl in *.
    destruct (truthy (default (JStr "") (lookup "value" fkv))).
    + now subst.
    + destruct (eq_str (default JNull (lookup "kind" fkv)) _).
      * destruct H as (dkv & -> & ->). reflexivity.
      * now subst.
Qed.

(** What the loop over [requests] appends for one request. *)
Lemma request_entries_Ok (req : json) (es : list HistoryEntry) :
  request_entries req = Ok es
  <-> exists kv ts mkv fragments answers,
        req = JObj kv
        /\ request_timestamp (default JNull (lookup "timestamp" kv)) = Ok ts
        /\ default (JObj []) (lookup "message" kv) = JObj mkv
        /\ iter (default (JArr []) (lookup "response" kv)) = Ok fragments
        /\ Forall2
             (fun frag ans =>
                fragment_entries ts (default JNull (lookup "id" kv)) frag
                = Ok ans)
             fragments answers
        /\ es = user_entries ts (default JNull (lookup "id" kv))
                  (default (JStr "") (lookup "text" mkv))
                ++ concat answers.
Proof.
  unfold request_entries. split.
  - intros H. destruct req as [| | | | |kv]; try discriminate. simpl in H.
    inv_bind H.
    destruct (default (JObj []) (lookup "message" kv)) as [| | | | |mkv] eqn:Em;
      try discriminate.
    simpl in H. inv_bind H. inv_bind H. injection H as <-.
    apply flat_mapM_Ok in E1 as (answers & HF & ->).
    exists kv, v, mkv, v0, answers. repeat split; assumption.
  - intros (kv & ts & mkv & fragments & answers & -> & Hts & Hm & Hi & HF & ->).
    simpl. rewrite Hts. simpl. rewrite Hm. simpl. rewrite Hi. simpl.
    assert (E : flat_mapM
                  (fragment_entries ts (default JNull (lookup "id" kv)))
                  fragments = Ok (concat answers))
      by (apply flat_mapM_Ok; eauto).
    rewrite E. reflexivity.
Qed.

(** Every entry of a request carries the request's shared timestamp. *)
Lemma request_entries_timestamp (req : json) (es : list HistoryEntry) :
  request_entries req = Ok es ->
  exists kv ts,
    req = JObj kv
    /\ request_timestamp (default JNull (lookup "timestamp" kv)) = Ok ts
    /\ Forall (fun e => timestamp e = ts) es.
Proof.
  intros H.
  apply request_entries_Ok in H
    as (kv & ts & mkv & fragments & answers & -> & Hts & _ & _ & HF & ->).
  exists kv, ts. repeat split; try assumption.
  apply Forall_app. split.
  - unfold user_entries. destruct (truthy _); repeat constructor.
  - apply Forall_concat.
    induction HF as [|frag ans fragments answers Hf HF IH]; constructor;
      [|assumption].
    apply fragment_entries_Ok in Hf as (fkv & -> & Hf). simpl in Hf.
    destruct (truthy _).
    + subst. repeat constructor.
    + destruct (eq_str _ _).
      * destruct Hf as (dkv & _ & ->). repeat constructor.
      * subst. constructor.
Qed.

End CopilotProps.

Section CopilotClaims.
Context `{RT : Runtime}.

Import Copilot.

(** C10.  The entries of a request whose [timestamp] field is absent or is
    0 have no timestamp; when the field is a positive number, every entry
    of the request has a timestamp, and that [datetime] is naive (it
    carries no UTC offset). *)
Theorem request_timestamp_absent_zero_or_naive (req : json)
  (es : list HistoryEntry) :
  request_entries req = Ok es ->
  exists kv,
    req = JObj kv
    /\ (lookup "timestamp" kv = None \/ lookup "timestamp" kv = Some (JNum 0) ->
        Forall (fun e => timestamp e = None) es)
    /\ (forall ms,
          0 < ms -> lookup "timestamp" kv = Some (JNum ms) ->
          Forall (fun e => exists d,
                      timestamp e = Some d
                      /\ utcoffset d = None
                      /\ is_aware d = false) es).
Proof.
  intros H.
  apply request_entries_timestamp in H as (kv & ts & -> & Hts & HF).
  exists kv. split; [reflexivity|]. split.
  - intros [E|E]; rewrite E in Hts; simpl in Hts; injection Hts as <-;
      exact HF.
  - intros ms Hms E. rewrite E in Hts. simpl in Hts.
    unfold request_timestamp, truthy in Hts.
    destruct (ms =? 0) eqn:E0; [apply Z.eqb_eq in E0; lia|].
    cbn [negb Py.bind] in Hts. unfold fromtimestamp_ms in Hts.
    destruct (_ && _); [|discriminate]. simpl in Hts. injection Hts as <-.
    eapply Forall_impl; [exact HF|].
    intros e He. eexists. split; [exact He|]. split; reflexivity.
Qed.

(** C7.  A request yields entries exactly when it is a dict whose
    [timestamp] converts, whose [message] is a dict (or missing) and whose
    [response] can be iterated over dict fragments (those that are tool
    invocations having a dict, or no, [resultDetails]).  Its entries are
    then: the user entry (kind "message", role "user", the message text)
    exactly when the message text is truthy, that is, for a string,
    non-empty; then, fragment by fragment, the assistant entry (kind
    "message", role "assistant") with the display value and the shared
    timestamp when the value is truthy, else the tool-call entry (kind
    "tool_call", role "assistant", metadata with tool id, call id, input
    and output) when the fragment's kind is "toolInvocationSerialized",
    else nothing.  In particular a session file with one request whose
    text is "Find me" and whose response is empty loads as exactly one
    entry, with role "user" and text "Find me".  A request of another
    shape yields no entry at all: it makes the parse of its file raise,
    so that the entries of the requests before it are lost as well. *)
Theorem copilot_request_entries :
  (forall (req : json) (es : list HistoryEntry),
     request_entries req = Ok es
     <-> exists kv ts mkv fragments answers,
           req = JObj kv
           /\ request_timestamp (default JNull (lookup "timestamp" kv)) = Ok ts
           /\ default (JObj []) (lookup "message" kv) = JObj mkv
           /\ iter (default (JArr []) (lookup "response" kv)) = Ok fragments
           /\ Forall2
                (fun frag ans =>
                   exists fkv,
                     frag = JObj fkv
                     /\ let req_id := default JNull (lookup "id" kv) in
                        let value := default (JStr "") (lookup "value" fkv) in
                        if truthy value
                        then ans = [assistant_entry ts req_id value]
                        else if eq_str (default JNull (lookup "kind" fkv))
                                  "toolInvocationSerialized"
                        then exists dkv,
                               default (JObj []) (lookup "resultDetails" fkv)
                               = JObj dkv
                               /\ ans = [tool_call_entry ts req_id
                                           (default JNull (lookup "toolId" fkv))
                                           (default JNull (lookup "toolCallId" fkv))
                                           (default JNull (lookup "input" dkv))
                                           (default JNull (lookup "output" dkv))]
                        else ans = [])
                fragments answers
           /\ let req_id := default JNull (lookup "id" kv) in
              let user_text := default (JStr "") (lookup "text" mkv) in
              es = (if truthy user_text
                    then [user_entry ts req_id user_text] else [])
                   ++ concat answers)
  /\ (forall ts req_id v,
        kind (user_entry ts req_id v) = "message"
        /\ role (user_entry ts req_id v) = JStr "user"
        /\ text (user_entry ts req_id v) = v
        /\ timestamp (user_entry ts req_id v) = ts
        /\ kind (assistant_entry ts req_id v) = "message"
        /\ role (assistant_entry ts req_id v) = JStr "assistant"
        /\ text (assistant_entry ts req_id v) = v
        /\ timestamp (assistant_entry ts req_id v) = ts)
  /\ (forall ts req_id tool_id call_id input output,
        let e := tool_call_entry ts req_id tool_id call_id input output in
        kind e = "tool_call"
        /\ role e = JStr "assistant"
        /\ timestamp e = ts
        /\ metadata e = JObj [("requestId", req_id); ("toolCallId", call_id);
                              ("toolId", tool_id); ("input", input);
                              ("output", output)])
  /\ (forall (f : file) (sid : string) kv ts,
        content f = Some (JObj [("requests", JArr [JObj kv])]) ->
        request_timestamp (default JNull (lookup "timestamp" kv)) = Ok ts ->
        lookup "message" kv = Some (JObj [("text", JStr "Find me")]) ->
        default (JArr []) (lookup "response" kv) = JArr [] ->
        load_file f sid
        = Ok {| session_id := sid;
                entries := [user_entry ts (default JNull (lookup "id" kv))
                              (JStr "Find me")] |})
  /\ (forall (f : file) (sid : string) (data requests : json)
             (pre post : list json) (req : json)
             (earlier : list HistoryEntry) (e : exn),
        content f = Some data ->
        get_default data "requests" (JArr []) = Ok requests ->
        iter requests = Ok (pre ++ req :: post) ->
        flat_mapM request_entries pre = Ok earlier ->
        request_entries req = Raise e ->
        parse_history_file f = Raise e /\ load_file f sid = Raise e).
Proof.
  split; [|split; [|split; [|split]]].
  - intros req es. rewrite request_entries_Ok.
    split.
    + intros (kv & ts & mkv & fragments & answers & -> & Hts & Hm & Hi & HF & ->).
      exists kv, ts, mkv, fragments, answers. repeat split; try assumption.
      eapply Forall2_impl; [exact HF|].
      intros frag ans Hf. now apply fragment_entries_Ok in Hf.
    + intros (kv & ts & mkv & fragments & answers & -> & Hts & Hm & Hi & HF & ->).
      exists kv, ts, mkv, fragments, answers. repeat split; try assumption.
      eapply Forall2_impl; [exact HF|].
      intros frag ans Hf. now apply fragment_entries_Ok.
  - intros ts req_id v. repeat split.
  - intros ts req_id tool_id call_id input output. repeat split.
  - intros f sid kv ts Hc Hts Hm Hr.
    unfold load_file, parse_history_file. rewrite Hc. simpl.
    assert (E : request_entries (JObj kv)
                = Ok [user_entry ts (default JNull (lookup "id" kv))
                        (JStr "Find me")]).
    { apply request_entries_Ok.
      exists kv, ts, [("text", JStr "Find me")], [], [].
      repeat split; try assumption.
      - rewrite Hm. reflexivity.
      - rewrite Hr. reflexivity.
      - constructor. }
    rewrite E. reflexivity.
  - intros f sid data requests pre post req earlier e Hc Hr Hi Hpre Hreq.
    assert (Hp : parse_history_file f = Raise e).
    { unfold parse_history_file. rewrite Hc, Hr. simpl. rewrite Hi. simpl.
      eapply flat_mapM_Raise; eassumption. }
    split; [exact Hp|]. unfold load_file. now rewrite Hp.
Qed.

(** The JSON-document half of C4: a file that loads has entries. *)
Lemma load_file_nonempty (f : file) (sid : string) (ctx : SessionContext) :
  load_file f sid = Ok ctx -> session_id ctx = sid /\ entries ctx <> [].
Proof.
  unfold load_file. intros H. inv_bind H.
  destruct v; [discriminate|]. injection H as <-. split; [reflexivity|].
  discriminate.
Qed.

Lemma try_each_nonempty (candidates : list file) (logs : list log_record)
  (ctx : SessionContext) :
  try_each candidates = (logs, Ok ctx) -> entries ctx <> [].
Proof.
  revert logs. induction candidates as [|p rest IH]; intros logs; simpl.
  - discriminate.
  - destruct (load_file p (stem (name p))) as [c|e] eqn:E.
    + intros [= _ <-]. now apply load_file_nonempty in E.
    + destruct (try_each rest) as [logs' r] eqn:Er. intros [= _ ->].
      eapply IH. reflexivity.
Qed.

Lemma copilot_load_context_nonempty (s : storage) (sid : string)
  (logs : list log_record) (ctx : SessionContext) :
  load_context s sid = (logs, Ok ctx) -> entries ctx <> [].
Proof.
  unfold load_context, load_from.
  destruct (find_session_files s) as [|c cs]; [discriminate|].
  destruct (if nonempty_str sid then _ else _) as [|p ps].
  - apply try_each_nonempty.
  - intros [= _ H]. now apply load_file_nonempty in H.
Qed.

End CopilotClaims.

Lemma request_timestamp_absent_zero_or_naive_witness :
  (exists es,
     Copilot.request_entries (RT := Reference.runtime)
       Samples.request_without_timestamp = Ok es
     /\ es <> [] /\ Forall (fun e => timestamp e = None) es)
  /\ (exists es,
        Copilot.request_entries (RT := Reference.runtime)
          Samples.request_with_zero_timestamp = Ok es
        /\ es <> [] /\ Forall (fun e => timestamp e = None) es)
  /\ (exists es,
        Copilot.request_entries (RT := Reference.runtime)
          Samples.request_with_tool_call = Ok es
        /\ es <> []
        /\ Forall (fun e => exists d,
                     timestamp e = Some d /\ utcoffset d = None
                     /\ is_aware d = false) es).
Proof.
  split; [|split].
  - destruct (Copilot.request_entries (RT := Reference.runtime)
                Samples.request_without_timestamp) as [es|e] eqn:E;
      [|vm_compute in E; discriminate].
    exists es. split; [reflexivity|].
    split; [vm_compute in E; injection E as <-; discriminate|].
    destruct (request_timestamp_absent_zero_or_naive _ _ E)
      as (kv & Hreq & H0 & _).
    unfold Samples.request_without_timestamp in Hreq.
    injection Hreq as <-. apply H0. left. reflexivity.
  - destruct (Copilot.request_entries (RT := Reference.runtime)
                Samples.request_with_zero_timestamp) as [es|e] eqn:E;
      [|vm_compute in E; discriminate].
    exists es. split; [reflexivity|].
    split; [vm_compute in E; injection E as <-; discriminate|].
    destruct (request_timestamp_absent_zero_or_naive _ _ E)
      as (kv & Hreq & H0 & _).
    unfold Samples.request_with_zero_timestamp in Hreq.
    injection Hreq as <-. apply H0. right. reflexivity.
  - destruct (Copilot.request_entries (RT := Reference.runtime)
                Samples.request_with_tool_call) as [es|e] eqn:E;
      [|vm_compute in E; discriminate].
    exists es. split; [reflexivity|].
    split; [vm_compute in E; injection E as <-; discriminate|].
    destruct (request_timestamp_absent_zero_or_naive _ _ E)
      as (kv & Hreq & _ & Hpos).
    unfold Samples.request_with_tool_call in Hreq.
    injection Hreq as <-. apply (Hpos 1678886400000); [lia | reflexivity].
Defined.

Lemma copilot_request_entries_witness :
  Copilot.load_file (RT := Reference.runtime) Samples.find_me_file
    "discovered-session"
  = Ok {| session_id := "discovered-session";
          entries :=
            [Copilot.user_entry
               (Some {| wall := 1678886400000 * 1000; utcoffset := None |})
               (JStr "req2") (JStr "Find me")] |}
  /\ exists es,
       Copilot.request_entries (RT := Reference.runtime)
         Samples.request_with_tool_call = Ok es
       /\ map kind es = ["message"; "message"; "tool_call"]
       /\ map role es = [JStr "user"; JStr "assistant"; JStr "assistant"].
Proof.
  destruct (copilot_request_entries (RT := Reference.runtime))
    as (Hreq & _ & _ & Hfind & _).
  split.
  - apply (Hfind Samples.find_me_file "discovered-session"
             [("id", JStr "req2"); ("timestamp", JNum 1678886400000);
              ("message", JObj [("text", JStr "Find me")]);
              ("response", JArr [])]);
      reflexivity.
  - destruct (Copilot.request_entries (RT := Reference.runtime)
                Samples.request_with_tool_call) as [es|e] eqn:E;
      [|vm_compute in E; discriminate].
    exists es. split; [reflexivity|].
    apply Hreq in E
      as (kv & ts & mkv & fragments & answers & Hk & Hts & Hm & Hi & HF & ->).
    vm_compute in Hk. injection Hk as <-.
    vm_compute in Hts. injection Hts as <-.
    vm_compute in Hm. injection Hm as <-.
    vm_compute in Hi. injection Hi as <-.
    inversion HF as [|f1 a1 fs1 as1 H1 HF1]; subst.
    inversion HF1 as [|f2 a2 fs2 as2 H2 HF2]; subst.
    inversion HF2 as [|f3 a3 fs3 as3 H3 HF3]; subst.
    inversion HF3; subst.
    destruct H1 as (k1 & [= <-] & ->).
    destruct H2 as (k2 & [= <-] & (d2 & _ & ->)).
    destruct H3 as (k3 & [= <-] & ->).
    split; reflexivity.
Defined.

(** C7 as it is stated does not hold of every request: a request with a
    message text and a response fragment with a display value, followed by
    a serialized tool invocation whose [resultDetails] is a list, yields
    no entry; its file, which holds the "Find me" request before it, does
    not load. *)
Lemma copilot_tool_details_counterexample :
  let req := MoreSamples.request_with_list_details in
  Py.bind (Py.get req "message") (fun m => Py.get m "text")
  = Ok (JStr "Hello Copilot")
  /\ Py.bind (Py.get req "response") Py.iter
     = Ok [JObj [("value", JStr "Hello User")];
           JObj [("kind", JStr "toolInvocationSerialized");
                 ("toolId", JStr "read_file");
                 ("toolCallId", JStr "call-1");
                 ("resultDetails", JArr [])]]
  /\ Copilot.request_entries (RT := Reference.runtime) req
     = Raise AttributeError
  /\ (exists es,
        Copilot.request_entries (RT := Reference.runtime)
          Samples.find_me_request = Ok es
        /\ es <> [])
  /\ Copilot.parse_history_file (RT := Reference.runtime)
       MoreSamples.list_details_file
     = Raise AttributeError
  /\ Copilot.load_context (RT := Reference.runtime)
       (Copilot.RootIsFile MoreSamples.list_details_file) "list-details"
     = ([], Raise AttributeError).
Proof.
  intros req.
  split; [reflexivity|].
  split; [reflexivity|].
  split; [vm_compute; reflexivity|].
  split.
  { eexists. split; [vm_compute; reflexivity | discriminate]. }
  split; vm_compute; reflexivity.
Qed.

(** ** The line-format provider *)

Lemma str_int_head (n : Z) :
  exists c rest, str_int n = String c rest
    /\ (c = "-"%char \/ (48 <=? nat_of_ascii c)%nat && (nat_of_ascii c <=? 57)%nat = true).
Proof.
  unfold str_int. destruct (Z.to_int n) as [u|u]; simpl.
  - destruct u; simpl; eexists _, _; (split; [reflexivity|right; reflexivity]).
  - eexists _, _. split; [reflexivity|left; reflexivity].
Qed.

Lemma existsb_eq_str_not_str (v : json) (set : list string) :
  (forall s, v <> JStr s) -> existsb (eq_str v) set = false.
Proof.
  intros H. induction set as [|x set IH]; simpl; [reflexivity|].
  rewrite IH. destruct v; try reflexivity. now destruct (H s).
Qed.

Lemma in_str_set_true (v : json) (set : list string) :
  in_str_set v set = Ok true -> exists s, v = JStr s /\ In s set.
Proof.
  destruct v; simpl; try discriminate;
    try (rewrite existsb_eq_str_not_str by discriminate; discriminate).
  intros [= H]. exists s. split; [reflexivity|].
  apply existsb_exists in H as (x & Hx & E). simpl in E.
  apply String.eqb_eq in E. now subst.
Qed.

Section CodexProps.
Context `{RT : Runtime}.

Import Codex.

Lemma session_meta_kind item e :
  entry_from_session_meta item = Ok (Some e) -> kind e = "session_meta".
Proof.
  unfold entry_from_session_meta. intros H. inv_ok H; try discriminate.
  now subst.
Qed.

Lemma compacted_kind item e :
  entry_from_compacted item = Ok (Some e) -> kind e = "compacted".
Proof.
  unfold entry_from_compacted. intros H. inv_ok H; try discriminate.
  now subst.
Qed.

Lemma response_item_kind item e :
  entry_from_response_item item = Ok (Some e) ->
  In (kind e) ["message"; "reasoning"] \/ In (kind e) call_variants.
Proof.
  unfold entry_from_response_item. intros H.
  inv_ok H; try discriminate; subst; cbn [kind].
  - left. simpl. tauto.
  - left. simpl. tauto.
  - match goal with
    | Hs : in_str_set _ _ = Ok true |- _ =>
        apply in_str_set_true in Hs as (s' & -> & Hin)
    end.
    right. exact Hin.
Qed.

Lemma event_msg_kind item e :
  entry_from_event_msg item = Ok (Some e) ->
  exists payload variant,
    payload_of item = Ok payload /\ get payload "type" = Ok variant
    /\ kind e = "event:" +:+ py_str variant.
Proof.
  unfold entry_from_event_msg. intros H.
  inv_bind H. inv_bind H. inv_bind H. inv_bind H. inv_bind H.
  exists v, v0. split; [assumption|]. split; [assumption|].
  destruct (por v2 v3); try discriminate; inv_ok H; now subst.
Qed.

(** One iteration appends at most one entry, of a produced kind. *)
Lemma step_entries sid st item st' :
  step sid st item = Ok st' ->
  fs_entries st' = fs_entries st
  \/ exists e, fs_entries st' = fs_entries st ++ [e] /\ produced_kind (kind e).
Proof.
  unfold step. intros H. inv_bind H.
  destruct (eq_str v "turn_context"); [injection H as <-; now left|].
  destruct (eq_str v "session_meta").
  { inv_bind H. inv_bind H. inv_bind H. injection H as <-.
    destruct v2 as [e|]; [right|left; reflexivity].
    exists e. split; [reflexivity|].
    apply session_meta_kind in E2. left. rewrite E2. simpl. tauto. }
  destruct (eq_str v "response_item").
  { inv_bind H. injection H as <-.
    destruct v0 as [e|]; [right|left; reflexivity].
    exists e. split; [reflexivity|].
    apply response_item_kind in E0 as [Hk|Hk].
    - left. simpl in *. tauto.
    - right. left. exact Hk. }
  destruct (eq_str v "event_msg").
  { inv_bind H. inv_bind H. inv_bind H.
    destruct v2; [injection H as <-; now left|].
    inv_bind H. injection H as <-.
    destruct v2 as [e|]; [right|left; reflexivity].
    exists e. split; [reflexivity|].
    apply event_msg_kind in E3 as (p & w & Hp & Hw & Hk).
    rewrite E0 in Hp. injection Hp as <-. rewrite E1 in Hw. injection Hw as <-.
    right. right. exists v1. split; assumption. }
  destruct (eq_str v "compacted").
  { inv_bind H. injection H as <-.
    destruct v0 as [e|]; [right|left; reflexivity].
    exists e. split; [reflexivity|].
    apply compacted_kind in E0. left. rewrite E0. simpl. tauto. }
  injection H as <-. now left.
Qed.

Lemma run_items_kinds sid items st st' :
  run_items sid st items = Ok st' ->
  Forall (fun e => produced_kind (kind e)) (fs_entries st) ->
  Forall (fun e => produced_kind (kind e)) (fs_entries st').
Proof.
  revert st. induction items as [|item items IH]; intros st; simpl.
  - now intros [= <-].
  - intros H HF. inv_bind H. apply (IH _ H).
    apply step_entries in E as [->|(e & -> & He)]; [assumption|].
    apply Forall_app. split; [assumption|]. now constructor.
Qed.

Lemma event_prefix (x : string) :
  "event:" +:+ x
  = String "e" (String "v" (String "e" (String "n" (String "t" (String ":" x))))).
Proof. reflexivity. Qed.

Lemma produced_kind_not_filtered (k : string) :
  produced_kind k ->
  k <> "turn_context" /\ k <> "event:user_message"
  /\ k <> "event:agent_message" /\ k <> "event:token_count".
Proof.
  intros [H|[H|(v & Hv & ->)]].
  - simpl in H. decompose [or] H; subst; try contradiction;
      repeat split; discriminate.
  - simpl in H. decompose [or] H; subst; try contradiction;
      repeat split; discriminate.
  - rewrite event_prefix. split; [discriminate|].
    assert (Hn : ~ In (py_str v) noise).
    { destruct v as [| [|] |n|s| |]; try discriminate.
      - simpl. intros H; decompose [or] H; discriminate || contradiction.
      - simpl. intros H; decompose [or] H; discriminate || contradiction.
      - simpl. intros H; decompose [or] H; discriminate || contradiction.
      - simpl. destruct (str_int_head n) as (c & rest & -> & Hc).
        intros H; decompose [or] H; try contradiction;
          match goal with E : _ = String _ _ |- _ => injection E as <- _ end;
          destruct Hc as [Hc|Hc]; discriminate.
      - unfold in_str_set in Hv. injection Hv as Hv. intros H.
        apply not_true_iff_false in Hv. apply Hv.
        change (existsb (eq_str (JStr s)) noise = true).
        apply existsb_exists. exists s. split; [exact H|].
        simpl. apply String.eqb_refl. }
    repeat split; intros [= E]; apply Hn; rewrite E; simpl; tauto.
Qed.


(** Where the context returned by the outer loop comes from. *)
Lemma scan_origin sid candidates fb ctx logs :
  scan sid candidates fb = Ok (ctx, logs) ->
  (exists f st,
     In f candidates /\ parse_file sid f = Ok st /\ fs_entries st <> []
     /\ ctx = {| session_id := sid; entries := fs_entries st |})
  \/ (exists source, fb = Some (ctx, source)).
Proof.
  revert fb. induction candidates as [|f rest IH]; intros fb; simpl.
  - destruct fb as [[c source]|]; [|discriminate].
    intros [= <- _]. right. eauto.
  - intros H. inv_bind H.
    assert (Hrest : forall fb',
      scan sid rest fb' = Ok (ctx, logs) ->
      (fb' = fb
       \/ fb' = Some ({| session_id := sid; entries := fs_entries v |}, f)
          /\ fs_entries v <> []) ->
      (exists f0 st,
         (f = f0 \/ In f0 rest) /\ parse_file sid f0 = Ok st
         /\ fs_entries st <> []
         /\ ctx = {| session_id := sid; entries := fs_entries st |})
      \/ (exists source, fb = Some (ctx, source))).
    { intros fb' Hs Hfb. apply IH in Hs as [(f0 & st & Hin & Hp & Hne & ->)|(source & Hs)].
      - left. exists f0, st. auto.
      - destruct Hfb as [->|[-> Hne]].
        + right. eauto.
        + injection Hs as <- _. left. exists f, v. auto. }
    destruct (fs_entries v) as [|e es] eqn:Ees.
    + apply (Hrest fb H). now left.
    + destruct (eq_str (fs_discovered v) sid).
      * injection H as <- _. left. exists f, v. rewrite Ees.
        repeat split; auto.
      * destruct fb as [p|]; apply (Hrest _ H); [now left|].
        right. split; [reflexivity|discriminate].
Qed.

(** A file parses when its items are processed without an exception and
    the generator reaches the end of the file. *)
Lemma parse_file_Ok sid f st :
  parse_file sid f = Ok st
  <-> run_items sid fs_init (fst (iter_jsonl f)) = Ok st
      /\ snd (iter_jsonl f) = None.
Proof.
  unfold parse_file. destruct (iter_jsonl f) as [items failure]. simpl.
  destruct (run_items sid fs_init items) as [st'|e]; simpl.
  - destruct failure as [e|]; split.
    + discriminate.
    + intros [_ H]. discriminate.
    + intros H. split; [exact H | reflexivity].
    + now intros [H _].
  - split; [discriminate | now intros [? _]].
Qed.

Lemma parse_file_kinds sid f st :
  parse_file sid f = Ok st ->
  Forall (fun e => produced_kind (kind e)) (fs_entries st).
Proof.
  intros H. apply parse_file_Ok in H as [H _].
  apply (run_items_kinds _ _ _ _ H). constructor.
Qed.

(** An exact match ends the outer loop, whatever follows it. *)
Lemma scan_match sid pre f post fb st :
  Forall (passed_over sid) pre ->
  parse_file sid f = Ok st -> fs_entries st <> [] ->
  eq_str (fs_discovered st) sid = true ->
  scan sid (pre ++ f :: post) fb
  = Ok ({| session_id := sid; entries := fs_entries st |}, []).
Proof.
  intros Hpre Hp Hne Hd. revert fb.
  induction Hpre as [|g pre (sg & Hg & Hsg) _ IH]; intros fb; simpl.
  - rewrite Hp. simpl. destruct (fs_entries st); [contradiction|].
    now rewrite Hd.
  - rewrite Hg. simpl. destruct (fs_entries sg) as [|e es].
    + apply IH.
    + destruct Hsg as [|Hsg]; [discriminate|]. rewrite Hsg. apply IH.
Qed.

(** Once a fallback is held, passing over the remaining candidates returns
    it with the warning. *)
Lemma scan_keeps_fallback sid rest ctx source :
  Forall (passed_over sid) rest ->
  scan sid rest (Some (ctx, source))
  = Ok (ctx, [FallbackWarning sid (path source)]).
Proof.
  induction 1 as [|g rest (sg & Hg & Hsg) _ IH]; simpl; [reflexivity|].
  rewrite Hg. simpl. destruct (fs_entries sg) as [|e es]; [exact IH|].
  destruct Hsg as [|Hsg]; [discriminate|]. rewrite Hsg. exact IH.
Qed.

Lemma scan_fallback sid pre f post st :
  Forall (without_entries sid) pre ->
  parse_file sid f = Ok st -> fs_entries st <> [] ->
  Forall (passed_over sid) (f :: post) ->
  scan sid (pre ++ f :: post) None
  = Ok ({| session_id := sid; entries := fs_entries st |},
        [FallbackWarning sid (path f)]).
Proof.
  intros Hpre Hp Hne Hall.
  induction Hpre as [|g pre (sg & Hg & Hsg) _ IH]; simpl.
  - inversion Hall as [|? ? (st' & Hp' & Hst') Hpost]; subst.
    rewrite Hp in Hp'. injection Hp' as <-.
    rewrite Hp. simpl. destruct (fs_entries st) as [|e es] eqn:E;
      [contradiction|].
    destruct Hst' as [|Hst']; [discriminate|]. rewrite Hst'.
    now apply scan_keeps_fallback.
  - rewrite Hg. simpl. rewrite Hsg. exact IH.
Qed.

(** A candidate that raises is reached, and ends the call, when the
    candidates before it are passed over. *)
Lemma scan_raise sid pre g post fb e :
  Forall (passed_over sid) pre ->
  parse_file sid g = Raise e ->
  scan sid (pre ++ g :: post) fb = Raise e.
Proof.
  intros Hpre Hg. revert fb.
  induction Hpre as [|h pre (sh & Hh & Hsh) _ IH]; intros fb; simpl.
  - now rewrite Hg.
  - rewrite Hh. simpl. destruct (fs_entries sh) as [|x xs]; [apply IH|].
    destruct Hsh as [|Hsh]; [discriminate|]. rewrite Hsh. apply IH.
Qed.

End CodexProps.

Section CodexClaims.
Context `{RT : Runtime}.

Import Codex.

(** C2.  Let [f] be a candidate that parses to entries.  If every candidate
    before [f] is passed over (it parses, and has no entries or another
    discovered id) and the discovered id of [f] equals the requested id,
    [load_context] returns the entries of [f] under the requested id,
    without a warning and whatever the later candidates are.  If every
    candidate before [f] has no entries and no candidate has both entries
    and the requested id, [load_context] returns the entries of [f], again
    under the requested id, and logs the fallback warning naming [f]; this
    happens only after the later candidates were examined: one of them
    that raises makes the call raise.  The candidates before [f] have to
    parse: one of them that raises, when those before it are passed over,
    makes the call raise, although [f] has entries. *)
Theorem codex_load_context_selection (root : history_root) (sid : string)
  (pre post : list file) (f : file) (st : file_state) :
  sid <> "" ->
  candidate_paths root sid = Ok (pre ++ f :: post) ->
  parse_file sid f = Ok st ->
  fs_entries st <> [] ->
  (Forall (passed_over sid) pre ->
   eq_str (fs_discovered st) sid = true ->
   load_context root sid
   = Ok ({| session_id := sid; entries := fs_entries st |}, []))
  /\ (Forall (without_entries sid) pre ->
      Forall (passed_over sid) (f :: post) ->
      load_context root sid
      = Ok ({| session_id := sid; entries := fs_entries st |},
            [FallbackWarning sid (path f)]))
  /\ (Forall (without_entries sid) pre ->
      eq_str (fs_discovered st) sid = false ->
      forall mid g rest e,
        post = mid ++ g :: rest ->
        Forall (passed_over sid) mid ->
        parse_file sid g = Raise e ->
        load_context root sid = Raise e)
  /\ (forall before g after e,
        pre = before ++ g :: after ->
        Forall (passed_over sid) before ->
        parse_file sid g = Raise e ->
        load_context root sid = Raise e).
Proof.
  intros Hsid Hc Hp Hne.
  assert (Hload : load_context root sid = scan sid (pre ++ f :: post) None).
  { unfold load_context, load_from.
    destruct (String.eqb_spec sid ""); [contradiction|].
    rewrite Hc. reflexivity. }
  rewrite Hload. split; [|split; [|split]].
  - intros Hpre Hd. now apply scan_match.
  - intros Hpre Hall. now apply scan_fallback.
  - intros Hpre Hd mid g rest e -> Hmid Hg.
    replace (pre ++ f :: mid ++ g :: rest)
      with ((pre ++ f :: mid) ++ g :: rest)
      by (rewrite <- app_assoc; reflexivity).
    apply scan_raise; [|assumption].
    apply Forall_app. split.
    + eapply Forall_impl; [exact Hpre|].
      intros h (sh & Hh & Hsh). exists sh. auto.
    + constructor; [|assumption]. exists st. auto.
  - intros before g after e -> Hbefore Hg.
    rewrite <- app_assoc. simpl. now apply scan_raise.
Qed.

(** C4.  When [load_context] returns a context, for the line-format
    provider as for the JSON-document provider, the context has at least
    one entry; every other outcome is an exception. *)
Theorem load_context_never_empty :
  (forall (root : history_root) (sid : string) (ctx : SessionContext)
          (logs : list log_record),
     load_context root sid = Ok (ctx, logs) -> entries ctx <> [])
  /\ (forall (s : Copilot.storage) (sid : string) (logs : list log_record)
             (ctx : SessionContext),
        Copilot.load_context s sid = (logs, Ok ctx) -> entries ctx <> []).
Proof.
  split.
  - intros root sid ctx logs H. unfold load_context in H.
    destruct (String.eqb sid ""); [discriminate|].
    inv_bind H. unfold load_from in H.
    apply scan_origin in H as [(f & st & _ & _ & Hne & ->)|(source & Hs)];
      [exact Hne | discriminate].
  - apply copilot_load_context_nonempty.
Qed.

(** C6.  The entries of a context returned by the line-format provider
    never have the kind [turn_context], [event:user_message],
    [event:agent_message] or [event:token_count].  An [event_msg] record
    whose payload carries a discriminant outside the noise set and a text
    (and neither a message nor a nested payload) yields one entry, of kind
    [event:<discriminant>] and with that text; so does the record with the
    discriminant [agent_reasoning] and the text "**Hidden thoughts**". *)
Theorem codex_noise_filtering :
  (forall (root : history_root) (sid : string) (ctx : SessionContext)
          (logs : list log_record),
     load_context root sid = Ok (ctx, logs) ->
     Forall (fun e =>
               kind e <> "turn_context"
               /\ kind e <> "event:user_message"
               /\ kind e <> "event:agent_message"
               /\ kind e <> "event:token_count")
            (entries ctx))
  /\ (forall (sid : string) (st : file_state) (ikv pkv : list (string * json))
             (variant : json) (t : string),
        lookup "type" ikv = Some (JStr "event_msg") ->
        lookup "payload" ikv = Some (JObj pkv) ->
        lookup "type" pkv = Some variant ->
        in_str_set variant noise = Ok false ->
        lookup "payload" pkv = None ->
        lookup "message" pkv = None ->
        lookup "text" pkv = Some (JStr t) ->
        step sid st (JObj ikv)
        = Ok {| fs_entries :=
                  fs_entries st
                  ++ [ {| timestamp :=
                            parse_timestamp
                              (default JNull (lookup "timestamp" ikv));
                          kind := "event:" +:+ py_str variant;
                          text := JStr t;
                          role := default JNull (lookup "role" pkv);
                          metadata := JObj pkv |} ];
                fs_discovered := fs_discovered st;
                fs_mismatch := fs_mismatch st |})
  /\ (forall (sid : string) (f : file),
        lines f = [Decoded Samples.hidden_thoughts_record] ->
        exists st,
          parse_file sid f = Ok st
          /\ map (fun e => (kind e, text e)) (fs_entries st)
             = [("event:agent_reasoning", JStr "**Hidden thoughts**")]).
Proof.
  split; [|split].
  - intros root sid ctx logs H. unfold load_context in H.
    destruct (String.eqb sid ""); [discriminate|].
    inv_bind H. unfold load_from in H.
    apply scan_origin in H as [(f & st & _ & Hp & _ & ->)|(source & Hs)];
      [|discriminate].
    simpl. eapply Forall_impl; [exact (parse_file_kinds _ _ _ Hp)|].
    intros e He. now apply produced_kind_not_filtered.
  - intros sid st ikv pkv variant t Hty Hpl Hv Hn Hin Hm Ht.
    assert (Hpo : payload_of (JObj ikv) = Ok (JObj pkv)).
    { unfold payload_of. simpl. rewrite Hpl. simpl.
      unfold por. destruct pkv; [discriminate|]. reflexivity. }
    unfold step. cbn [get Py.bind]. rewrite Hty.
    cbn [default from_option id eq_str String.eqb Ascii.eqb Bool.eqb].
    rewrite Hpo. cbn [get Py.bind]. rewrite Hv. cbn [default from_option id].
    rewrite Hn. cbn [Py.bind].
    unfold entry_from_event_msg. rewrite Hpo. cbn [get Py.bind].
    rewrite Hv, Hin. cbn [default from_option id].
    unfold view_of. cbn [is_dict andb get Py.bind]. rewrite Hm, Ht.
    cbn. reflexivity.
  - intros sid f Hl. unfold parse_file, iter_jsonl. rewrite Hl.
    eexists. split; reflexivity.
Qed.

(** C5 as the code has it.  For an [event_msg] record with a dict payload,
    let the view be the nested payload when that is a non-empty dict and
    the payload otherwise.  The entry is built from [message or text]: when
    [message] is truthy the entry carries [str(message)]; when [message] is
    falsy (absent, [None], or empty) and [text] is present and not [None]
    the entry carries [str(text)], which may be the empty string; when
    [message] is falsy and [text] is absent or [None] there is no entry. *)
Theorem event_msg_entry_rule (ikv pkv : list (string * json)) :
  por (default JNull (lookup "payload" ikv)) (JObj []) = JObj pkv ->
  exists vkv,
    view_of (JObj pkv) (default JNull (lookup "payload" pkv)) = JObj vkv
    /\ let m := default JNull (lookup "message" vkv) in
       let t := default JNull (lookup "text" vkv) in
       let entry_with msg :=
         {| timestamp :=
              parse_timestamp (default JNull (lookup "timestamp" ikv));
            kind := "event:" +:+ py_str (default JNull (lookup "type" pkv));
            text := JStr (py_str msg);
            role := default JNull (lookup "role" vkv);
            metadata := JObj pkv |} in
       (truthy m = true ->
        entry_from_event_msg (JObj ikv) = Ok (Some (entry_with m)))
       /\ (truthy m = false -> t <> JNull ->
           entry_from_event_msg (JObj ikv) = Ok (Some (entry_with t)))
       /\ (truthy m = false -> t = JNull ->
           entry_from_event_msg (JObj ikv) = Ok None).
Proof.
  intros Hp.
  assert (Hv : exists vkv,
    view_of (JObj pkv) (default JNull (lookup "payload" pkv)) = JObj vkv).
  { unfold view_of.
    destruct (default JNull (lookup "payload" pkv)) as [| | | | |ikv'];
      simpl; eauto.
    destruct ikv'; eauto. }
  destruct Hv as (vkv & Hv). exists vkv. split; [exact Hv|].
  unfold entry_from_event_msg, payload_of. simpl. rewrite Hp. simpl.
  rewrite Hv. simpl.
  split; [|split].
  - intros Hm. unfold por. rewrite Hm.
    destruct (default JNull (lookup "message" vkv)); try discriminate;
      reflexivity.
  - intros Hm Ht. unfold por. rewrite Hm.
    destruct (default JNull (lookup "text" vkv)); try contradiction;
      reflexivity.
  - intros Hm Ht. unfold por. rewrite Hm, Ht. reflexivity.
Qed.

End CodexClaims.

Lemma codex_load_context_selection_witness :
  (exists ctx,
     Codex.load_context (RT := Reference.runtime)
       (Codex.RootDir [Samples.session_file; Samples.empty_history_file;
                       Samples.noise_file])
       "conversation-id"
     = Ok (ctx, [])
     /\ session_id ctx = "conversation-id"
     /\ map text (entries ctx) = [JStr "Stay focused"; JStr "Hello agent"])
  /\ (exists ctx,
        Codex.load_context (RT := Reference.runtime)
          (Codex.RootDir [Samples.session_file; Samples.empty_history_file;
                          Samples.noise_file])
          "handshake-id"
        = Ok (ctx, [FallbackWarning "handshake-id" "history/session.jsonl"])
        /\ session_id ctx = "handshake-id"
        /\ map text (entries ctx) = [JStr "Stay focused"; JStr "Hello agent"]).
Proof.
  pose (root := Codex.RootDir [Samples.session_file; Samples.empty_history_file;
                               Samples.noise_file]).
  assert (Hempty : forall sid,
            Codex.without_entries (RT := Reference.runtime) sid
              Samples.empty_history_file).
  { intros sid. eexists. split; reflexivity. }
  split.
  - destruct (Codex.parse_file (RT := Reference.runtime) "conversation-id"
                Samples.session_file) as [st|e] eqn:E;
      [|vm_compute in E; discriminate].
    destruct (codex_load_context_selection (RT := Reference.runtime)
                root "conversation-id" [Samples.empty_history_file]
                [Samples.noise_file] Samples.session_file st)
      as (Hexact & _ & _).
    + discriminate.
    + reflexivity.
    + exact E.
    + vm_compute in E. injection E as <-. discriminate.
    + eexists. split; [|split].
      * apply Hexact.
        -- constructor; [|constructor].
           destruct (Hempty "conversation-id") as (s0 & H0 & H1).
           exists s0. auto.
        -- vm_compute in E. injection E as <-. reflexivity.
      * reflexivity.
      * vm_compute in E. injection E as <-. reflexivity.
  - destruct (Codex.parse_file (RT := Reference.runtime) "handshake-id"
                Samples.session_file) as [st|e] eqn:E;
      [|vm_compute in E; discriminate].
    destruct (codex_load_context_selection (RT := Reference.runtime)
                root "handshake-id" [Samples.empty_history_file]
                [Samples.noise_file] Samples.session_file st)
      as (_ & Hfallback & _).
    + discriminate.
    + reflexivity.
    + exact E.
    + vm_compute in E. injection E as <-. discriminate.
    + eexists. split; [|split].
      * apply Hfallback.
        -- constructor; [apply Hempty | constructor].
        -- constructor; [|constructor; [|constructor]].
           ++ exists st. split; [exact E|]. right.
              vm_compute in E. injection E as <-. reflexivity.
           ++ eexists. split; [vm_compute; reflexivity|]. right. reflexivity.
      * reflexivity.
      * vm_compute in E. injection E as <-. reflexivity.
Defined.

(** C2 as it is stated does not hold of every candidate list in which a
    file produces entries: [session.jsonl] produces entries and carries
    the requested id, but the candidate that is read before it holds a
    line that is no object, or a line on which [json.loads] raises, and
    [load_context] raises. *)
Lemma codex_selection_unparsed_candidate_counterexample :
  let sid := "conversation-id" in
  let with_array :=
    Codex.RootDir [Samples.session_file; MoreSamples.array_line_file] in
  let with_overlong :=
    Codex.RootDir [Samples.session_file; MoreSamples.overlong_integer_file] in
  (exists st,
     Codex.parse_file (RT := Reference.runtime) sid Samples.session_file
     = Ok st
     /\ Codex.fs_entries st <> []
     /\ eq_str (Codex.fs_discovered st) sid = true)
  /\ Codex.candidate_paths with_array sid
     = Ok [MoreSamples.array_line_file; Samples.session_file]
  /\ Codex.load_context (RT := Reference.runtime) with_array sid
     = Raise AttributeError
  /\ Codex.candidate_paths with_overlong sid
     = Ok [MoreSamples.overlong_integer_file; Samples.session_file]
  /\ Codex.load_context (RT := Reference.runtime) with_overlong sid
     = Raise ValueError.
Proof.
  intros sid with_array with_overlong.
  split.
  { eexists. split; [vm_compute; reflexivity|].
    split; [discriminate | vm_compute; reflexivity]. }
  split; [vm_compute; reflexivity|].
  split; [vm_compute; reflexivity|].
  split; vm_compute; reflexivity.
Qed.

Lemma load_context_never_empty_witness :
  (exists ctx logs,
     Codex.load_context (RT := Reference.runtime)
       (Codex.RootFile Samples.session_file) "conversation-id"
     = Ok (ctx, logs)
     /\ entries ctx <> [])
  /\ (exists ctx logs,
        Copilot.load_context (RT := Reference.runtime)
          (Copilot.Discovered [Samples.find_me_file]) "discovered-session"
        = (logs, Ok ctx)
        /\ entries ctx <> []).
Proof.
  destruct (load_context_never_empty (RT := Reference.runtime))
    as (Hcodex & Hcopilot).
  split.
  - destruct (Codex.load_context (RT := Reference.runtime)
                (Codex.RootFile Samples.session_file) "conversation-id")
      as [[ctx logs]|e] eqn:E; [|vm_compute in E; discriminate].
    exists ctx, logs. split; [reflexivity|]. exact (Hcodex _ _ _ _ E).
  - destruct (Copilot.load_context (RT := Reference.runtime)
                (Copilot.Discovered [Samples.find_me_file])
                "discovered-session")
      as [logs [ctx|e]] eqn:E; [|vm_compute in E; discriminate].
    exists ctx, logs. split; [reflexivity|]. exact (Hcopilot _ _ _ _ E).
Defined.

Lemma codex_noise_filtering_witness :
  exists ctx,
    Codex.load_context (RT := Reference.runtime)
      (Codex.RootFile Samples.noise_file) "session-id"
    = Ok (ctx, [])
    /\ map kind (entries ctx) = ["event:agent_reasoning"; "message"; "reasoning"]
    /\ Forall (fun e =>
                 kind e <> "turn_context"
                 /\ kind e <> "event:user_message"
                 /\ kind e <> "event:agent_message"
                 /\ kind e <> "event:token_count")
              (entries ctx).
Proof.
  destruct (Codex.load_context (RT := Reference.runtime)
              (Codex.RootFile Samples.noise_file) "session-id")
    as [[ctx logs]|e] eqn:E; [|vm_compute in E; discriminate].
  destruct (codex_noise_filtering (RT := Reference.runtime)) as (Hkinds & _).
  pose proof (Hkinds _ _ _ _ E) as HF.
  vm_compute in E. injection E as <- <-.
  eexists. split; [reflexivity|]. split; [reflexivity | exact HF].
Defined.

(** C5 as the claim states it fails: an [event_msg] record whose payload
    has [message] equal to the empty string and no [text] yields no entry,
    while the record with an empty [text] and no [message] yields one. *)
Lemma event_msg_empty_message_counterexample :
  Codex.entry_from_event_msg (RT := Reference.runtime)
    Samples.event_with_empty_message = Ok None
  /\ ~ (exists e,
          Codex.entry_from_event_msg (RT := Reference.runtime)
            Samples.event_with_empty_message = Ok (Some e))
  /\ (exists e,
        Codex.entry_from_event_msg (RT := Reference.runtime)
          Samples.event_with_empty_text = Ok (Some e)
        /\ text e = JStr "").
Proof.
  split; [reflexivity|]. split.
  - intros (e & H). vm_compute in H. discriminate.
  - eexists. split; reflexivity.
Qed.

Lemma event_msg_entry_rule_witness :
  (exists e,
     Codex.entry_from_event_msg (RT := Reference.runtime)
       Samples.event_with_empty_text = Ok (Some e)
     /\ kind e = "event:agent_reasoning" /\ text e = JStr "")
  /\ Codex.entry_from_event_msg (RT := Reference.runtime)
       Samples.event_with_empty_message = Ok None.
Proof.
  split.
  - destruct (event_msg_entry_rule (RT := Reference.runtime)
                [("type", JStr "event_msg");
                 ("payload", JObj [("type", JStr "agent_reasoning");
                                   ("text", JStr "")])]
                [("type", JStr "agent_reasoning"); ("text", JStr "")])
      as (vkv & Hv & _ & Htext & _); [reflexivity|].
    vm_compute in Hv. injection Hv as <-.
    eexists. split; [apply Htext; [reflexivity | discriminate]|].
    split; reflexivity.
  - destruct (event_msg_entry_rule (RT := Reference.runtime)
                [("type", JStr "event_msg");
                 ("payload", JObj [("type", JStr "agent_reasoning");
                                   ("message", JStr "")])]
                [("type", JStr "agent_reasoning"); ("message", JStr "")])
      as (vkv & Hv & _ & _ & Hnone); [reflexivity|].
    vm_compute in Hv. injection Hv as <-.
    apply Hnone; reflexivity.
Defined.

(** ** The session note tracker *)

Section TrackerProps.

Import SessionState.

Lemma has_shown_true (t : tracker) (sid x : string) :
  has_shown t sid x = true <-> x ∈ shown_in t sid.
Proof. unfold has_shown. apply bool_decide_eq_true. Qed.

Lemma has_shown_false (t : tracker) (sid x : string) :
  has_shown t sid x = false <-> x ∉ shown_in t sid.
Proof. unfold has_shown. apply bool_decide_eq_false. Qed.

Lemma shown_in_mark_shown (t : tracker) (sid sid' x y : string) :
  y ∈ shown_in (mark_shown t sid x) sid'
  <-> y ∈ shown_in t sid' \/ (sid' = sid /\ y = x).
Proof.
  unfold shown_in, mark_shown.
  destruct (decide (sid = sid')) as [<-|Hne].
  - rewrite lookup_insert_eq. simpl.
    rewrite elem_of_union, elem_of_singleton.
    split; [intros [H|H]; auto | intros [H|[_ H]]; auto].
  - rewrite lookup_insert_ne by assumption. split; [auto|].
    intros [H|[E _]]; [assumption | congruence].
Qed.

End TrackerProps.

(** ** The tool [read_relevant_sticky_notes] *)

Section DeliveryProps.
Context `{RT : Runtime}.

Import Storage SessionState Main.

(** The tracker only grows during a call, whatever the outcome. *)
Lemma deliver_grows ctx sid notes t sid' x :
  x ∈ shown_in t sid' -> x ∈ shown_in (fst (deliver ctx sid notes t)) sid'.
Proof.
  revert t. induction notes as [|n rest IH]; intros t Hx; simpl; [assumption|].
  destruct (has_shown t sid (id n)); [now apply IH|].
  destruct (compile_regex (context_regex n)) as [p|e];
    [|destruct e; first [now apply IH | assumption]].
  destruct (collect_snippets p ctx) as [[|s sn]|e]; [now apply IH| |assumption].
  destruct (deliver ctx sid rest (mark_shown t sid (id n))) as [t' r] eqn:E.
  simpl. change t' with (fst (t', r)). rewrite <- E. apply IH.
  apply shown_in_mark_shown. now left.
Qed.

Lemma deliver_spec ctx sid notes t t' ds :
  deliver ctx sid notes t = (t', Ok ds) ->
  (forall x sid',
     x ∈ shown_in t' sid'
     <-> x ∈ shown_in t sid'
         \/ (sid' = sid /\ In x (map (fun d => id (fst d)) ds)))
  /\ NoDup (map (fun d => id (fst d)) ds)
  /\ (forall n sn,
        In (n, sn) ds ->
        In n notes /\ has_shown t sid (id n) = false
        /\ sn <> []
        /\ exists p, compile_regex (context_regex n) = Ok p
                     /\ collect_snippets p ctx = Ok sn).
Proof.
  revert t t' ds. induction notes as [|n rest IH]; intros t t' ds; simpl.
  - intros [= <- <-]. simpl. split; [|split].
    + intros x sid'. tauto.
    + constructor.
    + intros n sn [].
  - assert (Hskip : deliver ctx sid rest t = (t', Ok ds) ->
      (forall x sid',
         x ∈ shown_in t' sid'
         <-> x ∈ shown_in t sid'
             \/ (sid' = sid /\ In x (map (fun d => id (fst d)) ds)))
      /\ NoDup (map (fun d => id (fst d)) ds)
      /\ (forall n0 sn,
            In (n0, sn) ds ->
            (n = n0 \/ In n0 rest) /\ has_shown t sid (id n0) = false
            /\ sn <> []
            /\ exists p, compile_regex (context_regex n0) = Ok p
                         /\ collect_snippets p ctx = Ok sn)).
    { intros H. apply IH in H as (H1 & H2 & H3). split; [|split]; auto.
      intros n0 sn Hin. apply H3 in Hin as (? & ? & ? & ?). auto. }
    destruct (has_shown t sid (id n)) eqn:Hs; [exact Hskip|].
    destruct (compile_regex (context_regex n)) as [p|e] eqn:Hc;
      [|destruct e; first [exact Hskip | discriminate]].
    destruct (collect_snippets p ctx) as [[|s sn]|e] eqn:Hcol;
      [exact Hskip| |discriminate].
    destruct (deliver ctx sid rest (mark_shown t sid (id n))) as [t1 r] eqn:E.
    destruct r as [ds1|e]; simpl; [|discriminate].
    intros [= <- <-]. apply IH in E as (H1 & H2 & H3).
    split; [|split].
    + intros x sid'. rewrite H1, shown_in_mark_shown. simpl. clear.
      intuition congruence.
    + simpl. constructor; [|exact H2].
      intros Hin. apply list_elem_of_In in Hin.
      apply in_map_iff in Hin as ([n1 sn1] & Hid & Hin).
      apply H3 in Hin as (_ & Hf & _). simpl in Hid.
      apply has_shown_false in Hf. apply Hf. rewrite Hid.
      apply shown_in_mark_shown. now right.
    + intros n0 sn0 [[= <- <-]|Hin].
      * split; [now left|]. split; [exact Hs|]. split; [discriminate|].
        eauto.
      * apply H3 in Hin as (Hin & Hf & Hne & Hp).
        split; [now right|]. split; [|auto].
        apply has_shown_false. apply has_shown_false in Hf.
        intros Hx. apply Hf. apply shown_in_mark_shown. now left.
Qed.

Lemma deliver_first ctx sid pre n post t t' ds p sn :
  deliver ctx sid (pre ++ n :: post) t = (t', Ok ds) ->
  Forall (fun m => id m <> id n) pre ->
  has_shown t sid (id n) = false ->
  compile_regex (context_regex n) = Ok p ->
  collect_snippets p ctx = Ok sn ->
  sn <> [] ->
  In (n, sn) ds.
Proof.
  intros H Hpre. revert t ds H.
  induction Hpre as [|m pre Hm _ IH]; intros t ds H Hs Hc Hcol Hne; simpl in H.
  - rewrite Hs, Hc, Hcol in H. destruct sn as [|s sn]; [contradiction|].
    destruct (deliver ctx sid post (mark_shown t sid (id n))) as [t1 [ds1|e]];
      simpl in H; [|discriminate].
    injection H as _ <-. now left.
  - destruct (has_shown t sid (id m)); [eapply IH; eauto|].
    destruct (compile_regex (context_regex m)) as [pm|e];
      [|destruct e; first [discriminate H | (eapply IH; eauto)]].
    destruct (collect_snippets pm ctx) as [[|s0 sn0]|e];
      [eapply IH; eauto| |discriminate].
    destruct (deliver ctx sid (pre ++ n :: post) (mark_shown t sid (id m)))
      as [t1 [ds1|e]] eqn:E; simpl in H; [|discriminate].
    injection H as -> <-. right. eapply IH; eauto.
    apply has_shown_false. apply has_shown_false in Hs.
    rewrite shown_in_mark_shown. intros [Hx|[_ Hx]]; [now apply Hs|].
    now apply Hm.
Qed.



End DeliveryProps.



(** ** The repository's tests, run on the model *)

(** [test_codex_history_provider_parses_session] *)
Example test_codex_parses_session :
  exists ctx logs,
    Codex.load_context (RT := Reference.runtime)
      (Codex.RootDir [Samples.session_file]) "conversation-id"
    = Ok (ctx, logs)
    /\ session_id ctx = "conversation-id"
    /\ length (entries ctx) = 2%nat
    /\ In (JStr "Hello agent") (map text (entries ctx))
    /\ ~ In "event:user_message" (map kind (entries ctx)).
Proof.
  eexists _, _. split; [vm_compute; reflexivity|].
  split; [reflexivity|]. split; [reflexivity|].
  split; [right; left; reflexivity|].
  intros [H|[H|[]]]; discriminate.
Qed.

(** [test_codex_history_provider_raises_when_history_empty] *)
Example test_codex_raises_when_history_empty :
  Codex.load_context (RT := Reference.runtime)
    (Codex.RootDir [Samples.empty_history_file]) "target-session"
  = Raise FileNotFoundError.
Proof. vm_compute. reflexivity. Qed.

(** [test_load_context_not_found] *)
Example test_copilot_not_found :
  Copilot.load_context (RT := Reference.runtime) (Copilot.Discovered [])
    "non-existent-session"
  = ([], Raise FileNotFoundError).
Proof. vm_compute. reflexivity. Qed.

(** [test_session_note_tracker_filters_seen] *)
Example test_session_note_tracker_filters_seen :
  let tracker := SessionState.mark_shown ∅ "session-123" "note-a" in
  SessionState.has_shown tracker "session-123" "note-a" = true
  /\ SessionState.unseen tracker "session-123" ["note-a"; "note-b"]
     = ["note-b"].
Proof. split; vm_compute; reflexivity. Qed.

(* ===================================================================== *)
(** * Further properties                                                  *)
(* ===================================================================== *)

(** ** session_state.py *)

Section TrackerLaws.

Import SessionState.

Lemma shown_in_mark_shown_eq (t : tracker) (sid sid' x : string) :
  shown_in (mark_shown t sid x) sid'
  = if decide (sid' = sid) then shown_in t sid ∪ {[x]} else shown_in t sid'.
Proof.
  unfold shown_in at 1, mark_shown.
  destruct (decide (sid' = sid)) as [->|Hne].
  - now rewrite lookup_insert_eq.
  - now rewrite lookup_insert_ne by congruence.
Qed.

(** X1.  After [mark_shown(s, n)] the query [has_shown(s', n')] answers
    true exactly for the pair just marked and for the pairs it answered
    true for before. *)
Theorem has_shown_mark_shown (t : tracker) (s n s' n' : string) :
  has_shown (mark_shown t s n) s' n'
  = has_shown t s' n' || (String.eqb s' s && String.eqb n' n).
Proof.
  apply eq_true_iff_eq. rewrite orb_true_iff, andb_true_iff.
  rewrite !has_shown_true, shown_in_mark_shown, !String.eqb_eq. tauto.
Qed.

(** X2.  [mark_shown] is idempotent, and marking two notes gives the same
    tracker in either order. *)
Theorem mark_shown_idempotent_commutative (t : tracker) (s n s' n' : string) :
  mark_shown (mark_shown t s n) s n = mark_shown t s n
  /\ mark_shown (mark_shown t s n) s' n' = mark_shown (mark_shown t s' n') s n.
Proof.
  split.
  - unfold mark_shown at 1 3. rewrite shown_in_mark_shown_eq.
    destruct (decide (s = s)); [|congruence].
    unfold mark_shown. rewrite insert_insert_eq. f_equal.
    apply set_eq. intros x. rewrite !elem_of_union, !elem_of_singleton. tauto.
  - unfold mark_shown at 1 3. rewrite !shown_in_mark_shown_eq.
    destruct (decide (s' = s)) as [->|Hne].
    + destruct (decide (s = s)); [|congruence].
      unfold mark_shown. rewrite !insert_insert_eq. f_equal.
      apply set_eq. intros x. rewrite !elem_of_union, !elem_of_singleton.
      tauto.
    + destruct (decide (s = s')); [congruence|].
      unfold mark_shown. now rewrite insert_insert_ne by congruence.
Qed.

(** X3.  [unseen] keeps exactly the candidates that [has_shown] rejects, in
    their input order, and returns nothing once every candidate was
    marked. *)
Theorem unseen_spec (t : tracker) (s : string) (ids : list string) :
  (forall x, In x (unseen t s ids) <-> In x ids /\ has_shown t s x = false)
  /\ sublist (unseen t s ids) ids
  /\ unseen (foldl (fun t' x => mark_shown t' s x) t ids) s ids = [].
Proof.
  split; [|split].
  - intros x. unfold unseen. rewrite <- !list_elem_of_In, list_elem_of_filter.
    rewrite has_shown_false. tauto.
  - unfold unseen. apply sublist_filter.
  - assert (Hall : forall l t0 x,
              x ∈ shown_in t0 s \/ In x l ->
              x ∈ shown_in (foldl (fun t' y => mark_shown t' s y) t0 l) s).
    { induction l as [|y l IH]; intros t0 x; simpl.
      - intros [H|[]]. exact H.
      - intros H. apply IH. rewrite shown_in_mark_shown.
        destruct H as [H|[->|H]]; auto. }
    assert (Hnil : forall l t0,
              Forall (fun x => x ∈ shown_in t0 s) l -> unseen t0 s l = []).
    { induction l as [|y l IH]; intros t0 HF; [reflexivity|].
      inversion HF as [|? ? Hy HF']; subst.
      unfold unseen. rewrite filter_cons.
      destruct (decide (y ∉ shown_in t0 s)); [contradiction|].
      now apply IH. }
    apply Hnil. apply Forall_forall. intros x Hx. apply Hall. right.
    now apply list_elem_of_In.
Qed.

Lemma shown_in_reset (t : tracker) (s s' : string) :
  shown_in (reset t s) s' = if decide (s' = s) then ∅ else shown_in t s'.
Proof.
  unfold shown_in, reset. destruct (decide (s' = s)) as [->|Hne].
  - now rewrite lookup_delete_eq.
  - now rewrite lookup_delete_ne by congruence.
Qed.

(** X4.  [reset(s)] forgets everything shown to the session [s] and
    nothing shown to another session: afterwards [has_shown] is false for
    every note of [s], and [unseen] returns its candidates unchanged. *)
Theorem reset_spec (t : tracker) (s s' n : string) (ids : list string) :
  has_shown (reset t s) s' n = negb (String.eqb s' s) && has_shown t s' n
  /\ unseen (reset t s) s ids = ids.
Proof.
  split.
  - apply eq_true_iff_eq. rewrite andb_true_iff, negb_true_iff.
    rewrite !has_shown_true, shown_in_reset.
    destruct (decide (s' = s)) as [->|Hne].
    + rewrite String.eqb_refl. split; [intros H|intros [H _]];
        [now apply not_elem_of_empty in H | discriminate].
    + apply String.eqb_neq in Hne. rewrite Hne. tauto.
  - unfold unseen. rewrite shown_in_reset.
    destruct (decide (s = s)); [|congruence].
    induction ids as [|y ids IH]; [reflexivity|].
    rewrite filter_cons.
    destruct (decide (y ∉ (∅ : gset string))) as [_|H]; [now rewrite IH|].
    exfalso. apply H. apply not_elem_of_empty.
Qed.

End TrackerLaws.

(** ** main.py: the matching engine and the delivery loop *)

Section DeliveryLaws.
Context `{RT : Runtime}.

Import Storage SessionState Main.

Lemma entry_snippets_result (p : pattern) (e : HistoryEntry) :
  (truthy (text e) = true -> (forall s, text e <> JStr s) ->
   entry_snippets p e = Raise TypeError)
  /\ ((truthy (text e) = true -> exists s, text e = JStr s) ->
      exists sn, entry_snippets p e = Ok sn).
Proof.
  unfold entry_snippets. split.
  - intros Ht Hs. rewrite Ht. simpl.
    destruct (text e); try reflexivity. now destruct (Hs s).
  - intros H. destruct (truthy (text e)); simpl; [|eauto].
    destruct H as (s & ->); [reflexivity|]. eauto.
Qed.

Lemma collect_snippets_total (p : pattern) (ctx : SessionContext) :
  ((exists sn, collect_snippets p ctx = Ok sn)
   <-> Forall (fun e => truthy (text e) = true -> exists s, text e = JStr s)
              (entries ctx))
  /\ (forall e, collect_snippets p ctx = Raise e -> e = TypeError).
Proof.
  unfold collect_snippets. induction (entries ctx) as [|x l [IH1 IH2]]; simpl.
  - split; [|discriminate]. split; [constructor | eauto].
  - destruct (entry_snippets_result p x) as [Hbad Hgood].
    split.
    + split.
      * intros (sn & H). inv_bind H. inv_bind H. constructor.
        -- intros Ht. destruct (text x) eqn:Etx; eauto;
             rewrite Hbad in E; try discriminate; auto; congruence.
        -- apply IH1. eauto.
      * intros HF. inversion HF as [|? ? Hx HF']; subst.
        destruct (Hgood Hx) as (sn & ->). simpl.
        apply IH1 in HF' as (sn' & ->). simpl. eauto.
    + intros e H. destruct (entry_snippets p x) as [sn|e0] eqn:E; simpl in H.
      * destruct (flat_mapM (entry_snippets p) l) as [sn'|e1] eqn:E1;
          simpl in H; [discriminate|]. injection H as <-. now apply IH2.
      * injection H as <-. unfold entry_snippets in E.
        destruct (truthy (text x)); simpl in E; [|discriminate].
        destruct (text x); congruence.
Qed.

(** X5.  Whether [_collect_snippets] returns does not depend on the
    pattern: it returns exactly when every entry with a truthy text has a
    [str] text, and it raises [TypeError] otherwise. *)
Theorem collect_snippets_returns_iff (p : pattern) (ctx : SessionContext) :
  ((exists sn, collect_snippets p ctx = Ok sn)
   <-> Forall (fun e => truthy (text e) = true -> exists s, text e = JStr s)
              (entries ctx))
  /\ (forall e, collect_snippets p ctx = Raise e -> e = TypeError).
Proof. exact (collect_snippets_total p ctx). Qed.

Lemma collect_snippets_any_pattern (p q : pattern) (ctx : SessionContext) sn :
  collect_snippets p ctx = Ok sn -> exists sn', collect_snippets q ctx = Ok sn'.
Proof.
  intros H. apply (collect_snippets_total q).
  apply (collect_snippets_total p). eauto.
Qed.

(** Once one pattern was matched against the context, the loop can raise
    only in compiling the regex of a note that it has not shown. *)
Lemma deliver_returns ctx sid notes t p sn :
  collect_snippets p ctx = Ok sn ->
  Forall (fun n => has_shown t sid (id n) = false ->
                   compiles_or_invalid (context_regex n))
         notes ->
  exists ds, snd (deliver ctx sid notes t) = Ok ds.
Proof.
  intros Hp HF. revert t HF.
  induction notes as [|n rest IH]; intros t HF; simpl; [eauto|].
  inversion HF as [|? ? Hn Hrest]; subst.
  destruct (has_shown t sid (id n)) eqn:Hs; [now apply IH|].
  destruct (compile_regex (context_regex n)) as [q|e] eqn:Hc.
  - destruct (collect_snippets_any_pattern p q ctx sn Hp) as (sq & ->).
    destruct sq as [|s sq]; [now apply IH|].
    destruct (IH (mark_shown t sid (id n))) as (ds & Hds).
    { eapply Forall_impl; [exact Hrest|]. intros m Hm Hf. apply Hm.
      apply has_shown_false. apply has_shown_false in Hf.
      intros Hx. apply Hf. apply shown_in_mark_shown. now left. }
    destruct (deliver ctx sid rest (mark_shown t sid (id n))) as [t1 r].
    simpl in *. subst r. simpl. eauto.
  - rewrite (Hn eq_refl e Hc). now apply IH.
Qed.

(** How the loop can raise: in the matching, before any note was marked,
    or in compiling the regex of a stored note. *)
Lemma deliver_raise ctx sid notes t t' e :
  deliver ctx sid notes t = (t', Raise e) ->
  (t' = t /\ e = TypeError
   /\ exists q, collect_snippets q ctx = Raise TypeError)
  \/ (exists n,
        In n notes /\ compile_regex (context_regex n) = Raise e
        /\ e <> ValueError).
Proof.
  revert t. induction notes as [|n rest IH]; intros t; simpl; [discriminate|].
  assert (Hskip : deliver ctx sid rest t = (t', Raise e) ->
            (t' = t /\ e = TypeError
             /\ exists q, collect_snippets q ctx = Raise TypeError)
            \/ (exists n0,
                  (n = n0 \/ In n0 rest)
                  /\ compile_regex (context_regex n0) = Raise e
                  /\ e <> ValueError)).
  { intros H. apply IH in H as [H|(n0 & Hin & H)]; [now left|].
    right. exists n0. auto. }
  destruct (has_shown t sid (id n)); [exact Hskip|].
  destruct (compile_regex (context_regex n)) as [q|e0] eqn:Hc.
  - destruct (collect_snippets q ctx) as [[|s sq]|e1] eqn:Ec; [exact Hskip| |].
    + destruct (deliver ctx sid rest (mark_shown t sid (id n)))
        as [t1 [ds|e2]] eqn:E; simpl; [discriminate|].
      intros [= <- <-]. apply IH in E as [(_ & _ & q' & Hq')|(n0 & Hin & H)].
      * destruct (collect_snippets_any_pattern q q' ctx _ Ec) as (sn & Hsn).
        rewrite Hsn in Hq'. discriminate Hq'.
      * right. exists n0. auto.
    + intros [= <- <-]. left. split; [reflexivity|].
      assert (He : e1 = TypeError)
        by now apply (collect_snippets_total q ctx).
      subst e1. eauto.
  - assert (Hraise : (t, Raise e0 : result (list (StickyNote * list Snippet)))
                     = (t', Raise e) ->
                     e0 <> ValueError ->
                     (t' = t /\ e = TypeError
                      /\ exists q, collect_snippets q ctx = Raise TypeError)
                     \/ (exists n0,
                           (n = n0 \/ In n0 rest)
                           /\ compile_regex (context_regex n0) = Raise e
                           /\ e <> ValueError)).
    { intros [= <- <-] Hne. right. exists n. auto. }
    destruct e0;
      first [exact Hskip
            | (intros H; apply Hraise; [exact H|]; discriminate)].
Qed.

(** X6.  A call of [read_relevant_sticky_notes] that raises leaves the
    tracker as it was, with one exception: the exception raised is that of
    compiling the regex of a stored note, other than the [ValueError] that
    the loop catches.  Then notes delivered before that one stay marked,
    although the call returns no result. *)
Theorem read_relevant_raise_tracker (loaded : result SessionContext)
  (lines : store) (t t' : tracker) (sid : string) (e : exn) :
  read_relevant_sticky_notes loaded lines t sid = (t', Raise e) ->
  t' = t
  \/ exists ctx stored n,
       loaded = Ok ctx /\ all_notes lines = Ok stored /\ In n stored
       /\ compile_regex (context_regex n) = Raise e /\ e <> ValueError
       /\ forall x s, x ∈ shown_in t s -> x ∈ shown_in t' s.
Proof.
  unfold read_relevant_sticky_notes.
  destruct (negb (nonempty_str sid)); [intros [= <-]; now left|].
  destruct loaded as [ctx|[]]; try (intros [= <-]; now left).
  destruct (all_notes lines) as [notes|e0]; [|intros [= <-]; now left].
  destruct (deliver ctx sid notes t) as [t1 [ds|e1]] eqn:E; simpl;
    [discriminate|].
  intros [= <- <-].
  destruct (deliver_raise _ _ _ _ _ _ E) as [(-> & _)|(n & Hin & Hc & Hne)];
    [now left|].
  right. exists ctx, notes, n. repeat (split; [assumption || reflexivity|]).
  intros x s Hx.
  change t1
    with (fst (t1, Raise e1 : result (list (StickyNote * list Snippet)))).
  rewrite <- E. now apply deliver_grows.
Qed.

(** X7.  The notes delivered by a call come in the order of the store
    (oldest first): they form a sublist of the stored notes. *)
Theorem deliver_in_store_order ctx sid notes t t' ds :
  deliver ctx sid notes t = (t', Ok ds) -> sublist (map fst ds) notes.
Proof.
  revert t t' ds. induction notes as [|n rest IH]; intros t t' ds; simpl.
  - intros [= _ <-]. constructor.
  - assert (Hskip : deliver ctx sid rest t = (t', Ok ds) ->
                    sublist (map fst ds) (n :: rest)).
    { intros H. apply sublist_cons. eapply IH, H. }
    destruct (has_shown t sid (id n)); [exact Hskip|].
    destruct (compile_regex (context_regex n)) as [q|e0];
      [|destruct e0; first [exact Hskip | discriminate]].
    destruct (collect_snippets q ctx) as [[|s sq]|e1];
      [exact Hskip| |discriminate].
    destruct (deliver ctx sid rest (mark_shown t sid (id n)))
      as [t1 [ds1|e2]] eqn:E; simpl; [|discriminate].
    intros [= _ <-]. simpl. apply sublist_skip. eapply IH, E.
Qed.

(** The loop sees the tracker only through the set of the session. *)
Lemma deliver_ext ctx sid notes t1 t2 :
  shown_in t1 sid = shown_in t2 sid ->
  snd (deliver ctx sid notes t1) = snd (deliver ctx sid notes t2)
  /\ shown_in (fst (deliver ctx sid notes t1)) sid
     = shown_in (fst (deliver ctx sid notes t2)) sid.
Proof.
  revert t1 t2. induction notes as [|n rest IH]; intros t1 t2 Ht; simpl;
    [auto|].
  assert (Hs : has_shown t1 sid (id n) = has_shown t2 sid (id n))
    by (unfold has_shown; now rewrite Ht).
  rewrite Hs. destruct (has_shown t2 sid (id n)); [now apply IH|].
  destruct (compile_regex (context_regex n)) as [q|e0];
    [|destruct e0; first [now apply IH | auto]].
  destruct (collect_snippets q ctx) as [[|s sq]|e1]; [now apply IH| |auto].
  assert (Hm : shown_in (mark_shown t1 sid (id n)) sid
               = shown_in (mark_shown t2 sid (id n)) sid).
  { rewrite !shown_in_mark_shown_eq. destruct (decide (sid = sid));
      [now rewrite Ht | congruence]. }
  destruct (IH _ _ Hm) as [H1 H2].
  destruct (deliver ctx sid rest (mark_shown t1 sid (id n))) as [u1 r1].
  destruct (deliver ctx sid rest (mark_shown t2 sid (id n))) as [u2 r2].
  simpl in *. subst r2. auto.
Qed.

(** X8.  After [reset(s)] a call for the session [s] delivers what it
    would deliver in a process that has shown nothing yet, whatever the
    tracker held for [s] and for the other sessions. *)
Theorem deliver_after_reset ctx sid notes (t : tracker) :
  snd (deliver ctx sid notes (reset t sid)) = snd (deliver ctx sid notes ∅).
Proof.
  apply deliver_ext. rewrite shown_in_reset.
  destruct (decide (sid = sid)); [reflexivity | congruence].
Qed.

(** X9.  The notes whose id was already shown to the session when the call
    starts, and the notes whose regex [_compile_regex] rejects with
    [ValueError], have no effect on the call: it has the same outcome and
    leaves the same tracker as on the store without them.  (A regex on
    which [re.compile] raises something else is not among them: it ends
    the call.) *)
Theorem deliver_ignores_shown_and_invalid ctx sid notes (t : tracker) :
  deliver ctx sid notes t
  = deliver ctx sid
      (List.filter
         (fun n => negb (has_shown t sid (id n))
                   && negb (invalid_regex (context_regex n)))
         notes)
      t.
Proof.
  assert (Hgen : forall (t0 : tracker),
            (forall x, x ∈ shown_in t sid -> x ∈ shown_in t0 sid) ->
            deliver ctx sid notes t0
            = deliver ctx sid
                (List.filter
                   (fun n => negb (has_shown t sid (id n))
                             && negb (invalid_regex (context_regex n)))
                   notes)
                t0).
  { induction notes as [|n rest IH]; intros t0 Hsub; simpl; [reflexivity|].
    destruct (has_shown t sid (id n)) eqn:Hs; simpl.
    - apply has_shown_true, Hsub, has_shown_true in Hs. rewrite Hs.
      now apply IH.
    - unfold invalid_regex.
      destruct (compile_regex (context_regex n)) as [q|e0] eqn:Hc; simpl.
      + rewrite Hc. destruct (has_shown t0 sid (id n)); [now apply IH|].
        destruct (collect_snippets q ctx) as [[|s sq]|e1];
          [now apply IH| |reflexivity].
        rewrite (IH (mark_shown t0 sid (id n))); [reflexivity|].
        intros x Hx. apply shown_in_mark_shown. left. now apply Hsub.
      + destruct e0; simpl; rewrite ?Hc;
          (destruct (has_shown t0 sid (id n)); [now apply IH|]);
          first [now apply IH | reflexivity]. }
  apply Hgen. auto.
Qed.

End DeliveryLaws.

Lemma collect_snippets_returns_iff_witness :
  Main.collect_snippets (RT := Reference.runtime)
    ("docs" : pattern (Runtime := Reference.runtime))
    MoreSamples.number_text_context = Raise TypeError
  /\ exists sn,
       Main.collect_snippets (RT := Reference.runtime)
         ("docs" : pattern (Runtime := Reference.runtime))
         Samples.docs_context = Ok sn.
Proof.
  split; [vm_compute; reflexivity|].
  apply (proj1 (collect_snippets_returns_iff (RT := Reference.runtime)
                  ("docs" : pattern (Runtime := Reference.runtime))
                  Samples.docs_context)).
  constructor; [|constructor]. intros _. eexists. reflexivity.
Defined.

Lemma read_relevant_raise_tracker_witness :
  exists t' n,
    Main.read_relevant_sticky_notes (RT := Reference.runtime)
      (Ok Samples.docs_context) MoreSamples.docs_then_overflow ∅
      "session-123"
    = (t', Raise OverflowError)
    /\ SessionState.has_shown t' "session-123" "note-a" = true
    /\ Main.compile_regex (RT := Reference.runtime)
         (Storage.context_regex n)
       = Raise OverflowError.
Proof.
  assert (E : exists t',
            Main.read_relevant_sticky_notes (RT := Reference.runtime)
              (Ok Samples.docs_context) MoreSamples.docs_then_overflow ∅
              "session-123"
            = (t', Raise OverflowError)
            /\ SessionState.has_shown t' "session-123" "note-a" = true).
  { eexists. split.
    - vm_compute. reflexivity.
    - vm_compute. reflexivity. }
  destruct E as (t' & E & Hshown).
  destruct (read_relevant_raise_tracker (RT := Reference.runtime) _ _ _ _ _ _ E)
    as [->|(ctx & stored & n & _ & _ & _ & Hc & _)].
  - clear E. vm_compute in Hshown. discriminate Hshown.
  - exists t', n. split; [exact E|]. split; [exact Hshown | exact Hc].
Defined.

Lemma deliver_in_store_order_witness :
  exists t' ds,
    Main.deliver (RT := Reference.runtime) Samples.docs_context "session-123"
      [Samples.note_docs; Samples.note_tests; Samples.note_1] ∅ = (t', Ok ds)
    /\ map fst ds = [Samples.note_docs; Samples.note_1]
    /\ sublist (map fst ds)
         [Samples.note_docs; Samples.note_tests; Samples.note_1].
Proof.
  assert (E : exists t' ds,
            Main.deliver (RT := Reference.runtime) Samples.docs_context
              "session-123"
              [Samples.note_docs; Samples.note_tests; Samples.note_1] ∅
            = (t', Ok ds)
            /\ map fst ds = [Samples.note_docs; Samples.note_1]).
  { eexists _, _. split; vm_compute; reflexivity. }
  destruct E as (t' & ds & E & Hds). exists t', ds.
  split; [exact E|]. split; [exact Hds|].
  exact (deliver_in_store_order (RT := Reference.runtime) _ _ _ _ _ _ E).
Defined.

(** ** storage.py *)

Lemma is_prefix_split (p s : string) :
  is_prefix p s = true -> exists rest, s = p +:+ rest.
Proof.
  revert s. induction p as [|a p IH]; intros s; simpl.
  - intros _. exists s. reflexivity.
  - destruct s as [|b s]; [discriminate|].
    intros H. apply andb_true_iff in H as [Hab Hp].
    apply Ascii.eqb_eq in Hab as ->. apply IH in Hp as (rest & ->).
    exists rest. reflexivity.
Qed.

Lemma contains_Z_cons (c : ascii) (s : string) :
  contains "Z" (String c s) = false ->
  Ascii.eqb "Z"%char c = false /\ contains "Z" s = false.
Proof.
  simpl. intros H. apply orb_false_iff in H as [H1 H2].
  apply andb_false_iff in H1 as [H1|H1]; [auto|].
  destruct s; discriminate.
Qed.

Lemma app_empty (s : string) : "" +:+ s = s.
Proof. reflexivity. Qed.

Lemma app_String (a : ascii) (p s : string) :
  String a p +:+ s = String a (p +:+ s).
Proof. reflexivity. Qed.

Lemma replace_utc_back (s : string) :
  contains "Z" s = false ->
  forall (k : nat) (pre post : string),
    s = pre +:+ post -> String.length pre = k ->
    replace_from "Z" "+00:00" 0 (replace_from "+00:00" "Z" k s) = post.
Proof.
  induction s as [|c s IH]; intros HZ k pre post Hs Hk.
  - destruct pre; [|rewrite app_String in Hs; discriminate].
    rewrite app_empty in Hs. subst. reflexivity.
  - apply contains_Z_cons in HZ as [Hc HZ].
    destruct k as [|k].
    + destruct pre; [|discriminate]. rewrite app_empty in Hs.
      subst post. cbn [replace_from].
      destruct (is_prefix "+00:00" (String c s)) eqn:Hp.
      * apply is_prefix_split in Hp as (rest & Hrest).
        rewrite app_String in Hrest. injection Hrest as -> ->.
        rewrite app_String, app_empty. cbn [replace_from is_prefix].
        change (String.length "Z" - 1)%nat with 0%nat.
        change (String.length "+00:00" - 1)%nat with 5%nat.
        change (("Z" =? "Z")%char && true) with true. cbv iota.
        rewrite (IH HZ 5%nat "00:00" rest eq_refl eq_refl).
        reflexivity.
      * cbn [replace_from is_prefix]. rewrite Hc. cbn [andb].
        now rewrite (IH HZ 0%nat "" s eq_refl eq_refl).
    + destruct pre as [|a pre]; [discriminate|].
      rewrite app_String in Hs. injection Hs as -> ->.
      cbn [replace_from]. apply (IH HZ k pre post eq_refl).
      now injection Hk.
Qed.

Lemma replace_utc_roundtrip (s : string) :
  contains "Z" s = false ->
  replace "Z" "+00:00" (replace "+00:00" "Z" s) = s.
Proof.
  intros HZ. unfold replace.
  exact (replace_utc_back s HZ 0%nat "" s eq_refl eq_refl).
Qed.

Section StorageLaws.
Context `{RT : Runtime}.

Import Storage.

(** The value [_dt_to_iso] hands to [isoformat]. *)
Lemma dt_to_iso_unfold (d : datetime) :
  dt_to_iso d
  = replace "+00:00" "Z"
      (isoformat
         (match utcoffset d with
          | None => replace_tz_utc d
          | Some _ => astimezone_utc d
          end)).
Proof. reflexivity. Qed.

(** X10.  [_iso_to_dt] undoes the abbreviation that [_dt_to_iso] applied:
    when the text printed by [isoformat] holds no "Z", what [_iso_to_dt]
    gives to [fromisoformat] is that text, unchanged. *)
Theorem iso_to_dt_dt_to_iso (d : datetime) :
  let normalised :=
    match utcoffset d with
    | None => replace_tz_utc d
    | Some _ => astimezone_utc d
    end in
  contains "Z" (isoformat normalised) = false ->
  iso_to_dt (dt_to_iso d)
  = match fromisoformat (isoformat normalised) with
    | Some parsed => Ok (astimezone_utc parsed)
    | None => Raise ValueError
    end.
Proof.
  intros normalised HZ. unfold iso_to_dt. rewrite dt_to_iso_unfold.
  fold normalised. now rewrite replace_utc_roundtrip.
Qed.

Lemma astimezone_utc_of_utc (d : datetime) :
  is_utc d -> astimezone_utc d = d.
Proof.
  destruct d as [w o]. unfold is_utc, astimezone_utc. simpl. intros ->.
  f_equal. lia.
Qed.

(** X11.  [from_dict (to_dict note)] is the note itself when its
    [created_at] is in UTC, its [creator] is [None] or non-empty and its
    snippet list is [None] or non-empty, provided [fromisoformat] reads
    back the datetime that [isoformat] printed (and that text holds no
    "Z"). *)
Theorem from_dict_to_dict_identity (note : StickyNote) :
  is_utc (created_at note) ->
  creator note <> Some "" ->
  trigger_snippets note <> Some [] ->
  contains "Z" (isoformat (created_at note)) = false ->
  fromisoformat (isoformat (created_at note)) = Some (created_at note) ->
  from_dict (to_dict note) = Ok note.
Proof.
  intros Hutc Hc Hs HZ Hparse.
  assert (Hd : fromisoformat
                 (replace "Z" "+00:00" (dt_to_iso (created_at note)))
               = Some (created_at note)).
  { rewrite dt_to_iso_unfold. unfold is_utc in Hutc. rewrite Hutc.
    rewrite (astimezone_utc_of_utc _ Hutc).
    now rewrite replace_utc_roundtrip. }
  rewrite (from_dict_to_dict note _ Hd).
  rewrite (astimezone_utc_of_utc _ Hutc).
  destruct note as [i m r c cr ts]. simpl in *. do 2 f_equal.
  - destruct cr as [w|]; [|reflexivity].
    unfold nonempty_str. destruct (String.eqb_spec w ""); [|reflexivity].
    subst. contradiction.
  - destruct ts as [[|x l]|]; try reflexivity. contradiction.
Qed.

Lemma all_notes_app (s1 s2 : store) :
  all_notes (s1 ++ s2)
  = (let! a := all_notes s1 in
     let! b := all_notes s2 in
     Ok (a ++ b)).
Proof.
  induction s1 as [|[payload|] s1 IH]; simpl.
  - destruct (all_notes s2); reflexivity.
  - destruct (from_dict payload) as [note|[]]; try exact IH; try reflexivity.
    rewrite IH. destruct (all_notes s1); simpl; [|reflexivity].
    destruct (all_notes s2); reflexivity.
  - exact IH.
Qed.

(** X12.  Appending is append-only: the notes already stored are read back
    as before, in the same order, followed by the appended note when
    [fromisoformat] accepts its timestamp; a note whose timestamp is
    rejected is silently left out of the listing. *)
Theorem all_notes_append (lines : store) (old : list StickyNote)
  (note : StickyNote) :
  all_notes lines = Ok old ->
  match fromisoformat (replace "Z" "+00:00" (dt_to_iso (created_at note))) with
  | Some d =>
      exists restored,
        from_dict (to_dict note) = Ok restored
        /\ all_notes (append lines note) = Ok (old ++ [restored])
  | None => all_notes (append lines note) = Ok old
  end.
Proof.
  intros Hold.
  destruct (fromisoformat _) as [d|] eqn:Hd;
    unfold append; rewrite all_notes_app, Hold; cbn [Py.bind all_notes].
  - eexists. split; [exact (from_dict_to_dict note d Hd)|].
    now rewrite (from_dict_to_dict note d Hd).
  - assert (E : from_dict (to_dict note) = Raise ValueError).
    { destruct note as [i m r c cr ts]. unfold from_dict, to_dict.
      cbn [created_at id message context_regex creator trigger_snippets]
        in *.
      destruct cr as [w|]; [destruct (nonempty_str w)|];
        destruct ts as [[|x l]|]; cbn -[replace dt_to_iso];
        unfold iso_to_dt; rewrite Hd; reflexivity. }
    rewrite E. cbn [Py.bind]. now rewrite app_nil_r.
Qed.

(** X13.  A line that is blank or is not valid JSON, and a line holding a
    dict without one of the keys [id], [message], [context_regex] and
    [created_at], is skipped: the listing is the one of the file without
    that line. *)
Theorem all_notes_skips_malformed (s1 s2 : store) (line : option json) :
  (line = None
   \/ exists kv,
        line = Some (JObj kv)
        /\ (lookup "id" kv = None \/ lookup "message" kv = None
            \/ lookup "context_regex" kv = None
            \/ lookup "created_at" kv = None)) ->
  all_notes (s1 ++ line :: s2) = all_notes (s1 ++ s2).
Proof.
  intros H. rewrite !all_notes_app.
  assert (E : all_notes (line :: s2) = all_notes s2); [|now rewrite E].
  destruct H as [->|(kv & -> & Hk)]; [reflexivity|].
  assert (Hf : from_dict (JObj kv) = Raise KeyError).
  { unfold from_dict. cbn [get getitem Py.bind].
    destruct (lookup "id" kv); [|reflexivity].
    destruct (lookup "message" kv); [|reflexivity].
    destruct (lookup "context_regex" kv); [|reflexivity].
    destruct (lookup "created_at" kv); [|reflexivity].
    decompose [or] Hk; discriminate. }
  simpl. now rewrite Hf.
Qed.

(** X14.  A line that is valid JSON but not an object is not skipped: once
    the lines before it were read, [all_notes] raises [AttributeError]. *)
Theorem all_notes_non_dict_raises (s1 s2 : store) (old : list StickyNote)
  (v : json) :
  all_notes s1 = Ok old ->
  is_dict v = false ->
  all_notes (s1 ++ Some v :: s2) = Raise AttributeError.
Proof.
  intros Hold Hv. rewrite all_notes_app, Hold. simpl.
  destruct v; try discriminate; reflexivity.
Qed.

End StorageLaws.

Lemma iso_to_dt_dt_to_iso_witness :
  Storage.iso_to_dt (RT := Reference.runtime)
    (Storage.dt_to_iso (RT := Reference.runtime) Samples.new_year_2025)
  = Ok Samples.new_year_2025.
Proof.
  rewrite (iso_to_dt_dt_to_iso (RT := Reference.runtime)
             Samples.new_year_2025)
    by (vm_compute; reflexivity).
  vm_compute. reflexivity.
Defined.

Lemma from_dict_to_dict_identity_witness :
  Storage.from_dict (RT := Reference.runtime)
    (Storage.to_dict (RT := Reference.runtime) Samples.note_1)
  = Ok Samples.note_1.
Proof.
  apply (from_dict_to_dict_identity (RT := Reference.runtime) Samples.note_1).
  - reflexivity.
  - discriminate.
  - discriminate.
  - vm_compute. reflexivity.
  - vm_compute. reflexivity.
Defined.

Lemma all_notes_append_witness :
  exists restored,
    Storage.from_dict (RT := Reference.runtime)
      (Storage.to_dict (RT := Reference.runtime) Samples.note_1)
    = Ok restored
    /\ Storage.all_notes (RT := Reference.runtime)
         (Storage.append (RT := Reference.runtime)
            (Storage.append (RT := Reference.runtime) [] Samples.note_docs)
            Samples.note_1)
       = Ok ([Samples.note_docs] ++ [restored]).
Proof.
  assert (Hold : Storage.all_notes (RT := Reference.runtime)
                   (Storage.append (RT := Reference.runtime) []
                      Samples.note_docs)
                 = Ok [Samples.note_docs])
    by (vm_compute; reflexivity).
  exact (all_notes_append (RT := Reference.runtime) _ _ Samples.note_1 Hold).
Defined.

Lemma all_notes_skips_malformed_witness :
  Storage.all_notes (RT := Reference.runtime)
    ([Some (Storage.to_dict (RT := Reference.runtime) Samples.note_docs)]
     ++ Some (JObj [("id", JStr "note-x"); ("message", JStr "no regex")])
        :: [Some (Storage.to_dict (RT := Reference.runtime) Samples.note_1)])
  = Ok [Samples.note_docs; Samples.note_1].
Proof.
  rewrite (all_notes_skips_malformed (RT := Reference.runtime)).
  - vm_compute. reflexivity.
  - right. eexists. split; [reflexivity|]. right. right. left. reflexivity.
Defined.

Lemma all_notes_non_dict_raises_witness :
  Storage.all_notes (RT := Reference.runtime)
    ([Some (Storage.to_dict (RT := Reference.runtime) Samples.note_docs)]
     ++ Some (JNum 5)
        :: [Some (Storage.to_dict (RT := Reference.runtime) Samples.note_1)])
  = Raise AttributeError.
Proof.
  apply (all_notes_non_dict_raises (RT := Reference.runtime) _ _
           [Samples.note_docs]).
  - vm_compute. reflexivity.
  - reflexivity.
Defined.

(** ** main.py: the tool [create_sticky_note] *)

Section CreateLaws.
Context `{RT : Runtime}.

Import Storage SessionState Main.

(** X15.  A call of [create_sticky_note] that raises writes nothing: the
    notes file is as it was. *)
Theorem create_sticky_note_failure_keeps_store
  (loaded : result SessionContext) (notes notes' : store) (clock : Z)
  (fresh sid msg regex : string) (note_id : option string) (e : exn) :
  create_sticky_note loaded notes clock fresh sid msg regex note_id
  = (notes', Raise e) ->
  notes' = notes.
Proof.
  unfold create_sticky_note.
  destruct (negb (nonempty_str sid)); [now intros [= <-]|].
  destruct (negb (nonempty_str msg)); [now intros [= <-]|].
  destruct (compile_regex regex) as [pat|e0]; [|now intros [= <-]].
  destruct loaded as [ctx|[]]; try (now intros [= <-]).
  destruct (collect_snippets pat ctx); [discriminate | now intros [= <-]].
Qed.

Lemma create_sticky_note_inv
  (loaded : result SessionContext) (notes notes' : store) (clock : Z)
  (fresh sid msg regex : string) (note_id : option string) (c : Created) :
  create_sticky_note loaded notes clock fresh sid msg regex note_id
  = (notes', Ok c) ->
  sid <> "" /\ msg <> ""
  /\ exists pat ctx snippets,
       compile_regex regex = Ok pat
       /\ loaded = Ok ctx
       /\ collect_snippets pat ctx = Ok snippets
       /\ created_trigger_snippets c = map snippet_text snippets
       /\ created_id c
          = match note_id with
            | Some i => if nonempty_str i then i else fresh
            | None => fresh
            end
       /\ notes'
          = notes
            ++ [Some (to_dict
                        {| id := created_id c;
                           message := msg;
                           context_regex := regex;
                           created_at := {| wall := clock; utcoffset := Some 0 |};
                           creator := None;
                           trigger_snippets :=
                             match created_trigger_snippets c with
                             | [] => None
                             | texts => Some texts
                             end |})].
Proof.
  unfold create_sticky_note, nonempty_str.
  destruct (String.eqb_spec sid ""); [discriminate|].
  destruct (String.eqb_spec msg ""); [discriminate|]. simpl.
  destruct (compile_regex regex) as [pat|e0] eqn:Hpat; [|discriminate].
  destruct loaded as [ctx|[]]; try discriminate.
  destruct (collect_snippets pat ctx) as [snippets|e1] eqn:Hcol;
    [|discriminate].
  intros [= <- <-]. split; [assumption|]. split; [assumption|].
  exists pat, ctx, snippets.
  split; [reflexivity|]. split; [reflexivity|]. split; [exact Hcol|].
  split; [reflexivity|]. split; [reflexivity|].
  unfold append, new_note. cbn [created_id created_trigger_snippets].
  destruct (map snippet_text snippets); reflexivity.
Qed.

(** X17.  A note that was created with at least one trigger snippet is
    delivered by the next read against the same context: for a session
    that has not been shown its id, when no older stored note carries that
    id, the regex of every older note that the session has not been shown
    compiles or is rejected as invalid, and [fromisoformat] accepts the
    stored timestamp, the read returns, its result holds the payload with
    the message and exactly the snippets that [create_sticky_note]
    answered, and the id is then marked shown. *)
Theorem create_then_read (ctx : SessionContext) (notes notes' : store)
  (old : list StickyNote) (clock : Z) (fresh sid msg regex : string)
  (note_id : option string) (c : Created) (d : datetime)
  (t : tracker) (reader : string) :
  create_sticky_note (Ok ctx) notes clock fresh sid msg regex note_id
  = (notes', Ok c) ->
  created_trigger_snippets c <> [] ->
  all_notes notes = Ok old ->
  Forall (fun m => id m <> created_id c) old ->
  Forall (fun m => has_shown t reader (id m) = false ->
                   forall e, compile_regex (context_regex m) = Raise e ->
                             e = ValueError)
         old ->
  fromisoformat
    (replace "Z" "+00:00" (dt_to_iso {| wall := clock; utcoffset := Some 0 |}))
  = Some d ->
  reader <> "" ->
  has_shown t reader (created_id c) = false ->
  exists t' payloads,
    read_relevant_sticky_notes (Ok ctx) notes' t reader = (t', Ok payloads)
    /\ In {| payload_message := msg;
             payload_trigger_snippets := created_trigger_snippets c |}
          payloads
    /\ has_shown t' reader (created_id c) = true.
Proof.
  intros Hcreate Hne Hold Hfresh Hregex Hd Hreader Hshown.
  apply create_sticky_note_inv in Hcreate
    as (_ & _ & pat & ctx0 & snippets & Hpat & [= <-] & Hcol & Htexts & _ & ->).
  set (note := {| id := created_id c; message := msg;
                  context_regex := regex;
                  created_at := {| wall := clock; utcoffset := Some 0 |};
                  creator := None;
                  trigger_snippets :=
                    match created_trigger_snippets c with
                    | [] => None
                    | texts => Some texts
                    end |}).
  pose proof (from_dict_to_dict note d Hd) as Hrestored.
  set (restored := {| id := id note; message := message note;
                      context_regex := context_regex note;
                      created_at := astimezone_utc d;
                      creator :=
                        match creator note with
                        | Some c0 => if nonempty_str c0 then Some c0 else None
                        | None => None
                        end;
                      trigger_snippets :=
                        match trigger_snippets note with
                        | Some (x :: l) => Some (x :: l)
                        | _ => None
                        end |}) in Hrestored.
  assert (Hall : all_notes (notes ++ [Some (to_dict note)])
                 = Ok (old ++ [restored])).
  { rewrite all_notes_app, Hold. cbn [Py.bind all_notes].
    now rewrite Hrestored. }
  assert (Hsn : snippets <> []).
  { intros ->. apply Hne. now rewrite Htexts. }
  destruct (deliver_returns ctx reader (old ++ [restored]) t pat snippets Hcol)
    as (ds & Hds).
  { apply Forall_app. split; [exact Hregex|].
    constructor; [|constructor]. intros _ e He. simpl in He.
    rewrite Hpat in He. discriminate He. }
  destruct (deliver ctx reader (old ++ [restored]) t) as [t' r] eqn:E.
  simpl in Hds. subst r.
  assert (Hin : In (restored, snippets) ds).
  { eapply deliver_first; eauto. }
  exists t', (map payload_of ds). split; [|split].
  - unfold read_relevant_sticky_notes, nonempty_str.
    destruct (String.eqb_spec reader ""); [contradiction|]. simpl.
    now rewrite Hall, E.
  - apply in_map_iff. exists (restored, snippets). split; [|exact Hin].
    unfold payload_of. simpl. now rewrite Htexts.
  - apply has_shown_true. apply (deliver_spec _ _ _ _ _ _ E). right.
    split; [reflexivity|]. apply in_map_iff. exists (restored, snippets).
    split; [reflexivity | exact Hin].
Qed.

End CreateLaws.

Lemma create_sticky_note_failure_keeps_store_witness :
  fst (Main.create_sticky_note (RT := Reference.runtime)
         (Ok Samples.docs_context) MoreSamples.two_notes 1735689600000000
         "0123456789abcdef0123456789abcdef" "session-123" "" "docs" None)
  = MoreSamples.two_notes.
Proof.
  apply (create_sticky_note_failure_keeps_store (RT := Reference.runtime)
           (Ok Samples.docs_context) MoreSamples.two_notes _ 1735689600000000
           "0123456789abcdef0123456789abcdef" "session-123" "" "docs" None
           ValueError).
  vm_compute. reflexivity.
Defined.

Lemma create_then_read_witness :
  exists t' payloads,
    Main.read_relevant_sticky_notes (RT := Reference.runtime)
      (Ok Samples.docs_context)
      (Storage.append (RT := Reference.runtime) MoreSamples.two_notes
         (Main.new_note None "0123456789abcdef0123456789abcdef"
            "Remember to update docs" "docs" 1735689600000000
            ["please update the docs"]))
      ∅ "session-456"
    = (t', Ok payloads)
    /\ In {| Main.payload_message := "Remember to update docs";
             Main.payload_trigger_snippets := ["please update the docs"] |}
          payloads
    /\ SessionState.has_shown t' "session-456"
         "0123456789abcdef0123456789abcdef" = true.
Proof.
  eapply (create_then_read (RT := Reference.runtime) Samples.docs_context
            MoreSamples.two_notes _ _ 1735689600000000
            "0123456789abcdef0123456789abcdef"
            "session-123" "Remember to update docs" "docs" None
            {| Main.created_id := "0123456789abcdef0123456789abcdef";
               Main.created_trigger_snippets := ["please update the docs"] |}
            Samples.new_year_2025 ∅ "session-456").
  - vm_compute. reflexivity.
  - discriminate.
  - vm_compute. reflexivity.
  - constructor; [|constructor; [|constructor]]; vm_compute; discriminate.
  - constructor; [|constructor; [|constructor]];
      intros _ e He; vm_compute in He; discriminate He.
  - vm_compute. reflexivity.
  - discriminate.
  - reflexivity.
Defined.

(** ** main.py: [_extract_window] *)

Lemma substring_substring (t : string) :
  forall a b n m : nat,
    (n + m <= b)%nat -> (a + b <= String.length t)%nat ->
    String.substring n m (String.substring a b t)
    = String.substring (a + n) m t.
Proof.
  induction t as [|c t IH]; intros a b n m H1 H2; simpl in H2.
  - assert (a = 0 /\ b = 0 /\ n = 0 /\ m = 0)%nat as (-> & -> & -> & ->) by lia.
    reflexivity.
  - destruct a as [|a]; simpl.
    + destruct b as [|b].
      * assert (n = 0 /\ m = 0)%nat as (-> & ->) by lia. reflexivity.
      * destruct n as [|n]; simpl.
        -- destruct m as [|m]; [reflexivity|].
           f_equal. apply (IH 0%nat b 0%nat m); lia.
        -- apply (IH 0%nat b n m); lia.
    + apply IH; lia.
Qed.

Lemma substring_length (t : string) :
  forall n m : nat,
    (n + m <= String.length t)%nat ->
    String.length (String.substring n m t) = m.
Proof.
  induction t as [|c t IH]; intros n m H; simpl in H.
  - assert (n = 0 /\ m = 0)%nat as (-> & ->) by lia. reflexivity.
  - destruct n as [|n]; simpl.
    + destruct m as [|m]; [reflexivity|]. simpl. f_equal. apply IH. lia.
    + apply IH. lia.
Qed.

Lemma is_prefix_substring (t : string) (m : nat) :
  (m <= String.length t)%nat -> is_prefix (String.substring 0 m t) t = true.
Proof.
  revert m. induction t as [|c t IH]; intros m H; simpl in H.
  - assert (m = 0)%nat as -> by lia. reflexivity.
  - destruct m as [|m]; [reflexivity|]. simpl.
    rewrite Ascii.eqb_refl. apply IH. lia.
Qed.

Lemma contains_substring (t : string) :
  forall n m : nat,
    (n + m <= String.length t)%nat ->
    contains (String.substring n m t) t = true.
Proof.
  induction t as [|c t IH]; intros n m H; simpl in H.
  - assert (n = 0 /\ m = 0)%nat as (-> & ->) by lia. reflexivity.
  - destruct n as [|n].
    + cbn [contains]. rewrite is_prefix_substring by (simpl; lia).
      reflexivity.
    + cbn [contains String.substring]. rewrite IH by lia.
      apply orb_true_r.
Qed.

(** X18.  For the span of a match and a non-negative padding, the window
    is a body with at most one ellipsis marker on each side; the body is
    at least as long as the match and at most [2 * padding] longer, it
    contains the matched text, and with padding 0 it is the matched text. *)
Theorem extract_window_bounds (t : string) (s e padding : Z) :
  0 <= s -> s <= e -> e <= str_len t -> 0 <= padding ->
  exists prefix body suffix,
    Main.extract_window t (s, e) padding = prefix +:+ body +:+ suffix
    /\ (prefix = "" \/ prefix = Main.ellipsis)
    /\ (suffix = "" \/ suffix = Main.ellipsis)
    /\ str_len body <= (e - s) + 2 * padding
    /\ e - s <= str_len body
    /\ contains (slice t s e) body = true
    /\ (padding = 0 -> body = slice t s e).
Proof.
  intros Hs Hse He Hp. unfold Main.extract_window.
  set (ws := Z.max 0 (s - padding)). set (we := Z.min (str_len t) (e + padding)).
  assert (Hws : 0 <= ws <= s) by (subst ws; lia).
  assert (Hwe : e <= we <= str_len t) by (subst we; lia).
  exists (if ws >? 0 then Main.ellipsis else ""), (slice t ws we),
         (if we <? str_len t then Main.ellipsis else "").
  split; [reflexivity|].
  split; [destruct (ws >? 0); auto|].
  split; [destruct (we <? str_len t); auto|].
  rewrite (slice_in_range t ws we) by lia.
  rewrite (slice_in_range t s e) by lia.
  assert (Hlen : String.length
                   (String.substring (Z.to_nat ws) (Z.to_nat (we - ws)) t)
                 = Z.to_nat (we - ws)).
  { apply substring_length. unfold str_len in *. lia. }
  unfold str_len at 1 2. rewrite Hlen.
  split; [subst ws we; lia|]. split; [lia|]. split.
  - replace (Z.to_nat s) with (Z.to_nat ws + Z.to_nat (s - ws))%nat by lia.
    rewrite <- (substring_substring t (Z.to_nat ws) (Z.to_nat (we - ws)))
      by (unfold str_len in *; lia).
    apply contains_substring. rewrite Hlen. lia.
  - intros ->. subst ws we. f_equal; f_equal; lia.
Qed.

Lemma extract_window_bounds_witness :
  exists prefix body suffix,
    Main.extract_window Samples.text200 (150, 155) 80
    = prefix +:+ body +:+ suffix
    /\ str_len body <= 165
    /\ contains "match" body = true.
Proof.
  destruct (extract_window_bounds Samples.text200 150 155 80)
    as (prefix & body & suffix & Hw & _ & _ & Hlen & _ & Hc & _);
    [lia | lia | vm_compute; discriminate | lia |].
  exists prefix, body, suffix. split; [exact Hw|]. split; [exact Hlen|].
  exact Hc.
Defined.

(* ===================================================================== *)
(** ** frameworks/codex.py *)
(* ===================================================================== *)

(** *** [sorted(..., key=..., reverse=True)] *)

Section SortedDesc.
Context {A : Type} (key : A -> Z).

Lemma insert_desc_perm (x : A) (l : list A) : insert_desc key x l ≡ₚ x :: l.
Proof.
  induction l as [|y l IH]; simpl; [reflexivity|].
  destruct (key y <=? key x); [reflexivity|].
  rewrite IH. apply Permutation_swap.
Qed.

Lemma sorted_desc_perm (l : list A) : sorted_desc key l ≡ₚ l.
Proof.
  induction l as [|x l IH]; simpl; [reflexivity|].
  rewrite insert_desc_perm. now rewrite IH.
Qed.

Lemma insert_desc_sorted (x : A) (l : list A) :
  StronglySorted (fun a b => key b <= key a) l ->
  StronglySorted (fun a b => key b <= key a) (insert_desc key x l).
Proof.
  induction 1 as [|y l Hl IH Hy]; simpl.
  - repeat constructor.
  - destruct (Z.leb_spec (key y) (key x)) as [Hle|Hlt].
    + constructor; [constructor; assumption|].
      constructor; [exact Hle|].
      eapply Forall_impl; [exact Hy|]. simpl. intros. lia.
    + constructor; [exact IH|].
      rewrite insert_desc_perm. constructor; [lia | exact Hy].
Qed.

Lemma sorted_desc_sorted (l : list A) :
  StronglySorted (fun a b => key b <= key a) (sorted_desc key l).
Proof.
  induction l as [|x l IH]; simpl; [constructor|].
  now apply insert_desc_sorted.
Qed.

Lemma insert_desc_stable (k : Z) (x : A) (l : list A) :
  List.filter (fun y => key y =? k) (insert_desc key x l)
  = List.filter (fun y => key y =? k) (x :: l).
Proof.
  induction l as [|y l IH]; [reflexivity|].
  cbn [insert_desc]. destruct (Z.leb_spec (key y) (key x)) as [Hle|Hlt];
    [reflexivity|].
  cbn [List.filter] in *. rewrite IH.
  destruct (Z.eqb_spec (key x) k) as [Hx|Hx];
    destruct (Z.eqb_spec (key y) k) as [Hy|Hy]; try reflexivity. lia.
Qed.

Lemma sorted_desc_stable (k : Z) (l : list A) :
  List.filter (fun y => key y =? k) (sorted_desc key l)
  = List.filter (fun y => key y =? k) l.
Proof.
  induction l as [|x l IH]; [reflexivity|].
  cbn [sorted_desc]. rewrite insert_desc_stable. cbn [List.filter].
  now rewrite IH.
Qed.

End SortedDesc.

Lemma filter_Is_true {A} (b : A -> bool) (l : list A) :
  filter (fun x => Is_true (b x)) l = List.filter b l.
Proof.
  induction l as [|x l IH]; [reflexivity|].
  rewrite filter_cons. cbn [List.filter]. rewrite IH.
  destruct (b x).
  - now rewrite decide_True by exact I.
  - now rewrite decide_False by (intros []).
Qed.

Lemma filter_partition_perm {A} (b : A -> bool) (l : list A) :
  List.filter b l ++ List.filter (fun x => negb (b x)) l ≡ₚ l.
Proof.
  induction l as [|x l IH]; [reflexivity|]. simpl.
  destruct (b x); simpl.
  - now rewrite IH.
  - rewrite <- Permutation_middle. now rewrite IH.
Qed.

Lemma filter_filter_andb {A} (a b : A -> bool) (l : list A) :
  List.filter a (List.filter b l) = List.filter (fun x => a x && b x) l.
Proof.
  induction l as [|x l IH]; [reflexivity|]. simpl.
  destruct (b x); simpl; rewrite ?andb_true_r, ?andb_false_r.
  - destruct (a x); now rewrite IH.
  - exact IH.
Qed.


Ltac inv_raise H :=
  repeat
    match type of H with
    | Py.bind ?m _ = Raise _ =>
        let E := fresh "E" in destruct m eqn:E; simpl in H
    | (if ?c then _ else _) = Raise _ => destruct c
    | Ok _ = Raise _ => discriminate H
    | match ?x with _ => _ end = Raise _ => destruct x
    end.

Lemma get_raise v k e : get v k = Raise e -> lookup_error e.
Proof. destruct v; simpl; intros [= <-]; now left. Qed.

Lemma iter_raise v e : iter v = Raise e -> lookup_error e.
Proof. destruct v; simpl; intros [= <-]; now right. Qed.

Lemma in_str_set_raise v l e : in_str_set v l = Raise e -> lookup_error e.
Proof. destruct v; simpl; intros [= <-]; now right. Qed.

Create HintDb errs.

Section CodexLaws.
Context `{RT : Runtime}.

Import Codex.

(** *** [_candidate_paths] *)

(** X19.  For a directory holding at least one rollout file,
    [_candidate_paths] answers a rearrangement of the files found: first
    those whose name contains the session id, then the others; each group
    is in order of decreasing modification time, and files of one group
    with the same modification time keep the order in which they were
    found. *)
Theorem candidate_paths_order (files : list file) (sid : string)
  (candidates : list file) :
  candidate_paths (RootDir files) sid = Ok candidates ->
  candidates ≡ₚ files
  /\ exists matched unmatched,
       candidates = matched ++ unmatched
       /\ Forall (fun p => contains sid (name p) = true) matched
       /\ Forall (fun p => contains sid (name p) = false) unmatched
       /\ StronglySorted (fun a b => mtime b <= mtime a) matched
       /\ StronglySorted (fun a b => mtime b <= mtime a) unmatched
       /\ forall k,
            List.filter (fun p => mtime p =? k) matched
            = List.filter (fun p => (mtime p =? k) && contains sid (name p))
                files
            /\ List.filter (fun p => mtime p =? k) unmatched
               = List.filter
                   (fun p => (mtime p =? k) && negb (contains sid (name p)))
                   files.
Proof.
  unfold candidate_paths. destruct files as [|f0 files0] eqn:Ef; [discriminate|].
  rewrite <- Ef. clear Ef f0 files0. intros [= <-].
  rewrite !filter_Is_true.
  split.
  - rewrite !sorted_desc_perm. apply filter_partition_perm.
  - eexists _, _. split; [reflexivity|].
    split; [|split; [|split; [|split; [|intros k; split]]]].
    + rewrite sorted_desc_perm. apply Forall_forall. intros p Hp.
      apply list_elem_of_In, filter_In in Hp. tauto.
    + rewrite sorted_desc_perm. apply Forall_forall. intros p Hp.
      apply list_elem_of_In, filter_In in Hp. now apply negb_true_iff.
    + apply sorted_desc_sorted.
    + apply sorted_desc_sorted.
    + rewrite sorted_desc_stable. apply filter_filter_andb.
    + rewrite sorted_desc_stable. apply filter_filter_andb.
Qed.

(** *** The inner loop of [load_context] *)

Lemma run_items_app sid st l1 l2 :
  run_items sid st (l1 ++ l2)
  = Py.bind (run_items sid st l1) (fun st' => run_items sid st' l2).
Proof.
  revert st. induction l1 as [|x l1 IH]; intros st; simpl; [reflexivity|].
  destruct (step sid st x); simpl; [apply IH | reflexivity].
Qed.

Lemma scan_without_entries sid candidates :
  Forall (without_entries sid) candidates ->
  scan sid candidates None = Raise FileNotFoundError.
Proof.
  induction 1 as [|f l (st & Hp & He) _ IH]; simpl; [reflexivity|].
  rewrite Hp. simpl. now rewrite He.
Qed.


Lemma payload_of_raise item e : payload_of item = Raise e -> lookup_error e.
Proof.
  unfold payload_of. intros H. inv_raise H. injection H as <-.
  eauto using get_raise.
Qed.

#[local] Hint Resolve get_raise iter_raise in_str_set_raise payload_of_raise
  : errs.

Ltac solve_raise H :=
  inv_raise H; injection H as <-; eauto with errs.

Lemma entry_from_session_meta_raise item e :
  entry_from_session_meta item = Raise e -> lookup_error e.
Proof. unfold entry_from_session_meta. intros H. solve_raise H. Qed.

Lemma entry_from_response_item_raise item e :
  entry_from_response_item item = Raise e -> lookup_error e.
Proof. unfold entry_from_response_item. intros H. solve_raise H. Qed.

Lemma entry_from_event_msg_raise item e :
  entry_from_event_msg item = Raise e -> lookup_error e.
Proof. unfold entry_from_event_msg. intros H. solve_raise H. Qed.

Lemma entry_from_compacted_raise item e :
  entry_from_compacted item = Raise e -> lookup_error e.
Proof. unfold entry_from_compacted. intros H. solve_raise H. Qed.

#[local] Hint Resolve entry_from_session_meta_raise
  entry_from_response_item_raise entry_from_event_msg_raise
  entry_from_compacted_raise : errs.

Lemma step_raise sid st item e : step sid st item = Raise e -> lookup_error e.
Proof. unfold step. intros H. solve_raise H. Qed.

Lemma run_items_raise sid items st e :
  run_items sid st items = Raise e -> lookup_error e.
Proof.
  revert st. induction items as [|item items IH]; intros st; simpl;
    [discriminate|].
  destruct (step sid st item) as [st'|e'] eqn:E; simpl.
  - apply IH.
  - intros [= <-]. eapply step_raise, E.
Qed.

(** How the outer loop can fail: without a fallback and without any
    candidate that has entries, or in the parsing of a candidate. *)
Lemma scan_raise_inv sid candidates fb e :
  scan sid candidates fb = Raise e ->
  (fb = None /\ e = FileNotFoundError
   /\ Forall (without_entries sid) candidates)
  \/ (exists f, In f candidates /\ parse_file sid f = Raise e).
Proof.
  revert fb. induction candidates as [|f rest IH]; intros fb; simpl.
  - destruct fb as [[c source]|]; [discriminate|]. intros [= <-]. left. auto.
  - destruct (parse_file sid f) as [st|e'] eqn:Ep; simpl.
    + destruct (fs_entries st) as [|x xs] eqn:Es.
      * intros H. apply IH in H as [(-> & -> & HF)|(g & Hg & Hpg)].
        -- left. split; [reflexivity|]. split; [reflexivity|].
           constructor; [|exact HF]. exists st. auto.
        -- right. exists g. split; [now right | exact Hpg].
      * destruct (eq_str (fs_discovered st) sid); [discriminate|].
        intros H. apply IH in H as [(Hfb & _)|(g & Hg & Hpg)].
        -- destruct fb; discriminate.
        -- right. exists g. split; [now right | exact Hpg].
    + intros [= <-]. right. exists f. split; [now left | exact Ep].
Qed.

Lemma yielded_failure (ls : list line) (e : exn) :
  snd (yielded ls) = Some e -> In (Fails e) ls.
Proof.
  induction ls as [|[|item|e'] ls IH]; simpl.
  - discriminate.
  - auto.
  - destruct (yielded ls) as [items failure]. simpl in *. auto.
  - intros [= ->]. now left.
Qed.

Lemma yielded_app (l1 l2 : list line) :
  snd (yielded l1) = None ->
  yielded (l1 ++ l2)
  = (fst (yielded l1) ++ fst (yielded l2), snd (yielded l2)).
Proof.
  induction l1 as [|[|item|e'] l1 IH]; simpl.
  - intros _. now destruct (yielded l2).
  - exact IH.
  - destruct (yielded l1) as [items failure]. simpl in *.
    intros H. now rewrite (IH H).
  - discriminate.
Qed.

(** A file fails to parse on a record that has not the expected shape, or
    on a line that makes [json.loads] raise. *)
Lemma parse_file_raise sid f e :
  parse_file sid f = Raise e -> lookup_error e \/ In (Fails e) (lines f).
Proof.
  unfold parse_file, iter_jsonl.
  pose proof (yielded_failure (lines f)) as Hy.
  destruct (yielded (lines f)) as [items failure]. simpl in Hy.
  destruct (run_items sid fs_init items) as [st|e'] eqn:Er; simpl.
  - destruct failure as [e'|]; [|discriminate].
    intros [= <-]. right. now apply Hy.
  - intros [= <-]. left. eapply run_items_raise, Er.
Qed.

(** What [load_context] raises for a session id that is not empty. *)
Lemma load_context_raise_inv (root : history_root) (sid : string) (e : exn) :
  sid <> "" -> load_context root sid = Raise e ->
  (e = FileNotFoundError
   /\ (root = RootMissing \/ root = RootDir []
       \/ exists candidates,
            candidate_paths root sid = Ok candidates
            /\ Forall (without_entries sid) candidates))
  \/ lookup_error e
  \/ (exists candidates f,
        candidate_paths root sid = Ok candidates
        /\ In f candidates /\ In (Fails e) (lines f)).
Proof.
  intros Hs. unfold load_context.
  destruct (String.eqb_spec sid ""); [contradiction|].
  destruct (candidate_paths root sid) as [candidates|e'] eqn:Ec; simpl.
  - intros H. apply scan_raise_inv in H as [(_ & -> & HF)|(f & Hin & Hp)].
    + left. split; [reflexivity|]. right. right. eauto.
    + right. apply parse_file_raise in Hp as [Hp|Hp]; [now left|].
      right. eauto.
  - intros [= <-]. left.
    destruct root as [f| |[|f l]]; simpl in Ec; try discriminate;
      injection Ec as <-; auto.
Qed.

(** X20.  The exceptions of [load_context].  An empty session id gives
    [ValueError], whatever is on disk.  For an id that is not empty, the
    call raises [FileNotFoundError] when the history root does not exist,
    or is a directory without rollout files, or every candidate parses
    without giving a single entry; and whatever it raises is that
    [FileNotFoundError], or the [AttributeError] or [TypeError] of a
    record that has not the expected shape, or the exception that
    [json.loads] raised on a line of a candidate ([json.JSONDecodeError]
    apart, which is skipped). *)
Theorem codex_load_context_errors (root : history_root) (sid : string) :
  (sid = "" -> load_context root sid = Raise ValueError)
  /\ (sid <> "" ->
      root = RootMissing \/ root = RootDir []
      \/ (exists candidates,
            candidate_paths root sid = Ok candidates
            /\ Forall (without_entries sid) candidates) ->
      load_context root sid = Raise FileNotFoundError)
  /\ (forall e,
        sid <> "" -> load_context root sid = Raise e ->
        (e = FileNotFoundError
         /\ (root = RootMissing \/ root = RootDir []
             \/ exists candidates,
                  candidate_paths root sid = Ok candidates
                  /\ Forall (without_entries sid) candidates))
        \/ (e = AttributeError \/ e = TypeError)
        \/ (exists candidates f,
              candidate_paths root sid = Ok candidates
              /\ In f candidates /\ In (Fails e) (lines f))).
Proof.
  split; [|split].
  - intros ->. reflexivity.
  - intros Hs Hr. unfold load_context.
    destruct (String.eqb_spec sid ""); [contradiction|].
    destruct Hr as [->|[->|(candidates & -> & HF)]];
      [reflexivity | reflexivity |].
    simpl. now apply scan_without_entries.
  - intros e Hs H. exact (load_context_raise_inv root sid e Hs H).
Qed.

(** X21.  A line that is valid JSON but holds no object is fatal: when
    the candidates before its file are passed over and the records before
    it are processed, [load_context] raises [AttributeError]; no later
    candidate is tried and no fallback that was found is used. *)
Theorem non_object_record_raises (root : history_root) (sid : string)
  (before rest : list file) (f : file) (pre post : list json) (v : json)
  (st : file_state) :
  sid <> "" ->
  candidate_paths root sid = Ok (before ++ f :: rest) ->
  Forall (passed_over sid) before ->
  fst (iter_jsonl f) = pre ++ v :: post ->
  run_items sid fs_init pre = Ok st ->
  is_dict v = false ->
  load_context root sid = Raise AttributeError.
Proof.
  intros Hs Hc Hb Hl Hpre Hv.
  assert (Hp : parse_file sid f = Raise AttributeError).
  { unfold parse_file. destruct (iter_jsonl f) as [items failure].
    simpl in Hl. subst items. rewrite run_items_app, Hpre. simpl.
    destruct v; try discriminate; reflexivity. }
  unfold load_context.
  destruct (String.eqb_spec sid ""); [contradiction|].
  rewrite Hc. simpl. unfold load_from. now apply scan_raise.
Qed.

(** *** The entries of a context *)

Lemma nonempty_str_true (s : string) : nonempty_str s = true -> s <> "".
Proof.
  unfold nonempty_str. destruct (String.eqb_spec s ""); [discriminate|auto].
Qed.

Lemma step_texts sid st item st' :
  step sid st item = Ok st' ->
  Forall text_invariant (fs_entries st) ->
  Forall text_invariant (fs_entries st').
Proof.
  intros H HF.
  assert (Hpush : forall o s0,
            fs_entries s0 = fs_entries st ->
            (forall e, o = Some e -> text_invariant e) ->
            Forall text_invariant (fs_entries (push o s0))).
  { intros [e|] s0 Hs0 He; simpl; rewrite Hs0; [|assumption].
    apply Forall_app. split; [assumption|]. constructor; [|constructor].
    now apply He. }
  unfold step in H. inv_bind H.
  destruct (eq_str v "turn_context"); [now injection H as <-|].
  destruct (eq_str v "session_meta").
  { inv_bind H. inv_bind H. inv_bind H. injection H as <-.
    apply Hpush; [reflexivity|]. intros e ->.
    unfold entry_from_session_meta in E2. inv_ok E2; try discriminate.
    subst e. eexists. split; [reflexivity|]. simpl.
    intros Hk. decompose [or] Hk; discriminate || contradiction. }
  destruct (eq_str v "response_item").
  { inv_bind H. injection H as <-. apply Hpush; [reflexivity|]. intros e ->.
    unfold entry_from_response_item in E0.
    inv_ok E0; try discriminate; subst e;
      (eexists; split; [reflexivity|]; intros _;
       now apply nonempty_str_true). }
  destruct (eq_str v "event_msg").
  { inv_bind H. inv_bind H. inv_bind H.
    destruct v2; [now injection H as <-|].
    inv_bind H. injection H as <-. apply Hpush; [reflexivity|]. intros e ->.
    unfold entry_from_event_msg in E3.
    inv_bind E3. inv_bind E3. inv_bind E3. inv_bind E3. inv_bind E3.
    match type of E3 with
    | context [por ?a ?b] => destruct (por a b)
    end; try discriminate; inv_ok E3; subst e;
      (eexists; split; [reflexivity|]; simpl; rewrite event_prefix;
       intros Hk; decompose [or] Hk; discriminate || contradiction). }
  destruct (eq_str v "compacted").
  { inv_bind H. injection H as <-. apply Hpush; [reflexivity|]. intros e ->.
    unfold entry_from_compacted in E0. inv_ok E0; try discriminate.
    subst e. eexists. split; [reflexivity|]. simpl.
    intros Hk. decompose [or] Hk; discriminate || contradiction. }
  now injection H as <-.
Qed.

Lemma run_items_texts sid items st st' :
  run_items sid st items = Ok st' ->
  Forall text_invariant (fs_entries st) ->
  Forall text_invariant (fs_entries st').
Proof.
  revert st. induction items as [|item items IH]; intros st; simpl.
  - now intros [= <-].
  - intros H HF. inv_bind H. apply (IH _ H). eapply step_texts; eauto.
Qed.

Lemma load_context_texts root sid ctx logs :
  load_context root sid = Ok (ctx, logs) ->
  sid <> "" /\ session_id ctx = sid /\ Forall text_invariant (entries ctx).
Proof.
  intros H. unfold load_context in H.
  destruct (String.eqb_spec sid ""); [discriminate|].
  split; [assumption|].
  inv_bind H. unfold load_from in H.
  apply scan_origin in H as [(f & st & _ & Hp & _ & ->)|(source & Hs)];
    [|discriminate].
  split; [reflexivity|].
  apply parse_file_Ok in Hp as [Hp _].
  apply (run_items_texts _ _ _ _ Hp). constructor.
Qed.

(** X22.  In a context that [load_context] returns, under the requested
    id, the text of every entry is a [str], and the text of an entry of
    kind [message], [reasoning] or of one of the three call kinds is not
    empty. *)
Theorem codex_context_texts (root : history_root) (sid : string)
  (ctx : SessionContext) (logs : list log_record) :
  load_context root sid = Ok (ctx, logs) ->
  session_id ctx = sid
  /\ Forall (fun e =>
               exists s,
                 text e = JStr s
                 /\ (In (kind e) ["message"; "reasoning"; "function_call";
                                  "custom_tool_call"; "local_shell_call"] ->
                     s <> ""))
            (entries ctx).
Proof.
  intros H. apply load_context_texts in H as (_ & Hs & HF). auto.
Qed.

(** *** The two tools over a context of this provider *)

Lemma str_texts_collect (p : pattern) (ctx : SessionContext) :
  Forall text_invariant (entries ctx) ->
  exists sn, Main.collect_snippets p ctx = Ok sn.
Proof.
  intros HF. apply (collect_snippets_total p).
  eapply Forall_impl; [exact HF|]. intros e (s & Hs & _) _. eauto.
Qed.

Lemma str_texts_deliver_raise ctx sid notes t t' e :
  Forall text_invariant (entries ctx) ->
  Main.deliver ctx sid notes t = (t', Raise e) ->
  exists n,
    In n notes /\ Main.compile_regex (Storage.context_regex n) = Raise e
    /\ e <> ValueError.
Proof.
  intros HF H. apply deliver_raise in H as [(_ & _ & q & Hq)|H]; [|exact H].
  destruct (str_texts_collect q ctx HF) as (sn & Hsn).
  rewrite Hsn in Hq. discriminate Hq.
Qed.

Lemma str_texts_deliver ctx sid notes t :
  Forall text_invariant (entries ctx) ->
  Forall (fun n => compiles_or_invalid (Storage.context_regex n)) notes ->
  exists ds, snd (Main.deliver ctx sid notes t) = Ok ds.
Proof.
  intros HF Hn.
  destruct (Main.deliver ctx sid notes t) as [t' [ds|e]] eqn:E; simpl;
    [eauto|].
  apply (str_texts_deliver_raise _ _ _ _ _ _ HF) in E
    as (n & Hin & Hc & Hne).
  apply List.Forall_forall with (x := n) in Hn; [|exact Hin].
  now apply Hn in Hc.
Qed.

(** X23.  Once [load_context] has returned a context for a session, the
    matching cannot fail: [_collect_snippets] returns for every pattern.
    So [read_relevant_sticky_notes] returns whenever the store can be read
    and the regex of every stored note compiles or is rejected as invalid;
    and when it raises although the store can be read, the exception is
    that of compiling the regex of a stored note. *)
Theorem codex_matching_returns (root : history_root) (sid : string)
  (ctx : SessionContext) (logs : list log_record) :
  load_context root sid = Ok (ctx, logs) ->
  (forall pat : pattern, exists sn, Main.collect_snippets pat ctx = Ok sn)
  /\ (forall (notes : Storage.store) (stored : list Storage.StickyNote)
             (t : SessionState.tracker),
        Storage.all_notes notes = Ok stored ->
        Forall (fun n =>
                  forall e,
                    Main.compile_regex (Storage.context_regex n) = Raise e ->
                    e = ValueError)
               stored ->
        exists t' payloads,
          Main.read_relevant_sticky_notes (Ok ctx) notes t sid
          = (t', Ok payloads))
  /\ (forall (notes : Storage.store) (stored : list Storage.StickyNote)
             (t t' : SessionState.tracker) (e : exn),
        Storage.all_notes notes = Ok stored ->
        Main.read_relevant_sticky_notes (Ok ctx) notes t sid
        = (t', Raise e) ->
        exists n,
          In n stored
          /\ Main.compile_regex (Storage.context_regex n) = Raise e
          /\ e <> ValueError).
Proof.
  intros H. apply load_context_texts in H as (Hs & _ & HF).
  assert (Hsid : nonempty_str sid = true).
  { unfold nonempty_str. now destruct (String.eqb_spec sid ""). }
  split; [|split].
  - intros pat. now apply str_texts_collect.
  - intros notes stored t Hall Hregex.
    unfold Main.read_relevant_sticky_notes. rewrite Hsid, Hall. simpl.
    destruct (str_texts_deliver ctx sid stored t HF Hregex) as (ds & Hds).
    destruct (Main.deliver ctx sid stored t) as [t1 r]. simpl in Hds.
    subst r. simpl. eauto.
  - intros notes stored t t' e Hall.
    unfold Main.read_relevant_sticky_notes. rewrite Hsid, Hall. simpl.
    destruct (Main.deliver ctx sid stored t) as [t1 [ds|e1]] eqn:E; simpl;
      [discriminate|].
    intros [= <- <-]. eapply str_texts_deliver_raise; eauto.
Qed.

(** *** A rollout file that grows *)

Lemma step_keeps_discovered sid st item st' :
  step sid st item = Ok st' ->
  truthy (fs_discovered st) = true ->
  fs_discovered st' = fs_discovered st.
Proof.
  intros H Ht.
  assert (Hpush : forall o s0, fs_discovered (push o s0) = fs_discovered s0)
    by (intros [e|] s0; reflexivity).
  unfold step in H. inv_bind H.
  destruct (eq_str v "turn_context"); [now injection H as <-|].
  destruct (eq_str v "session_meta").
  { inv_bind H. inv_bind H. inv_bind H. injection H as <-.
    rewrite Hpush. simpl. unfold por. rewrite Ht.
    now destruct (truthy v1). }
  destruct (eq_str v "response_item").
  { inv_bind H. injection H as <-. apply Hpush. }
  destruct (eq_str v "event_msg").
  { inv_bind H. inv_bind H. inv_bind H.
    destruct v2; [now injection H as <-|].
    inv_bind H. injection H as <-. apply Hpush. }
  destruct (eq_str v "compacted").
  { inv_bind H. injection H as <-. apply Hpush. }
  now injection H as <-.
Qed.

Lemma discovered_id_is_first (sid : string) (st st' : file_state)
  (items : list json) :
  run_items sid st items = Ok st' ->
  truthy (fs_discovered st) = true ->
  fs_discovered st' = fs_discovered st.
Proof.
  revert st. induction items as [|item items IH]; intros st; simpl.
  - now intros [= <-].
  - intros H Ht. inv_bind H.
    pose proof (step_keeps_discovered _ _ _ _ E Ht) as Hd.
    rewrite <- Hd. apply IH; [exact H|]. now rewrite Hd.
Qed.

Lemma run_items_prefix sid items st st' :
  run_items sid st items = Ok st' -> fs_entries st `prefix_of` fs_entries st'.
Proof.
  revert st. induction items as [|item items IH]; intros st; simpl.
  - now intros [= <-].
  - intros H. inv_bind H. apply IH in H.
    etrans; [|exact H].
    apply step_entries in E as [->|(e & -> & _)]; [reflexivity|].
    now apply prefix_app_r.
Qed.

(** X24.  Rollout files are appended to while a session runs.  When lines
    are appended to a file, the entries read from it before are a prefix
    of the entries read from it afterwards, and the session id discovered
    in it, once there is one, stays the same: a later [session_meta]
    record with another id does not replace it. *)
Theorem parse_file_grows (sid : string) (f1 f2 : file)
  (more : list line) (st1 st2 : file_state) :
  lines f2 = lines f1 ++ more ->
  parse_file sid f1 = Ok st1 ->
  parse_file sid f2 = Ok st2 ->
  fs_entries st1 `prefix_of` fs_entries st2
  /\ (truthy (fs_discovered st1) = true ->
      fs_discovered st2 = fs_discovered st1).
Proof.
  intros Hl H1 H2.
  apply parse_file_Ok in H1 as [H1 Hend]. apply parse_file_Ok in H2 as [H2 _].
  unfold iter_jsonl in *. rewrite Hl, (yielded_app _ _ Hend) in H2.
  simpl in H2. rewrite run_items_app, H1 in H2. simpl in H2.
  split.
  - eapply run_items_prefix, H2.
  - intros Ht. eapply discovered_id_is_first; eauto.
Qed.

End CodexLaws.

Lemma candidate_paths_order_witness :
  exists candidates,
    Codex.candidate_paths
      (Codex.RootDir [Samples.noise_file; Samples.session_file;
                      Samples.empty_history_file])
      "session"
    = Ok candidates
    /\ candidates
       ≡ₚ [Samples.noise_file; Samples.session_file;
           Samples.empty_history_file].
Proof.
  eexists. split; [vm_compute; reflexivity|].
  refine (proj1 (candidate_paths_order
                   [Samples.noise_file; Samples.session_file;
                    Samples.empty_history_file] "session" _ _)).
  vm_compute. reflexivity.
Defined.

Lemma non_object_record_raises_witness :
  Codex.load_context (RT := Reference.runtime)
    (Codex.RootDir [MoreSamples.array_line_file; Samples.empty_history_file])
    "conversation-id"
  = Raise AttributeError.
Proof.
  eapply (non_object_record_raises (RT := Reference.runtime) _ _
            [Samples.empty_history_file] [] MoreSamples.array_line_file
            [_] [] (JArr [JNum 1])).
  - discriminate.
  - vm_compute. reflexivity.
  - constructor; [|constructor]. eexists. split.
    + vm_compute. reflexivity.
    + left. reflexivity.
  - reflexivity.
  - vm_compute. reflexivity.
  - reflexivity.
Defined.

Lemma codex_context_texts_witness :
  exists ctx logs,
    Codex.load_context (RT := Reference.runtime)
      (Codex.RootFile Samples.session_file) "conversation-id"
    = Ok (ctx, logs)
    /\ session_id ctx = "conversation-id"
    /\ Forall (fun e => exists s, text e = JStr s) (entries ctx).
Proof.
  assert (E : exists ctx logs,
            Codex.load_context (RT := Reference.runtime)
              (Codex.RootFile Samples.session_file) "conversation-id"
            = Ok (ctx, logs)).
  { eexists _, _. vm_compute. reflexivity. }
  destruct E as (ctx & logs & E). exists ctx, logs. split; [exact E|].
  destruct (codex_context_texts (RT := Reference.runtime) _ _ _ _ E)
    as [Hs HF].
  split; [exact Hs|].
  eapply Forall_impl; [exact HF|]. intros e (s & Hs' & _). eauto.
Defined.

Lemma codex_matching_returns_witness :
  exists ctx logs t' payloads,
    Codex.load_context (RT := Reference.runtime)
      (Codex.RootFile Samples.session_file) "conversation-id"
    = Ok (ctx, logs)
    /\ Main.read_relevant_sticky_notes (RT := Reference.runtime) (Ok ctx)
         MoreSamples.two_notes ∅ "conversation-id"
       = (t', Ok payloads).
Proof.
  assert (E : exists ctx logs,
            Codex.load_context (RT := Reference.runtime)
              (Codex.RootFile Samples.session_file) "conversation-id"
            = Ok (ctx, logs)).
  { eexists _, _. vm_compute. reflexivity. }
  assert (A : exists stored,
            Storage.all_notes (RT := Reference.runtime) MoreSamples.two_notes
            = Ok stored
            /\ Forall (fun n =>
                         forall e,
                           Main.compile_regex (RT := Reference.runtime)
                             (Storage.context_regex n)
                           = Raise e ->
                           e = ValueError)
                      stored).
  { eexists. split; [vm_compute; reflexivity|].
    constructor; [|constructor; [|constructor]];
      intros e He; vm_compute in He; discriminate He. }
  destruct E as (ctx & logs & E). destruct A as (stored & A & Hregex).
  destruct (codex_matching_returns (RT := Reference.runtime) _ _ _ _ E)
    as (_ & Hread & _).
  destruct (Hread MoreSamples.two_notes stored ∅ A Hregex)
    as (t' & payloads & H).
  exists ctx, logs, t', payloads. split; [exact E | exact H].
Defined.

Lemma parse_file_grows_witness :
  exists st1 st2,
    Codex.parse_file (RT := Reference.runtime) "conversation-id"
      Samples.session_file = Ok st1
    /\ Codex.parse_file (RT := Reference.runtime) "conversation-id"
         MoreSamples.session_file_grown = Ok st2
    /\ Codex.fs_entries st1 `prefix_of` Codex.fs_entries st2
    /\ Codex.fs_discovered st2 = JStr "conversation-id".
Proof.
  assert (E1 : exists st1,
            Codex.parse_file (RT := Reference.runtime) "conversation-id"
              Samples.session_file = Ok st1
            /\ Codex.fs_discovered st1 = JStr "conversation-id").
  { eexists. split; vm_compute; reflexivity. }
  assert (E2 : exists st2,
            Codex.parse_file (RT := Reference.runtime) "conversation-id"
              MoreSamples.session_file_grown = Ok st2).
  { eexists. vm_compute. reflexivity. }
  destruct E1 as (st1 & E1 & D1). destruct E2 as (st2 & E2).
  destruct (parse_file_grows (RT := Reference.runtime) "conversation-id"
              Samples.session_file MoreSamples.session_file_grown _
              st1 st2 eq_refl E1 E2) as [Hp Hd].
  exists st1, st2. split; [exact E1|]. split; [exact E2|].
  split; [exact Hp|]. rewrite Hd; [exact D1|]. now rewrite D1.
Defined.

(* ===================================================================== *)
(** ** frameworks/copilot.py *)
(* ===================================================================== *)

Lemma Forall2_In_l {A B} (P : A -> B -> Prop) (l : list A) (l' : list B)
  (x : A) :
  Forall2 P l l' -> In x l -> exists y, In y l' /\ P x y.
Proof.
  induction 1 as [|a b l l' Hab _ IH]; simpl; [contradiction|].
  intros [<-|Hx]; [eauto|]. destruct (IH Hx) as (y & Hy & Hp). eauto.
Qed.

Lemma Forall2_In_r {A B} (P : A -> B -> Prop) (l : list A) (l' : list B)
  (y : B) :
  Forall2 P l l' -> In y l' -> exists x, In x l /\ P x y.
Proof.
  induction 1 as [|a b l l' Hab _ IH]; simpl; [contradiction|].
  intros [<-|Hy]; [eauto|]. destruct (IH Hy) as (x & Hx & Hp). eauto.
Qed.

Lemma StronglySorted_middle {A} (R : A -> A -> Prop) (l1 l2 : list A) (x : A) :
  StronglySorted R (l1 ++ x :: l2) ->
  Forall (fun a => R a x) l1 /\ Forall (R x) l2.
Proof.
  induction l1 as [|a l1 IH]; simpl; intros H;
    apply StronglySorted_inv in H as [H1 H2].
  - split; [constructor | exact H2].
  - destruct (IH H1) as [Ha Hb]. split; [|exact Hb].
    constructor; [|exact Ha].
    apply List.Forall_forall with (x := x) in H2; [exact H2|].
    apply in_or_app. right. now left.
Qed.

Lemma filter_none {A} (b : A -> bool) (l : list A) :
  Forall (fun x => b x = false) l -> List.filter b l = [].
Proof.
  induction 1 as [|x l Hx _ IH]; simpl; [reflexivity|]. now rewrite Hx.
Qed.

(** *** [Path.stem] *)

Lemma rfind_dot_json (s : string) :
  Copilot.rfind_dot (s +:+ ".json") = Some (String.length s).
Proof.
  induction s as [|a s IH]; [reflexivity|].
  rewrite app_String. cbn [Copilot.rfind_dot String.length]. now rewrite IH.
Qed.

Lemma substring_append (s t : string) :
  String.substring 0 (String.length s) (s +:+ t) = s.
Proof.
  induction s as [|a s IH].
  - rewrite app_empty. destruct t; reflexivity.
  - rewrite app_String. cbn [String.length String.substring]. now rewrite IH.
Qed.

Lemma length_append (s t : string) :
  String.length (s +:+ t) = (String.length s + String.length t)%nat.
Proof.
  induction s as [|a s IH]; [reflexivity|].
  rewrite app_String. cbn [String.length]. now rewrite IH.
Qed.

(** The file [<id>.json] has the stem [<id>]. *)
Lemma stem_json (s : string) : s <> "" -> Copilot.stem (s +:+ ".json") = s.
Proof.
  intros Hs. unfold Copilot.stem. rewrite rfind_dot_json, length_append.
  assert (Hl : (0 < String.length s)%nat)
    by (destruct s; [contradiction | simpl; lia]).
  cbn [String.length].
  replace ((0 <? String.length s)%nat
           && (String.length s <? String.length s + 5 - 1)%nat)
    with true.
  - apply substring_append.
  - symmetry. apply andb_true_iff. split; apply Nat.ltb_lt; lia.
Qed.

Section CopilotLaws.
Context `{RT : Runtime}.

Import Copilot.

(** *** [load_context]: the exact match *)

Lemma exact_matches_first (target : string) (before after : list file)
  (p : file) :
  Forall (fun q => name q <> target) before ->
  name p = target ->
  List.filter (fun q => String.eqb (name q) target) (before ++ p :: after)
  = p :: List.filter (fun q => String.eqb (name q) target) after.
Proof.
  intros Hb Hp. induction Hb as [|q before Hq _ IH]; simpl.
  - apply String.eqb_eq in Hp. now rewrite Hp.
  - apply String.eqb_neq in Hq. now rewrite Hq.
Qed.

(** X25.  When the session id is not empty and a candidate is named
    [<id>.json], the first such candidate decides the outcome: the context
    is loaded from it under the requested id, nothing is logged, and when
    it has no entries or cannot be parsed the call raises, whatever the
    other candidates hold; there is no fallback. *)
Theorem copilot_exact_match (s : storage) (sid : string)
  (before after : list file) (p : file) :
  sid <> "" ->
  find_session_files s = before ++ p :: after ->
  Forall (fun q => name q <> sid +:+ ".json") before ->
  name p = sid +:+ ".json" ->
  load_context s sid = ([], load_file p sid)
  /\ (parse_history_file p = Ok [] ->
      load_context s sid = ([], Raise ValueError))
  /\ (forall e, parse_history_file p = Raise e ->
                load_context s sid = ([], Raise e))
  /\ (forall ctx, load_context s sid = ([], Ok ctx) ->
                  session_id ctx = sid
                  /\ parse_history_file p = Ok (entries ctx)).
Proof.
  intros Hs Hc Hb Hp.
  assert (H : load_context s sid = ([], load_file p sid)).
  { unfold load_context, load_from. rewrite Hc. clear Hc.
    destruct (before ++ p :: after) as [|c cs] eqn:E;
      [now destruct before|].
    rewrite <- E. clear E c cs.
    assert (Hn : nonempty_str sid = true).
    { unfold nonempty_str. now destruct (String.eqb_spec sid ""). }
    rewrite Hn, filter_Is_true, (exact_matches_first _ _ _ _ Hb Hp).
    reflexivity. }
  rewrite H. split; [reflexivity|]. unfold load_file.
  split; [|split].
  - now intros ->.
  - now intros e ->.
  - intros ctx [= Hl].
    destruct (parse_history_file p) as [[|x es]|e]; simpl in Hl;
      try discriminate.
    injection Hl as <-. auto.
Qed.

(** *** [load_context]: the fallback loop *)

Lemma try_each_inv (l : list file) (logs : list log_record)
  (r : result SessionContext) :
  try_each l = (logs, r) ->
  exists failed rest,
    l = failed ++ rest
    /\ Forall2 (fun q lg =>
                  exists e,
                    load_file q (stem (name q)) = Raise e
                    /\ lg = ParseFailureWarning (path q) e)
               failed logs
    /\ match r with
       | Ok ctx =>
           exists p rest',
             rest = p :: rest' /\ load_file p (stem (name p)) = Ok ctx
       | Raise e => rest = [] /\ e = FileNotFoundError
       end.
Proof.
  revert logs. induction l as [|p l IH]; intros logs; simpl.
  - intros [= <- <-]. exists [], []. repeat split; constructor.
  - destruct (load_file p (stem (name p))) as [ctx|e] eqn:E.
    + intros [= <- <-]. exists [], (p :: l).
      split; [reflexivity|]. split; [constructor|]. eauto.
    + destruct (try_each l) as [logs' r'] eqn:Et. intros [= <- <-].
      destruct (IH _ eq_refl) as (failed & rest & -> & HF & Hr).
      exists (p :: failed), rest. split; [reflexivity|].
      split; [|exact Hr]. constructor; [eauto | exact HF].
Qed.

Lemma fallback_taken (sid : string) (candidates : list file) :
  sid = "" \/ Forall (fun q => name q <> sid +:+ ".json") candidates ->
  load_from sid candidates = try_each (sorted_desc mtime candidates).
Proof.
  intros H. unfold load_from. destruct candidates as [|c cs] eqn:E;
    [reflexivity|].
  rewrite <- E in *. clear E c cs.
  destruct H as [->|H]; [reflexivity|].
  destruct (nonempty_str sid); [|reflexivity].
  rewrite filter_Is_true, filter_none; [reflexivity|].
  eapply Forall_impl; [exact H|]. intros q Hq. now apply String.eqb_neq.
Qed.

(** X26.  Without an exact match (the session id is empty, or no
    candidate is named [<id>.json]) the context comes from the newest
    candidate that loads: every candidate that was modified later failed
    to load and has its warning in the log, and the log holds nothing but
    the warnings of candidates that failed and are not older than the one
    that loaded.  When no candidate loads, the call raises
    [FileNotFoundError], whatever made the candidates fail, after one
    warning for each of them. *)
Theorem copilot_fallback_newest (s : storage) (sid : string)
  (logs : list log_record) (r : result SessionContext) :
  sid = "" \/ Forall (fun q => name q <> sid +:+ ".json")
                (find_session_files s) ->
  load_context s sid = (logs, r) ->
  match r with
  | Ok ctx =>
      exists p,
        In p (find_session_files s)
        /\ load_file p (stem (name p)) = Ok ctx
        /\ (forall q,
              In q (find_session_files s) -> mtime p < mtime q ->
              exists e,
                load_file q (stem (name q)) = Raise e
                /\ In (ParseFailureWarning (path q) e) logs)
        /\ Forall (fun lg =>
                     exists q e,
                       In q (find_session_files s)
                       /\ mtime p <= mtime q
                       /\ load_file q (stem (name q)) = Raise e
                       /\ lg = ParseFailureWarning (path q) e)
                  logs
  | Raise e =>
      e = FileNotFoundError
      /\ Forall (fun q =>
                   exists e',
                     load_file q (stem (name q)) = Raise e'
                     /\ In (ParseFailureWarning (path q) e') logs)
                (find_session_files s)
      /\ length logs = length (find_session_files s)
  end.
Proof.
  intros Hno H. unfold load_context in H. rewrite (fallback_taken _ _ Hno) in H.
  apply try_each_inv in H as (failed & rest & Hl & HF & Hr).
  pose proof (sorted_desc_perm mtime (find_session_files s)) as Hperm.
  pose proof (sorted_desc_sorted mtime (find_session_files s)) as Hsorted.
  rewrite Hl in Hperm, Hsorted.
  destruct r as [ctx|e].
  - destruct Hr as (p & rest' & -> & Hp). exists p.
    apply StronglySorted_middle in Hsorted as [Hbefore Hafter].
    split; [|split; [exact Hp|split]].
    + apply list_elem_of_In. rewrite <- Hperm. apply list_elem_of_In.
      apply in_or_app. right. now left.
    + intros q Hq Hlt.
      apply list_elem_of_In in Hq. rewrite <- Hperm in Hq.
      apply list_elem_of_In, in_app_or in Hq as [Hq|[->|Hq]].
      * destruct (Forall2_In_l _ _ _ _ HF Hq) as (lg & Hlg & e & He & ->).
        eauto.
      * lia.
      * apply List.Forall_forall with (x := q) in Hafter; [lia | exact Hq].
    + apply List.Forall_forall. intros lg Hlg.
      destruct (Forall2_In_r _ _ _ _ HF Hlg) as (q & Hq & e & He & ->).
      exists q, e. split; [|split; [|auto]].
      * apply list_elem_of_In. rewrite <- Hperm. apply list_elem_of_In.
        apply in_or_app. now left.
      * apply List.Forall_forall with (x := q) in Hbefore; [lia | exact Hq].
  - destruct Hr as [-> ->]. rewrite app_nil_r in Hperm.
    split; [reflexivity|]. split.
    + apply List.Forall_forall. intros q Hq.
      apply list_elem_of_In in Hq. rewrite <- Hperm in Hq.
      apply list_elem_of_In in Hq.
      destruct (Forall2_In_l _ _ _ _ HF Hq) as (lg & Hlg & e & He & ->).
      eauto.
    + rewrite <- (Permutation_length Hperm). symmetry.
      eapply Forall2_length, HF.
Qed.

(** *** Where a context comes from *)

Lemma load_file_inv (p : file) (sid : string) (ctx : SessionContext) :
  load_file p sid = Ok ctx ->
  session_id ctx = sid /\ parse_history_file p = Ok (entries ctx).
Proof.
  unfold load_file.
  destruct (parse_history_file p) as [[|x es]|e]; simpl; try discriminate.
  intros [= <-]. auto.
Qed.

(** X27.  The session id of a context that [load_context] returns is the
    stem of the name of a candidate file, and the entries of the context
    are what [_parse_history_file] reads from that file.  When the
    requested id is not empty and a candidate is named [<id>.json], the
    id of the context is the requested one.  (Otherwise it is the stem of
    the file that the fallback loaded, which may or may not be the
    requested id.) *)
Theorem copilot_context_origin (s : storage) (sid : string)
  (logs : list log_record) (ctx : SessionContext) :
  load_context s sid = (logs, Ok ctx) ->
  (exists p,
     In p (find_session_files s)
     /\ session_id ctx = stem (name p)
     /\ parse_history_file p = Ok (entries ctx))
  /\ (sid <> "" ->
      Exists (fun q => name q = sid +:+ ".json") (find_session_files s) ->
      session_id ctx = sid).
Proof.
  intros H. split; [|intros Hs Hex]; revert H.
  2:{ unfold load_context, load_from.
      destruct (find_session_files s) as [|c cs] eqn:E; [discriminate|].
      rewrite <- E in *. clear E c cs.
      assert (Hn : nonempty_str sid = true).
      { unfold nonempty_str. now destruct (String.eqb_spec sid ""). }
      rewrite Hn, filter_Is_true.
      destruct (List.filter _ (find_session_files s)) as [|p ps] eqn:Ef.
      - exfalso. apply List.Exists_exists in Hex as (q & Hq & Hname).
        assert (Hin : In q (List.filter
                              (fun q => String.eqb (name q) (sid +:+ ".json"))
                              (find_session_files s))).
        { apply filter_In. split; [exact Hq|]. now apply String.eqb_eq. }
        rewrite Ef in Hin. destruct Hin.
      - intros [= _ Hp]. now apply load_file_inv in Hp. }
  unfold load_context, load_from.
  destruct (find_session_files s) as [|c cs] eqn:E; [discriminate|].
  rewrite <- E. clear E c cs.
  destruct (nonempty_str sid) eqn:Hn.
  - rewrite filter_Is_true.
    destruct (List.filter _ (find_session_files s)) as [|p ps] eqn:Ef.
    + intros H. apply try_each_inv in H
        as (failed & rest & Hl & _ & p & rest' & -> & Hp).
      exists p. apply load_file_inv in Hp as [Hid Hes].
      split; [|auto].
      apply list_elem_of_In. rewrite <- (sorted_desc_perm mtime), Hl.
      apply list_elem_of_In, in_or_app. right. now left.
    + intros [= <- Hp].
      assert (Hin : In p (List.filter
                            (fun q => String.eqb (name q) (sid +:+ ".json"))
                            (find_session_files s)))
        by (rewrite Ef; now left).
      apply filter_In in Hin as [Hin Hname].
      apply String.eqb_eq in Hname.
      apply load_file_inv in Hp as [Hid Hes].
      exists p. split; [exact Hin|]. split; [|exact Hes].
      rewrite Hname, stem_json; [exact Hid|].
      unfold nonempty_str in Hn. now destruct (String.eqb_spec sid "").
  - intros H. apply try_each_inv in H
      as (failed & rest & Hl & _ & p & rest' & -> & Hp).
    exists p. apply load_file_inv in Hp as [Hid Hes].
    split; [|auto].
    apply list_elem_of_In. rewrite <- (sorted_desc_perm mtime), Hl.
    apply list_elem_of_In, in_or_app. right. now left.
Qed.

Lemma load_context_parsed (s : storage) (sid : string)
  (logs : list log_record) (ctx : SessionContext) :
  load_context s sid = (logs, Ok ctx) ->
  exists p, parse_history_file p = Ok (entries ctx).
Proof.
  unfold load_context, load_from.
  destruct (find_session_files s) as [|c cs]; [discriminate|].
  destruct (if nonempty_str sid then _ else _) as [|p ps].
  - intros H. apply try_each_inv in H
      as (failed & rest & _ & _ & p & rest' & _ & Hp).
    exists p. now apply load_file_inv in Hp.
  - intros [= _ Hp]. exists p. now apply load_file_inv in Hp.
Qed.

(** *** The entries of a context *)

Lemma flat_mapM_Forall {A B} (P : B -> Prop) (f : A -> result (list B))
  (l : list A) (ys : list B) :
  (forall x y, In x l -> f x = Ok y -> Forall P y) ->
  flat_mapM f l = Ok ys -> Forall P ys.
Proof.
  revert ys. induction l as [|x l IH]; intros ys Hf; simpl.
  - intros [= <-]. constructor.
  - intros H. inv_bind H. inv_bind H. injection H as <-.
    apply Forall_app. split.
    + eapply Hf; [now left | exact E].
    + apply IH; [|exact E0]. intros x' y' Hx'. apply Hf. now right.
Qed.

Lemma tool_call_text_prefix (x : string) :
  "Tool Call: " +:+ x = String "T" ("ool Call: " +:+ x).
Proof. reflexivity. Qed.

Lemma fragment_entries_shape ts req_id frag ans :
  fragment_entries ts req_id frag = Ok ans -> Forall chat_entry ans.
Proof.
  unfold fragment_entries. intros H. inv_bind H.
  destruct (truthy v) eqn:Hv.
  - injection H as <-. constructor; [|constructor].
    split; [exact Hv|]. left. simpl. auto.
  - inv_bind H. destruct (eq_str v0 "toolInvocationSerialized").
    + inv_ok H. subst ans. constructor; [|constructor]. split.
      * unfold tool_call_entry. cbn [text]. now rewrite tool_call_text_prefix.
      * right. cbn [kind role text tool_call_entry]. eauto.
    + injection H as <-. constructor.
Qed.

Lemma request_entries_shape req es :
  request_entries req = Ok es -> Forall chat_entry es.
Proof.
  unfold request_entries. intros H. inv_ok H. subst es.
  apply Forall_app. split.
  - unfold user_entries. destruct (truthy v2) eqn:Hv; constructor;
      [|constructor].
    split; [exact Hv|]. left. simpl. auto.
  - eapply flat_mapM_Forall; [|eassumption].
    intros x y _. apply fragment_entries_shape.
Qed.

Lemma parse_history_file_shape f es :
  parse_history_file f = Ok es -> Forall chat_entry es.
Proof.
  unfold parse_history_file. destruct (content f); [|discriminate].
  intros H. inv_bind H. inv_bind H.
  eapply flat_mapM_Forall; [|eassumption].
  intros x y _. apply request_entries_shape.
Qed.

(** X28.  Every entry of a context that [load_context] returns has a
    truthy text; it is a message of the user or of the assistant, or a
    tool call of the assistant whose text is a [str].  So the matching of
    a pattern against the context returns exactly when the text of every
    message is a [str]. *)
Theorem copilot_context_entries (s : storage) (sid : string)
  (logs : list log_record) (ctx : SessionContext) :
  load_context s sid = (logs, Ok ctx) ->
  Forall (fun e =>
            truthy (text e) = true
            /\ ((kind e = "message"
                 /\ (role e = JStr "user" \/ role e = JStr "assistant"))
                \/ (kind e = "tool_call" /\ role e = JStr "assistant"
                    /\ exists t, text e = JStr t)))
         (entries ctx)
  /\ forall pat : pattern,
       (exists sn, Main.collect_snippets pat ctx = Ok sn)
       <-> Forall (fun e => kind e = "message" -> exists t, text e = JStr t)
                  (entries ctx).
Proof.
  intros H. apply load_context_parsed in H as (p & Hp).
  apply parse_history_file_shape in Hp.
  split; [exact Hp|]. intros pat.
  etransitivity; [apply (collect_snippets_total pat ctx)|].
  induction Hp as [|e es (Ht & He) _ IH]; [split; constructor|].
  split; intros HF; inversion HF as [|? ? Hx Hxs]; subst;
    (constructor; [|now apply IH]).
  - intros _. now apply Hx.
  - intros _. destruct He as [(Hk & _)|(_ & _ & Hs)]; auto.
Qed.

End CopilotLaws.

Lemma copilot_exact_match_witness :
  Copilot.load_context (RT := Reference.runtime)
    (Copilot.Discovered [MoreSamples.older_chat_file;
                         MoreSamples.empty_chat_file;
                         Samples.find_me_file])
    "empty"
  = ([], Raise ValueError).
Proof.
  refine (proj1 (proj2
            (copilot_exact_match (RT := Reference.runtime)
               (Copilot.Discovered [MoreSamples.older_chat_file;
                                    MoreSamples.empty_chat_file;
                                    Samples.find_me_file])
               "empty" [MoreSamples.older_chat_file] [Samples.find_me_file]
               MoreSamples.empty_chat_file _ _ _ _)) _).
  - discriminate.
  - reflexivity.
  - constructor; [|constructor]. vm_compute. discriminate.
  - reflexivity.
  - vm_compute. reflexivity.
Defined.

Lemma copilot_fallback_newest_witness :
  exists logs ctx p,
    Copilot.load_context (RT := Reference.runtime)
      (Copilot.Discovered [MoreSamples.older_chat_file;
                           MoreSamples.broken_chat_file;
                           MoreSamples.empty_chat_file])
      ""
    = (logs, Ok ctx)
    /\ In p [MoreSamples.older_chat_file; MoreSamples.broken_chat_file;
             MoreSamples.empty_chat_file]
    /\ Copilot.load_file (RT := Reference.runtime) p
         (Copilot.stem (Copilot.name p))
       = Ok ctx.
Proof.
  assert (E : exists logs ctx,
            Copilot.load_context (RT := Reference.runtime)
              (Copilot.Discovered [MoreSamples.older_chat_file;
                                   MoreSamples.broken_chat_file;
                                   MoreSamples.empty_chat_file])
              ""
            = (logs, Ok ctx)).
  { eexists _, _. vm_compute. reflexivity. }
  destruct E as (logs & ctx & E).
  destruct (copilot_fallback_newest (RT := Reference.runtime) _ _ _ _
              (or_introl eq_refl) E) as (p & Hin & Hp & _).
  exists logs, ctx, p. split; [exact E|]. split; [exact Hin | exact Hp].
Defined.

Lemma copilot_context_origin_witness :
  exists logs ctx p,
    Copilot.load_context (RT := Reference.runtime)
      (Copilot.Discovered [MoreSamples.broken_chat_file;
                           MoreSamples.older_chat_file])
      "older.session"
    = (logs, Ok ctx)
    /\ session_id ctx = Copilot.stem (Copilot.name p)
    /\ Copilot.parse_history_file (RT := Reference.runtime) p
       = Ok (entries ctx).
Proof.
  assert (E : exists logs ctx,
            Copilot.load_context (RT := Reference.runtime)
              (Copilot.Discovered [MoreSamples.broken_chat_file;
                                   MoreSamples.older_chat_file])
              "older.session"
            = (logs, Ok ctx)).
  { eexists _, _. vm_compute. reflexivity. }
  destruct E as (logs & ctx & E).
  destruct (copilot_context_origin (RT := Reference.runtime) _ _ _ _ E)
    as [(p & _ & Hid & Hes) _].
  exists logs, ctx, p. split; [exact E|]. split; [exact Hid | exact Hes].
Defined.

Lemma copilot_context_entries_witness :
  exists logs ctx,
    Copilot.load_context (RT := Reference.runtime)
      (Copilot.RootIsFile Samples.find_me_file) "discovered-session"
    = (logs, Ok ctx)
    /\ Forall (fun e => truthy (text e) = true) (entries ctx).
Proof.
  assert (E : exists logs ctx,
            Copilot.load_context (RT := Reference.runtime)
              (Copilot.RootIsFile Samples.find_me_file) "discovered-session"
            = (logs, Ok ctx)).
  { eexists _, _. vm_compute. reflexivity. }
  destruct E as (logs & ctx & E). exists logs, ctx. split; [exact E|].
  destruct (copilot_context_entries (RT := Reference.runtime) _ _ _ _ E)
    as [HF _].
  eapply Forall_impl; [exact HF|]. intros e [Ht _]. exact Ht.
Defined.

(* ===================================================================== *)
(** ** main.py over frameworks/codex.py *)
(* ===================================================================== *)

Section ToolsOverCodex.
Context `{RT : Runtime}.

(** X29.  [read_relevant_sticky_notes] with the line-format provider and a
    store that can be read.  When the call returns, the provider had a
    context for the session.  When it raises, one of three things
    happened.  The session id is empty or the provider raised
    [FileNotFoundError]: the call raises [RuntimeError] and the tracker is
    as before.  Or the provider raised something else: the call raises the
    same and the tracker is as before.  Or the provider had a context, and
    the exception is that of compiling the regex of a stored note; the
    matching itself never fails. *)
Theorem codex_read_relevant_outcome (root : Codex.history_root)
  (sid : string) (notes : Storage.store) (stored : list Storage.StickyNote)
  (t t' : SessionState.tracker) (r : result (list Main.NotePayload)) :
  Storage.all_notes notes = Ok stored ->
  Main.read_relevant_sticky_notes (codex_provider root sid) notes t sid
  = (t', r) ->
  match r with
  | Ok _ =>
      sid <> ""
      /\ exists ctx logs, Codex.load_context root sid = Ok (ctx, logs)
  | Raise e =>
      (t' = t /\ e = RuntimeError
       /\ (sid = ""
           \/ Codex.load_context root sid = Raise FileNotFoundError))
      \/ (t' = t /\ sid <> "" /\ e <> FileNotFoundError
          /\ Codex.load_context root sid = Raise e)
      \/ (sid <> ""
          /\ (exists ctx logs, Codex.load_context root sid = Ok (ctx, logs))
          /\ exists n,
               In n stored
               /\ Main.compile_regex (Storage.context_regex n) = Raise e
               /\ e <> ValueError)
  end.
Proof.
  intros Hall. unfold Main.read_relevant_sticky_notes, codex_provider.
  unfold nonempty_str. destruct (String.eqb_spec sid "") as [->|Hs]; simpl.
  - intros [= <- <-]. left. auto.
  - destruct (Codex.load_context root sid) as [[ctx logs]|e] eqn:El; simpl.
    + rewrite Hall.
      pose proof (load_context_texts _ _ _ _ El) as (_ & _ & HF).
      destruct (Main.deliver ctx sid stored t) as [t1 [ds|e1]] eqn:E; simpl.
      * intros [= <- <-]. split; [exact Hs|]. eauto.
      * intros [= <- <-]. right. right. split; [exact Hs|].
        split; [eauto|]. eapply str_texts_deliver_raise; eauto.
    + destruct e; intros [= <- <-];
        first [ left; split; [reflexivity|]; split; [reflexivity|];
                right; reflexivity
              | right; left; split; [reflexivity|]; split; [exact Hs|];
                split; [discriminate | reflexivity] ].
Qed.

End ToolsOverCodex.

Lemma codex_read_relevant_outcome_witness :
  exists t',
    Main.read_relevant_sticky_notes (RT := Reference.runtime)
      (codex_provider (RT := Reference.runtime)
         (Codex.RootDir [Samples.empty_history_file]) "conversation-id")
      MoreSamples.two_notes ∅ "conversation-id"
    = (t', Raise RuntimeError)
    /\ (t' = ∅
        \/ exists n,
             Main.compile_regex (RT := Reference.runtime)
               (Storage.context_regex n)
             = Raise RuntimeError).
Proof.
  assert (A : exists stored,
            Storage.all_notes (RT := Reference.runtime) MoreSamples.two_notes
            = Ok stored).
  { eexists. vm_compute. reflexivity. }
  assert (E : exists t',
            Main.read_relevant_sticky_notes (RT := Reference.runtime)
              (codex_provider (RT := Reference.runtime)
                 (Codex.RootDir [Samples.empty_history_file])
                 "conversation-id")
              MoreSamples.two_notes ∅ "conversation-id"
            = (t', Raise RuntimeError)).
  { eexists. vm_compute. reflexivity. }
  destruct A as (stored & A). destruct E as (t' & E).
  exists t'. split; [exact E|].
  destruct (codex_read_relevant_outcome (RT := Reference.runtime)
              _ _ _ _ _ _ _ A E)
    as [(Ht & _)|[(Ht & _)|(_ & _ & n & _ & Hc & _)]]; eauto.
Defined.
